(** * Classifying TESS flares with CNNs: the notebook's own logic

    A shallow embedding of the code cells of
    [Classifying_TESS_flares_with_CNNs.ipynb] that carry logic of their own:
    the NaN filter [remove_nans] and its application to the three dataset
    splits, the sample plot, the layer graph of the model [cnn] with the
    shapes Keras infers for it, and [plot_confusion_matrix].

    Floating-point values are IEEE-754 values of [SpecFloat.spec_float];
    arithmetic on them is the executable specification of the Standard
    Library ([SFadd], [SFdiv], [SFcompare]), at binary64 for numpy's
    ['float'] and at binary32 for Keras predictions; the threshold on the
    predictions compares values, whatever format they are written in.  numpy arrays are a
    shape and a row-major buffer.  Python exceptions are an explicit result
    type. *)

From Stdlib Require Import List Arith ZArith Lia Bool SpecFloat.
From Stdlib Require Import Sorting.Sorted.
From Stdlib Require String.
From Stdlib Require QArith Qpower.
Import ListNotations.
Import String.StringSyntax.
Delimit Scope string_scope with string.

Set Implicit Arguments.

(** ** Python exceptions *)

Module Py.

Inductive exn : Set := IndexError | ValueError | TypeError.

Inductive result (A : Type) : Type :=
| Ok (a : A)
| Raise (e : exn).

Arguments Ok {A} a.
Arguments Raise {A} e.

Definition bind {A B : Type} (m : result A) (k : A -> result B) : result B :=
  match m with
  | Ok a => k a
  | Raise e => Raise e
  end.

(** [for x in xs: s = body x s], stopping at the first exception. *)
Fixpoint for_each {A S : Type} (xs : list A) (body : A -> S -> result S)
  (s : S) : result S :=
  match xs with
  | [] => Ok s
  | x :: xs' => bind (body x s) (for_each xs' body)
  end.

(** [range(n)] *)
Definition range (n : nat) : list nat := seq 0 n.

End Py.

Import Py.

Declare Scope py_scope.
Notation "x <- m ;; k" := (bind m (fun x => k))
  (at level 61, m at next level, right associativity) : py_scope.
Local Open Scope py_scope.

(** ** numpy arrays *)

Module Np.

Record ndarray (A : Type) : Type := mk_ndarray {
  shape : list nat;
  data : list A
}.

Arguments mk_ndarray {A} shape data.

(** Number of elements of an array of the given shape. *)
Definition size_of (sh : list nat) : nat := fold_right Nat.mul 1 sh.

(** The buffer holds exactly the elements the shape announces. *)
Definition wf {A : Type} (a : ndarray A) : Prop :=
  length (data a) = size_of (shape a).

Definition wfb {A : Type} (a : ndarray A) : bool :=
  length (data a) =? size_of (shape a).

(** [np.shape(a)[0]]: indexing the empty shape tuple of a 0-d array
    raises [IndexError]. *)
Definition shape0 {A : Type} (a : ndarray A) : result nat :=
  match shape a with
  | [] => Raise IndexError
  | n :: _ => Ok n
  end.

(** [len(a)]: a 0-d array is unsized. *)
Definition len {A : Type} (a : ndarray A) : result nat :=
  match shape a with
  | [] => Raise TypeError
  | n :: _ => Ok n
  end.

(** The [k]-th block of [sz] consecutive elements of a buffer. *)
Definition block {A : Type} (sz : nat) (buf : list A) (k : nat) : list A :=
  firstn sz (skipn (k * sz) buf).

(** [a[k]] as a buffer: the [k]-th item along the first axis. *)
Definition row {A : Type} (a : ndarray A) (k : nat) : list A :=
  block (size_of (tl (shape a))) (data a) k.

(** [a[k, :, :]]: needs at least three axes and [k] within the first. *)
Definition index_k_all_all {A : Type} (a : ndarray A) (k : nat)
  : result (ndarray A) :=
  match shape a with
  | n :: r :: c :: rest =>
      if k <? n
      then Ok (mk_ndarray (r :: c :: rest) (row a k))
      else Raise IndexError
  | _ => Raise IndexError
  end.

(** [a[k, i, j]] of a 3-d array, row-major. *)
Definition get3 {A : Type} (a : ndarray A) (k i j : nat) : option A :=
  match shape a with
  | [n; r; c] =>
      if (k <? n) && (i <? r) && (j <? c)
      then nth_error (data a) ((k * r + i) * c + j)
      else None
  | _ => None
  end.

(** Elementwise map, as for [np.isnan(a)], [a > x] and [a.astype(t)]. *)
Definition map_elts {A B : Type} (f : A -> B) (a : ndarray A) : ndarray B :=
  mk_ndarray (shape a) (map f (data a)).

(** [np.isnan] *)
Definition is_nan (x : spec_float) : bool :=
  match x with
  | S754_nan => true
  | _ => false
  end.

Definition isnan (a : ndarray spec_float) : ndarray bool :=
  map_elts is_nan a.

(** [a[mask]] for a boolean mask of the shape of [a]: the 1-d array of
    the elements where the mask holds. *)
Definition mask_select {A : Type} (a : ndarray A) (mask : ndarray bool)
  : result (ndarray A) :=
  if list_eq_dec Nat.eq_dec (shape a) (shape mask)
  then
    let sel := map fst (filter snd (combine (data a) (data mask))) in
    Ok (mk_ndarray [length sel] sel)
  else Raise IndexError.

(** [a[idx]] for a Python list of indices: the items of the first axis
    at those indices, in the order of the list. *)
Definition take {A : Type} (a : ndarray A) (idx : list nat)
  : result (ndarray A) :=
  match shape a with
  | [] => Raise IndexError
  | n :: rest =>
      if forallb (fun k => k <? n) idx
      then Ok (mk_ndarray (length idx :: rest) (flat_map (row a) idx))
      else Raise IndexError
  end.

End Np.

Import Np.

(** ** The NaN filter *)

(** [[
def remove_nans(input_data):
    idx = []
    for k in range(np.shape(input_data)[0]):
        if len(input_data[k, :, :][np.isnan(input_data[k, :, :])]) == 0:
            idx.append(k)
    return idx
]] *)
Definition remove_nans (input_data : ndarray spec_float) : result (list nat) :=
  n <- shape0 input_data ;;
  for_each (range n)
    (fun k idx =>
       s <- index_k_all_all input_data k ;;
       m <- index_k_all_all input_data k ;;
       nans <- mask_select s (isnan m) ;;
       l <- len nans ;;
       if l =? 0 then Ok (idx ++ [k]) else Ok idx)
    [].

(** The dataset object of the notebook: three splits of examples and of
    their binary labels (1 = flare, 0 = no flare). *)
Record dataset : Type := mk_dataset {
  train_data : ndarray spec_float;
  train_labels : ndarray Z;
  test_data : ndarray spec_float;
  test_labels : ndarray Z;
  val_data : ndarray spec_float;
  val_labels : ndarray Z
}.

(** [[
idx_train = remove_nans(ds.train_data)
idx_test = remove_nans(ds.test_data)
idx_val = remove_nans(ds.val_data)
ds.train_data = ds.train_data[idx_train]
ds.train_labels = ds.train_labels[idx_train]
...
]] *)
Definition filter_dataset (ds : dataset) : result dataset :=
  idx_train <- remove_nans (train_data ds) ;;
  idx_test <- remove_nans (test_data ds) ;;
  idx_val <- remove_nans (val_data ds) ;;
  trd <- take (train_data ds) idx_train ;;
  trl <- take (train_labels ds) idx_train ;;
  ted <- take (test_data ds) idx_test ;;
  tel <- take (test_labels ds) idx_test ;;
  vad <- take (val_data ds) idx_val ;;
  val <- take (val_labels ds) idx_val ;;
  Ok (mk_dataset trd trl ted tel vad val).

(** ** IEEE-754 formats *)

(** binary64, numpy's ['float'] and Python's [float]. *)
Module F64.

Definition prec : Z := 53.
Definition emax : Z := 1024.

Definition add : spec_float -> spec_float -> spec_float := SFadd prec emax.
Definition div : spec_float -> spec_float -> spec_float := SFdiv prec emax.

(** Conversion of an integer, rounding to nearest even. *)
Definition of_Z (z : Z) : spec_float := binary_normalize prec emax z 0 false.

Definition zero : spec_float := S754_zero false.
Definition one : spec_float := S754_finite false 4503599627370496 (-52).
Definition half : spec_float := S754_finite false 4503599627370496 (-53).

(** The Python literal [0.1]. *)
Definition tenth : spec_float := S754_finite false 7205759403792794 (-56).

(** [np.add.reduce] of a short row: left to right from its first
    element; the empty sum is 0. *)
Definition sum (l : list spec_float) : spec_float :=
  match l with
  | [] => zero
  | x :: xs => fold_left add xs x
  end.

End F64.

(** binary32, the dtype of Keras predictions. *)
Module F32.

Definition prec : Z := 24.
Definition emax : Z := 128.

(** [0.5], to which numpy casts the Python scalar when it compares it
    with a float32 array. *)
Definition half : spec_float := S754_finite false 8388608 (-24).

Definition valid (x : spec_float) : bool := valid_binary prec emax x.

End F32.

(** ** The model definition *)

Module Keras.

Inductive activation : Set := relu | sigmoid.

Inductive padding : Set := same | valid.

(** The layers the notebook imports, with the arguments it passes. *)
Inductive layer : Type :=
| InputLayer (shape : list nat)
| Convolution1D (filters kernel_size : nat) (act : activation)
    (pad : padding) (input_shape : option (list nat))
| MaxPooling1D (pool_size : nat)
| Dropout (rate : spec_float)
| Flatten
| Dense (units : nat) (act : activation).

(** A symbolic tensor of the functional API: an input, or the result
    of calling a layer on a tensor. *)
Inductive tensor : Type :=
| Input (shape : list nat)
| Call (l : layer) (x : tensor).

(** [Model(inputs=..., outputs=...)] *)
Record model : Type := Model { inputs : tensor; outputs : tensor }.

(** The layers between the network's input and a tensor, input first. *)
Fixpoint layers_to (t : tensor) : list layer :=
  match t with
  | Input sh => [InputLayer sh]
  | Call l x => layers_to x ++ [l]
  end.

(** [model.layers] *)
Definition layers (m : model) : list layer := layers_to (outputs m).

(** The shape a layer gives to an input of shape [sh], the batch axis
    left out.  A convolution or a pooling needs a length and a channel
    axis, and Keras refuses with [ValueError] a call whose window does not
    fit in the length: the output would have no element. *)
Definition layer_output (l : layer) (sh : list nat) : result (list nat) :=
  match l with
  | InputLayer s => Ok s
  | Convolution1D filters kernel_size _ pad _ =>
      match sh with
      | [len; _] =>
          match pad with
          | same => Ok [len; filters]
          | valid =>
              if (1 <=? kernel_size) && (kernel_size <=? len)
              then Ok [len - kernel_size + 1; filters]
              else Raise ValueError
          end
      | _ => Raise ValueError
      end
  | MaxPooling1D pool_size =>
      match sh with
      | [len; channels] =>
          if (1 <=? pool_size) && (pool_size <=? len)
          then Ok [(len - pool_size) / pool_size + 1; channels]
          else Raise ValueError
      | _ => Raise ValueError
      end
  | Dropout _ => Ok sh
  | Flatten => Ok [size_of sh]
  | Dense units _ =>
      match rev sh with
      | [] => Raise ValueError
      | _ :: r => Ok (rev r ++ [units])
      end
  end.

(** The shape of a symbolic tensor. *)
Fixpoint output_shape (t : tensor) : result (list nat) :=
  match t with
  | Input sh => Ok sh
  | Call l x => bind (output_shape x) (layer_output l)
  end.

(** [layer(x)]: the call builds the output tensor, inferring its shape. *)
Definition call (l : layer) (x : tensor) : result tensor :=
  bind (output_shape (Call l x)) (fun _ => Ok (Call l x)).

Inductive kind : Set :=
| KInput | KConvolution | KMaxPooling | KDropout | KFlatten | KDense.

Definition kind_of (l : layer) : kind :=
  match l with
  | InputLayer _ => KInput
  | Convolution1D _ _ _ _ _ => KConvolution
  | MaxPooling1D _ => KMaxPooling
  | Dropout _ => KDropout
  | Flatten => KFlatten
  | Dense _ _ => KDense
  end.

(** What [plot_confusion_matrix] uses of a model: its [predict] method,
    which the learned weights determine. *)
Record predictor : Type := {
  predict : ndarray spec_float -> result (ndarray spec_float)
}.

End Keras.

Import Keras.

Definition filter1 : nat := 16.
Definition filter2 : nat := 64.
Definition dense : nat := 32.
Definition dropout : spec_float := F64.tenth.

(** [np.shape(a)[1]] *)
Definition shape1 {A : Type} (a : ndarray A) : result nat :=
  match shape a with
  | _ :: n :: _ => Ok n
  | _ => Raise IndexError
  end.

(** [[
input_shape = (np.shape(ds.train_data)[1], 1)
x_in = Input(shape=input_shape)
c0 = Convolution1D(7, filter1, activation='relu', padding='same', input_shape=input_shape)(x_in)
b0 = MaxPooling1D(pool_size=2)(c0)
d0 = Dropout(dropout)(b0)
c1 = Convolution1D(3, filter2, activation='relu', padding='same')(d0)
b1 = MaxPooling1D(pool_size=2)(c1)
d1 = Dropout(dropout)(b1)
f = Flatten()(d1)
z0 = Dense(dense, activation='relu')(f)
d2 = Dropout(dropout)(z0)
y_out = Dense(1, activation='sigmoid')(d2)
cnn = Model(inputs=x_in, outputs=y_out)
]] *)
Definition define_cnn (ds : dataset) : result model :=
  n1 <- shape1 (train_data ds) ;;
  let input_shape := [n1; 1] in
  let x_in := Input input_shape in
  c0 <- call (Convolution1D 7 filter1 relu same (Some input_shape)) x_in ;;
  b0 <- call (MaxPooling1D 2) c0 ;;
  d0 <- call (Dropout dropout) b0 ;;
  c1 <- call (Convolution1D 3 filter2 relu same None) d0 ;;
  b1 <- call (MaxPooling1D 2) c1 ;;
  d1 <- call (Dropout dropout) b1 ;;
  f <- call Flatten d1 ;;
  z0 <- call (Dense dense relu) f ;;
  d2 <- call (Dropout dropout) z0 ;;
  y_out <- call (Dense 1 sigmoid) d2 ;;
  Ok (Model x_in y_out).

(** ** The confusion matrix *)

(** [sklearn.metrics.confusion_matrix], as the library documents it:
    entry [(i, j)] counts the samples whose true label is [labels[i]] and
    whose predicted label is [labels[j]]; samples with a label outside
    [labels] are not counted.  The targets are checked first: they must
    have as many samples as each other and be 1-d, or one column that is
    not empty (an empty 2-d target has no known type). *)
Module Sklearn.

(** The number of samples of a target; a 0-d array has none to index. *)
Definition num_samples {A : Type} (y : ndarray A) : result nat :=
  match shape y with
  | [] => Raise IndexError
  | n :: _ => Ok n
  end.

(** 1-d targets, or a single non-empty column. *)
Definition column_or_1d {A : Type} (y : ndarray A) : result (list A) :=
  match shape y with
  | [] => Raise IndexError
  | [_] => Ok (data y)
  | [n; 1] => if n =? 0 then Raise ValueError else Ok (data y)
  | _ => Raise ValueError
  end.

(** Position of a label in [labels]. *)
Fixpoint label_to_ind (labels : list Z) (y : Z) : option nat :=
  match labels with
  | [] => None
  | l :: ls =>
      if Z.eqb y l then Some 0
      else match label_to_ind ls y with
           | Some i => Some (S i)
           | None => None
           end
  end.

(** Add one to the cell at position [p] of a buffer of counts. *)
Fixpoint incr (cm : list Z) (p : nat) : list Z :=
  match cm, p with
  | [], _ => []
  | c :: cs, 0 => (c + 1)%Z :: cs
  | c :: cs, S p' => c :: incr cs p'
  end.

Definition count_pair (labels : list Z) (cm : list Z) (tp : Z * Z)
  : list Z :=
  match label_to_ind labels (fst tp), label_to_ind labels (snd tp) with
  | Some i, Some j => incr cm (i * length labels + j)
  | _, _ => cm
  end.

Definition confusion_matrix (y_true y_pred : ndarray Z) (labels : list Z)
  : result (ndarray Z) :=
  n_true <- num_samples y_true ;;
  n_pred <- num_samples y_pred ;;
  if negb (n_true =? n_pred) then Raise ValueError
  else
  yt <- column_or_1d y_true ;;
  yp <- column_or_1d y_pred ;;
  let n_labels := length labels in
  if n_labels =? 0 then Raise ValueError
  else if length yt =? 0
    then Ok (mk_ndarray [n_labels; n_labels] (repeat 0%Z (n_labels * n_labels)))
  else if negb (existsb (fun y => existsb (Z.eqb y) labels) yt)
    then Raise ValueError
  else Ok (mk_ndarray [n_labels; n_labels]
             (fold_left (count_pair labels) (combine yt yp)
                (repeat 0%Z (n_labels * n_labels)))).

End Sklearn.

(** A mantissa with its sign. *)
Definition signed (s : bool) (m : positive) : Z :=
  if s then Z.neg m else Z.pos m.

(** The comparison of numpy's [>]: two finite numbers are compared by
    value, with their mantissas brought to the smaller of the two
    exponents, so that the outcome does not depend on the format either
    operand is written in; zeros, infinities and NaN compare as in
    IEEE-754. *)
Definition compare_values (x y : spec_float) : option comparison :=
  match x, y with
  | S754_finite sx mx ex, S754_finite sy my ey =>
      let e := Z.min ex ey in
      Some (Z.compare (signed sx mx * 2 ^ (ex - e))
                      (signed sy my * 2 ^ (ey - e)))
  | _, _ => SFcompare x y
  end.

(** [x > y]: false when unordered. *)
Definition greater (x y : spec_float) : bool :=
  match compare_values x y with
  | Some Gt => true
  | _ => false
  end.

(** [predictions > 0.5] *)
Definition greater_half (predictions : ndarray spec_float) : ndarray bool :=
  map_elts (fun p => greater p F32.half) predictions.

(** [.astype('int32')] of a boolean array *)
Definition astype_int32 (a : ndarray bool) : ndarray Z :=
  map_elts (fun b : bool => if b then 1%Z else 0%Z) a.

(** [.astype('float')] of an integer array *)
Definition astype_float (a : ndarray Z) : ndarray spec_float :=
  map_elts F64.of_Z a.

(** [a.sum(axis=1)]: the items along the second axis are added up
    elementwise; fewer than two axes is numpy's [AxisError]. *)
Definition add_items (sz : nat) (items : list (list spec_float))
  : list spec_float :=
  match items with
  | [] => repeat F64.zero sz
  | b :: bs =>
      fold_left
        (fun acc b' => map (fun xy => F64.add (fst xy) (snd xy)) (combine acc b'))
        bs b
  end.

Definition sum_axis1 (a : ndarray spec_float) : result (ndarray spec_float) :=
  match shape a with
  | n :: m :: rest =>
      let sz := size_of rest in
      Ok (mk_ndarray (n :: rest)
            (flat_map
               (fun i => add_items sz (map (block sz (row a i)) (range m)))
               (range n)))
  | _ => Raise ValueError
  end.

(** [a[:, np.newaxis]] *)
Definition newaxis1 {A : Type} (a : ndarray A) : result (ndarray A) :=
  match shape a with
  | n :: rest => Ok (mk_ndarray (n :: 1 :: rest) (data a))
  | [] => Raise IndexError
  end.

(** numpy broadcasting of two shapes of the same rank: along each axis
    the lengths agree or one of them is 1. *)
Fixpoint broadcast_shape (sa sb : list nat) : option (list nat) :=
  match sa, sb with
  | [], [] => Some []
  | na :: sa', nb :: sb' =>
      match broadcast_shape sa' sb' with
      | Some sh =>
          if na =? nb then Some (na :: sh)
          else if na =? 1 then Some (nb :: sh)
          else if nb =? 1 then Some (na :: sh)
          else None
      | None => None
      end
  | _, _ => None
  end.

(** The buffer of [a / b] for buffers of shapes [sa] and [sb] of the
    same rank that broadcast. *)
Fixpoint divide_buf (sa sb : list nat) (da db : list spec_float)
  : list spec_float :=
  match sa, sb with
  | na :: sa', nb :: sb' =>
      flat_map
        (fun i =>
           divide_buf sa' sb'
             (block (size_of sa') da (if na =? 1 then 0 else i))
             (block (size_of sb') db (if nb =? 1 then 0 else i)))
        (range (if na =? 1 then nb else na))
  | _, _ =>
      match da, db with
      | x :: _, y :: _ => [F64.div x y]
      | _, _ => []
      end
  end.

(** Shapes of different rank are aligned at their last axis. *)
Definition pad_shape (rank : nat) (sh : list nat) : list nat :=
  repeat 1 (rank - length sh) ++ sh.

(** [a / b] on float arrays.  Division by zero is not an exception in
    numpy: the quotient is an infinity or NaN. *)
Definition divide (a b : ndarray spec_float) : result (ndarray spec_float) :=
  let rank := Nat.max (length (shape a)) (length (shape b)) in
  let sa := pad_shape rank (shape a) in
  let sb := pad_shape rank (shape b) in
  match broadcast_shape sa sb with
  | Some sh => Ok (mk_ndarray sh (divide_buf sa sb (data a) (data b)))
  | None => Raise ValueError
  end.

(** [(predictions > 0.5).astype('int32')] *)
Definition binarize (predictions : ndarray spec_float) : ndarray Z :=
  astype_int32 (greater_half predictions).

(** [cm / cm.sum(axis=1)[:, np.newaxis]] *)
Definition normalize (cm : ndarray spec_float) : result (ndarray spec_float) :=
  s <- sum_axis1 cm ;;
  s <- newaxis1 s ;;
  divide cm s.

(** [[
def plot_confusion_matrix(cnn, input_data, input_labels):
    predictions = cnn.predict(input_data)
    predictions = (predictions > 0.5).astype('int32')
    cm = metrics.confusion_matrix(input_labels, predictions, labels=[0, 1])
    cm = cm.astype('float')
    cm_norm = cm / cm.sum(axis=1)[:, np.newaxis]
    ... # cm_norm is drawn with matplotlib
]]
    The value is the matrix [cm_norm] that the function goes on to draw;
    [confusion_counts] is [cm] after [astype('float')]. *)
Definition confusion_counts (cnn : predictor) (input_data : ndarray spec_float)
  (input_labels : ndarray Z) : result (ndarray spec_float) :=
  predictions <- predict cnn input_data ;;
  let predictions := binarize predictions in
  cm <- Sklearn.confusion_matrix input_labels predictions [0%Z; 1%Z] ;;
  Ok (astype_float cm).

Definition plot_confusion_matrix (cnn : predictor)
  (input_data : ndarray spec_float) (input_labels : ndarray Z)
  : result (ndarray spec_float) :=
  cm <- confusion_counts cnn input_data input_labels ;;
  normalize cm.

(** ** Drawing *)

(** matplotlib, as the sequence of the drawing calls made; keywords that
    only place or align a text ([y], [ha], [va], [figsize]) are left out. *)
Module Plt.

Inductive command : Type :=
| figure
| add_subplot (code : nat)
| subplot (nrows ncols index : nat)
| matshow (m : ndarray spec_float) (cmap : String.string)
| plot (ys : list spec_float) (color : String.string)
| title (s : String.string)
| xlabel (s : String.string)
| ylabel (s : String.string)
| set_xticks (ticks : list nat)
| set_xticklabels (names : list String.string)
| set_yticks (ticks : list nat)
| set_yticklabels (names : list String.string)
| text (x y : nat) (value : spec_float) (fmt color : String.string)
| tight_layout
| show.

(** The [text] calls of a drawing. *)
Definition is_text (c : command) : bool :=
  match c with
  | text _ _ _ _ _ => true
  | _ => false
  end.

End Plt.

Import Plt.

(** The Python literal [2.] *)
Definition two : spec_float := S754_finite false 4503599627370496 (-51).

(** [np.maximum]: a NaN operand is the result. *)
Definition maximum (x y : spec_float) : spec_float :=
  if is_nan x then x
  else if is_nan y then y
  else if SFltb x y then y else x.

(** [a.max()]: a zero-size array has no maximum. *)
Definition np_max (a : ndarray spec_float) : result spec_float :=
  match data a with
  | [] => Raise ValueError
  | x :: xs => Ok (fold_left maximum xs x)
  end.

(** [a[i, j]] as a number to format: on one axis there are too many
    indices, on more than two the item is an array, which [format] with
    ['.2f'] refuses. *)
Definition get2 {A : Type} (a : ndarray A) (i j : nat) : result A :=
  match shape a with
  | [r; c] =>
      if (i <? r) && (j <? c)
      then match nth_error (data a) (i * c + j) with
           | Some x => Ok x
           | None => Raise IndexError
           end
      else Raise IndexError
  | _ :: _ :: _ => Raise TypeError
  | _ => Raise IndexError
  end.

(** [[
for i in range(cm_norm.shape[0]):
    for j in range(cm_norm.shape[1]):
        ax.text(j, i, format(cm_norm[i, j], fmt), ...,
                color="white" if cm_norm[i, j] < thresh else "black")
]] *)
Definition annotate (cm_norm : ndarray spec_float) (fmt : String.string)
  (thresh : spec_float) (log : list command) : result (list command) :=
  r <- shape0 cm_norm ;;
  for_each (range r)
    (fun i log =>
       c <- shape1 cm_norm ;;
       for_each (range c)
         (fun j log =>
            v <- get2 cm_norm i j ;;
            Ok (log ++ [text j i v fmt
                          (if SFltb v thresh then "white" else "black")%string]))
         log)
    log.

(** The drawing part of [plot_confusion_matrix]:
    [[
    fig = plt.figure()
    ax = fig.add_subplot(111)
    ax.matshow(cm_norm, cmap='binary_r')
    plt.title('Confusion matrix', y=1.08)
    ax.set_xticks([0, 1])
    ax.set_xticklabels(['Flare', 'No Flare'])
    ax.set_yticks([0, 1])
    ax.set_yticklabels(['Flare', 'No Flare'])
    plt.xlabel('Predicted')
    plt.ylabel('True')
    fmt = '.2f'
    thresh = cm_norm.max() / 2.
    for i in ...: for j in ...: ax.text(...)
    plt.show()
    ]] *)
Definition draw_confusion_matrix (cm_norm : ndarray spec_float)
  : result (list command) :=
  let log :=
    [figure; add_subplot 111; matshow cm_norm "binary_r"%string;
     title "Confusion matrix"%string;
     set_xticks [0; 1]; set_xticklabels ["Flare"; "No Flare"]%string;
     set_yticks [0; 1]; set_yticklabels ["Flare"; "No Flare"]%string;
     xlabel "Predicted"%string; ylabel "True"%string] in
  let fmt := ".2f"%string in
  m <- np_max cm_norm ;;
  let thresh := F64.div m two in
  log <- annotate cm_norm fmt thresh log ;;
  Ok (log ++ [show]).

(** The whole of [plot_confusion_matrix]: the matrix, then its drawing. *)
Definition plot_confusion_matrix_figure (cnn : predictor)
  (input_data : ndarray spec_float) (input_labels : ndarray Z)
  : result (list command) :=
  cm_norm <- plot_confusion_matrix cnn input_data input_labels ;;
  draw_confusion_matrix cm_norm.

(** The annotation the loop writes for the cell at flat position [p] of
    a matrix of [c] columns. *)
Definition annotation (c : nat) (thresh : spec_float) (p : nat)
  (v : spec_float) : command :=
  text (p mod c) (p / c) v ".2f"%string
    (if SFltb v thresh then "white" else "black")%string.

(** ** The sample plot *)

(** What a cell can end in when it also subscripts a [dict]: a value, one
    of the exceptions of [Py.exn], or [KeyError]. *)
Module Cell.

Inductive outcome (A : Type) : Type :=
| Done (a : A)
| Failed (e : exn)
| KeyError.

Arguments Done {A} a.
Arguments Failed {A} e.
Arguments KeyError {A}.

Definition lift {A : Type} (r : result A) : outcome A :=
  match r with
  | Ok a => Done a
  | Raise e => Failed e
  end.

Definition obind {A B : Type} (m : outcome A) (k : A -> outcome B)
  : outcome B :=
  match m with
  | Done a => k a
  | Failed e => Failed e
  | KeyError => KeyError
  end.

(** [for x in xs: s = body x s] *)
Fixpoint ofor_each {A S : Type} (xs : list A) (body : A -> S -> outcome S)
  (s : S) : outcome S :=
  match xs with
  | [] => Done s
  | x :: xs' => obind (body x s) (ofor_each xs' body)
  end.

End Cell.

Import Cell.

Notation "x <~ m ;; k" := (obind m (fun x => k))
  (at level 61, m at next level, right associativity) : py_scope.

(** A [dict] with integer keys, as the list of its entries. *)
Fixpoint dict_get {V : Type} (d : list (Z * V)) (k : Z) : option V :=
  match d with
  | [] => None
  | (k', v) :: d' => if Z.eqb k k' then Some v else dict_get d' k
  end.

(** [d[key]] for a key taken out of an array: a number is looked up, an
    array is not hashable. *)
Definition subscript {V : Type} (d : list (Z * V)) (key : ndarray Z)
  : outcome V :=
  match shape key, data key with
  | [], [z] =>
      match dict_get d z with
      | Some v => Done v
      | None => KeyError
      end
  | _, _ => Failed TypeError
  end.

(** [a[j]] for one integer [j]: the item, with the remaining axes. *)
Definition item {A : Type} (a : ndarray A) (j : nat) : result (ndarray A) :=
  match shape a with
  | n :: rest =>
      if j <? n then Ok (mk_ndarray rest (row a j)) else Raise IndexError
  | [] => Raise IndexError
  end.

(** [[f(x) for x in xs]] *)
Definition comprehension {A B : Type} (f : A -> result B) (xs : list A)
  : result (list B) :=
  for_each xs (fun x acc => y <- f x ;; Ok (acc ++ [y])) [].

(** [np.random.choice(a, size)]: [size] draws from [range(a)], which
    must not be empty unless no draw is asked for.  The draws are those of
    the generator [draw]. *)
Definition random_choice (draw : nat -> nat -> list nat) (a size : nat)
  : result (list nat) :=
  if (a =? 0) && negb (size =? 0) then Raise ValueError
  else Ok (draw a size).

(** A generator that keeps the contract of [np.random.choice]. *)
Definition draws_in_range (draw : nat -> nat -> list nat) : Prop :=
  forall a size, 0 < a ->
    length (draw a size) = size /\ Forall (fun j => j < a) (draw a size).

(** [plt.subplot(nrows, ncols, index)]: the index counts from 1 and must
    not exceed the number of panels. *)
Definition plt_subplot (nrows ncols index : nat) : result command :=
  if (1 <=? index) && (index <=? nrows * ncols)
  then Ok (subplot nrows ncols index)
  else Raise ValueError.

(** [xs[i]] on a Python list *)
Definition list_index {A : Type} (xs : list A) (i : nat) : result A :=
  match nth_error xs i with
  | Some x => Ok x
  | None => Raise IndexError
  end.

(** [plt.plot(y, color=c)]: [y] is one curve, or a table with a curve in
    each column; an array of more than two axes is refused. *)
Definition plt_plot (y : ndarray spec_float) (color : String.string)
  : result command :=
  if length (shape y) <=? 2 then Ok (plot (data y) color)
  else Raise ValueError.

Definition colors : list (Z * String.string) :=
  [(1%Z, "r"%string); (0%Z, "k"%string)].

Definition titles : list (Z * String.string) :=
  [(1%Z, "Flare"%string); (0%Z, "Non-flare"%string)].

(** [[
example_ids = np.random.choice(len(ds.train_labels), 16)
example_lightcurves = [ds.train_data[j] for j in example_ids]
example_labels = [ds.train_labels[j] for j in example_ids]
fig = plt.figure(figsize=(10, 10))
colors = {1: 'r', 0: 'k'}
titles = {1: 'Flare', 0: 'Non-flare'}
for i in range(len(example_ids)):
    plt.subplot(4, 4, i + 1)
    plt.plot(example_lightcurves[i], color=colors[example_labels[i]])
    plt.title(titles[example_labels[i]])
    plt.xlabel('Cadences')
plt.tight_layout()
plt.show()
]] *)
Definition plot_examples (draw : nat -> nat -> list nat) (ds : dataset)
  : outcome (list command) :=
  n <~ lift (len (train_labels ds)) ;;
  example_ids <~ lift (random_choice draw n 16) ;;
  example_lightcurves <~
    lift (comprehension (item (train_data ds)) example_ids) ;;
  example_labels <~
    lift (comprehension (item (train_labels ds)) example_ids) ;;
  let log := [figure] in
  log <~ ofor_each (range (length example_ids))
           (fun i log =>
              panel <~ lift (plt_subplot 4 4 (i + 1)) ;;
              lc <~ lift (list_index example_lightcurves i) ;;
              lab <~ lift (list_index example_labels i) ;;
              color <~ subscript colors lab ;;
              curve <~ lift (plt_plot lc color) ;;
              lab' <~ lift (list_index example_labels i) ;;
              name <~ subscript titles lab' ;;
              Done (log ++ [panel; curve; title name;
                            xlabel "Cadences"%string]))
           log ;;
  Done (log ++ [tight_layout; show]).

(** The four drawing calls of the panel at position [i], for the example
    and the label at index [j]. *)
Definition panel_of (ds : dataset) (i j : nat) : list command :=
  let lab := nth j (data (train_labels ds)) 0%Z in
  [subplot 4 4 (i + 1);
   plot (row (train_data ds) j) (if Z.eqb lab 1 then "r" else "k")%string;
   title (if Z.eqb lab 1 then "Flare" else "Non-flare")%string;
   xlabel "Cadences"%string].

(** ** Specification-side notions *)

(** The 2-d slice [a[k, :, :]] of a 3-d array holds a NaN. *)
Definition slice_has_nan (a : ndarray spec_float) (k : nat) : Prop :=
  exists i j x, get3 a k i j = Some x /\ is_nan x = true.

(** A buffer without NaN. *)
Definition nan_free (xs : list spec_float) : bool :=
  forallb (fun x => negb (is_nan x)) xs.

(** Order-preserving sub-sequence. *)
Inductive subseq {A : Type} : list A -> list A -> Prop :=
| subseq_nil : subseq [] []
| subseq_skip : forall x l1 l2, subseq l1 l2 -> subseq l1 (x :: l2)
| subseq_keep : forall x l1 l2, subseq l1 l2 -> subseq (x :: l1) (x :: l2).

(** The items [a[0]], [a[1]], ... of an array along its first axis. *)
Definition items {A : Type} (a : ndarray A) : list (list A) :=
  map (row a) (range (hd 0 (shape a))).

(** [d'] and [l'] are [d[idx]] and [l[idx]], item by item: position [i]
    of both holds what position [idx[i]] held in [d] and in [l]. *)
Definition pairing_preserved {A B : Type} (d : ndarray A) (l : ndarray B)
  (idx : list nat) (d' : ndarray A) (l' : ndarray B) : Prop :=
  shape0 d' = Ok (length idx) /\ shape0 l' = Ok (length idx) /\
  forall i, i < length idx ->
    exists k, nth_error idx i = Some k /\
              row d' i = row d k /\ row l' i = row l k.

(** A split whose examples have at least three axes, whose labels have as
    many items as there are examples, both with full buffers. *)
Definition split_ok (d : ndarray spec_float) (l : ndarray Z) : Prop :=
  wf d /\ wf l /\
  exists n r c rest lrest,
    shape d = n :: r :: c :: rest /\ shape l = n :: lrest.

(** The number of samples with true label [t] and predicted label [p]. *)
Definition count_pairs (y_true y_pred : list Z) (t p : Z) : Z :=
  Z.of_nat
    (length
       (filter (fun tp => Z.eqb (fst tp) t && Z.eqb (snd tp) p)
          (combine y_true y_pred))).

(** The class of a predicted probability: 1 above one half, else 0. *)
Definition class_of (p : spec_float) : Z :=
  if greater p F32.half then 1%Z else 0%Z.

(** The rational number a finite float stands for: its signed mantissa
    times two to its exponent. *)
Definition value (s : bool) (m : positive) (e : Z) : QArith_base.Q :=
  QArith_base.Qmult (QArith_base.inject_Z (signed s m))
    (QArith_base.Qpower (QArith_base.Qmake 2 1) e).

(** A prediction is above one half: a finite number whose value exceeds
    1/2, or plus infinity; never a NaN. *)
Definition exceeds_half (p : spec_float) : Prop :=
  match p with
  | S754_finite s m e => QArith_base.Qlt (QArith_base.Qmake 1 2) (value s m e)
  | S754_infinity false => True
  | _ => False
  end.

(** Entry [(t, p)] of the row-normalized confusion matrix, in words: the
    count of the pair divided by the sum of the counts of row [t]. *)
Definition normalized_entry (y_true y_pred : list Z) (t p : Z) : spec_float :=
  F64.div (F64.of_Z (count_pairs y_true y_pred t p))
    (F64.add (F64.of_Z (count_pairs y_true y_pred t 0))
             (F64.of_Z (count_pairs y_true y_pred t 1))).

(** [d'] and [l'] have the axes of [d] and [l], but for a common and
    possibly smaller number of items, and full buffers. *)
Definition shrunk {A B : Type} (d : ndarray A) (l : ndarray B)
  (d' : ndarray A) (l' : ndarray B) : Prop :=
  wf d' /\ wf l' /\
  exists m, m <= hd 0 (shape d) /\
            shape d' = m :: tl (shape d) /\ shape l' = m :: tl (shape l).

(** No element of the array is a NaN. *)
Definition no_nan (a : ndarray spec_float) : Prop :=
  Forall (fun x => is_nan x = false) (data a).

(** ** Rounding in binary64 *)

(** How the Standard Library's operations round a mantissa of 53 bits or
    more, in closed form. *)

(** The record after [k] right shifts of the mantissa [m] located by
    [l]. *)
Definition shr_k (m : Z) (l : location) (k : Z) : shr_record :=
  if Z.eqb k 0 then shr_record_of_loc m l
  else Build_shr_record (m / 2 ^ k) (Z.testbit m (k - 1))
         (negb (Z.eqb (m mod 2 ^ (k - 1)) 0)
          || shr_r (shr_record_of_loc m l)
          || shr_s (shr_record_of_loc m l)).

(** Rounding to nearest, ties to even, of a shifted mantissa. *)
Definition rne_of (rc : shr_record) : Z :=
  if shr_r rc && (shr_s rc || Z.odd (shr_m rc))
  then (shr_m rc + 1)%Z else shr_m rc.

(** The binary64 value of a mantissa of [53 + k] bits at exponent [e]. *)
Definition normal_result (m e : Z) (l : location) (k : Z) : spec_float :=
  let m2 := rne_of (shr_k m l k) in
  if Z.eqb m2 9007199254740992
  then S754_finite false 4503599627370496 (e + k + 1)
  else S754_finite false (Z.to_pos m2) (e + k).

(** The 53-bit mantissa of a positive integer below [2^53]. *)
Definition mant (a : Z) : Z := (a * 2 ^ (53 - Zdigits2 a))%Z.

(** ** Sample inputs *)

(** Three examples of one row and two columns; the second holds a NaN. *)
Definition sample_data : ndarray spec_float :=
  mk_ndarray [3; 1; 2]
    [F64.one; F64.zero; S754_nan; F64.one; F64.half; F64.half].

Definition sample_labels : ndarray Z := mk_ndarray [3] [1; 0; 1]%Z.

Definition sample_ds : dataset :=
  mk_dataset sample_data sample_labels
             sample_data sample_labels
             sample_data sample_labels.

(** Two examples of one row and two columns, without NaN. *)
Definition clean_data : ndarray spec_float :=
  mk_ndarray [2; 1; 2] [F64.one; F64.zero; F64.half; F64.half].

Definition clean_labels : ndarray Z := mk_ndarray [2] [1; 0]%Z.

Definition clean_ds : dataset :=
  mk_dataset clean_data clean_labels
             clean_data clean_labels
             clean_data clean_labels.

(** Two examples with a window of four cadences and one channel; the
    second holds a NaN. *)
Definition window_data : ndarray spec_float :=
  mk_ndarray [2; 4; 1]
    [F64.one; F64.zero; F64.half; F64.half;
     F64.one; S754_nan; F64.zero; F64.one].

Definition window_labels : ndarray Z := mk_ndarray [2] [1; 0]%Z.

Definition window_ds : dataset :=
  mk_dataset window_data window_labels
             window_data window_labels
             window_data window_labels.

(** Predictions 0.1, 0.9, 0.2, 0.8 in binary32, as a column. *)
Definition sample_predictions : ndarray spec_float :=
  mk_ndarray [4; 1]
    [S754_finite false 13421773 (-27); S754_finite false 15099494 (-24);
     S754_finite false 13421773 (-26); S754_finite false 13421773 (-24)].

Definition sample_cnn : predictor :=
  {| predict := fun _ => Ok sample_predictions |}.

Definition sample_input : ndarray spec_float :=
  mk_ndarray [4; 1; 1] [F64.zero; F64.one; F64.zero; F64.one].






(** * Properties *)

Unset Implicit Arguments.

(** ** Buffers and blocks *)

Section Blocks.

Context {A : Type}.

Lemma nth_error_block (sz : nat) (buf : list A) (k p : nat) :
  p < sz -> nth_error (block sz buf k) p = nth_error buf (k * sz + p).
Proof.
  intros Hp. unfold block.
  rewrite nth_error_firstn.
  apply Nat.ltb_lt in Hp. rewrite Hp.
  now rewrite nth_error_skipn.
Qed.

Lemma In_block (sz : nat) (buf : list A) (k : nat) (x : A) :
  In x (block sz buf k) <->
  exists p, p < sz /\ nth_error buf (k * sz + p) = Some x.
Proof.
  split.
  - intros Hin. apply In_nth_error in Hin. destruct Hin as [p Hp].
    assert (Hlt : p < sz).
    { assert (H : p < length (block sz buf k))
        by (apply nth_error_Some; congruence).
      unfold block in H. rewrite length_firstn in H. lia. }
    exists p. split; [assumption|].
    now rewrite <- nth_error_block.
  - intros [p [Hlt Hp]].
    rewrite <- nth_error_block in Hp by assumption.
    eapply nth_error_In; eauto.
Qed.

Lemma length_block (sz : nat) (buf : list A) (k : nat) :
  (k + 1) * sz <= length buf -> length (block sz buf k) = sz.
Proof.
  intros H. unfold block. rewrite length_firstn, length_skipn. lia.
Qed.

(** A buffer made of pieces of length [sz]: its [i]-th block is the
    [i]-th piece. *)
Lemma block_flat_map (B : Type) (sz : nat) (f : B -> list A) (l : list B) :
  Forall (fun b => length (f b) = sz) l ->
  forall i b, nth_error l i = Some b ->
  block sz (flat_map f l) i = f b.
Proof.
  induction 1 as [|b0 l Hb0 Hl IH]; intros i b Hi.
  - destruct i; discriminate.
  - destruct i as [|i]; simpl in Hi.
    + injection Hi as <-. unfold block. simpl.
      rewrite firstn_app, Hb0, Nat.sub_diag, firstn_O, app_nil_r.
      rewrite <- Hb0 at 1. apply firstn_all.
    + unfold block. simpl flat_map.
      replace (S i * sz) with (i * sz + length (f b0)) by (rewrite Hb0; lia).
      rewrite <- skipn_skipn.
      rewrite skipn_app, Nat.sub_diag, skipn_all. simpl.
      now apply IH.
Qed.

End Blocks.

(** ** The NaN filter as a filter *)

Lemma length_mask_select_data (A : Type) (f : A -> bool) (xs : list A) :
  length (map fst (filter snd (combine xs (map f xs)))) =
  length (filter f xs).
Proof.
  induction xs as [|x xs IH]; simpl; [reflexivity|].
  destruct (f x); simpl; now rewrite IH.
Qed.

Lemma no_nan_selected (xs : list spec_float) :
  (length (filter is_nan xs) =? 0) = nan_free xs.
Proof.
  induction xs as [|x xs IH]; simpl; [reflexivity|].
  destruct (is_nan x); simpl; [reflexivity | exact IH].
Qed.

Lemma nan_free_spec (xs : list spec_float) :
  nan_free xs = true <-> forall x, In x xs -> is_nan x = false.
Proof.
  unfold nan_free. rewrite forallb_forall.
  split; intros H x Hx; specialize (H x Hx).
  - now apply negb_true_iff.
  - now apply negb_true_iff.
Qed.

(** One turn of the loop of [remove_nans] at an index within the first
    axis. *)
Lemma remove_nans_body (a : ndarray spec_float) (n r c : nat)
  (rest idx : list nat) (k : nat) :
  shape a = n :: r :: c :: rest -> k < n ->
  (s <- index_k_all_all a k ;;
   m <- index_k_all_all a k ;;
   nans <- mask_select s (isnan m) ;;
   l <- len nans ;;
   if l =? 0 then Ok (idx ++ [k]) else Ok idx)
  = Ok (idx ++ filter (fun k => nan_free (row a k)) [k]).
Proof.
  intros Hsh Hk.
  unfold index_k_all_all. rewrite Hsh.
  apply Nat.ltb_lt in Hk. rewrite Hk. simpl bind.
  unfold mask_select, isnan, map_elts. simpl shape.
  destruct (list_eq_dec Nat.eq_dec (r :: c :: rest) (r :: c :: rest))
    as [_|Hne]; [|congruence].
  simpl. rewrite length_mask_select_data, no_nan_selected.
  destruct (nan_free (row a k)); [reflexivity | now rewrite app_nil_r].
Qed.

Lemma remove_nans_loop (a : ndarray spec_float) (n r c : nat)
  (rest : list nat) :
  shape a = n :: r :: c :: rest ->
  forall ks idx, Forall (fun k => k < n) ks ->
  for_each ks
    (fun k idx =>
       s <- index_k_all_all a k ;;
       m <- index_k_all_all a k ;;
       nans <- mask_select s (isnan m) ;;
       l <- len nans ;;
       if l =? 0 then Ok (idx ++ [k]) else Ok idx)
    idx
  = Ok (idx ++ filter (fun k => nan_free (row a k)) ks).
Proof.
  intros Hsh ks. induction ks as [|k ks IH]; intros idx Hks.
  - simpl. now rewrite app_nil_r.
  - inversion Hks as [|? ? Hk Hks']; subst.
    cbn [for_each].
    rewrite (remove_nans_body a n r c rest idx k Hsh Hk). cbn [bind].
    rewrite IH by assumption.
    rewrite <- app_assoc. f_equal. f_equal.
    change (k :: ks) with ([k] ++ ks). now rewrite filter_app.
Qed.

Lemma range_bound (n : nat) : Forall (fun k => k < n) (range n).
Proof.
  apply Forall_forall. intros k Hk. apply in_seq in Hk. lia.
Qed.

(** On an array of three or more axes the loop never raises and returns
    the indices of the NaN-free items, in increasing order. *)
Lemma remove_nans_filter (a : ndarray spec_float) (n r c : nat)
  (rest : list nat) :
  shape a = n :: r :: c :: rest ->
  remove_nans a = Ok (filter (fun k => nan_free (row a k)) (range n)).
Proof.
  intros Hsh. unfold remove_nans, shape0. rewrite Hsh. cbn [bind].
  rewrite (remove_nans_loop a n r c rest Hsh) by apply range_bound.
  reflexivity.
Qed.

(** The elements of the item [k] of a 3-d array are its [a[k, i, j]]. *)
Lemma In_row_get3 (a : ndarray spec_float) (n r c k : nat) (x : spec_float) :
  shape a = [n; r; c] -> k < n ->
  (In x (row a k) <-> exists i j, get3 a k i j = Some x).
Proof.
  intros Hsh Hk. unfold row, get3. rewrite Hsh. cbn [tl size_of fold_right].
  rewrite Nat.mul_1_r. rewrite In_block.
  apply Nat.ltb_lt in Hk. rewrite Hk. cbn [andb].
  split.
  - intros [p [Hp Hx]].
    assert (Hc : c <> 0) by (intros ->; lia).
    exists (p / c), (p mod c).
    assert (Hi : p / c < r).
    { apply Nat.Div0.div_lt_upper_bound. lia. }
    assert (Hj : p mod c < c) by (apply Nat.mod_upper_bound; assumption).
    apply Nat.ltb_lt in Hi, Hj. rewrite Hi, Hj. cbn [andb].
    rewrite <- Hx. f_equal.
    pose proof (Nat.div_mod_eq p c). nia.
  - intros [i [j Hx]].
    destruct (i <? r) eqn:Hi; [|discriminate].
    destruct (j <? c) eqn:Hj; [|discriminate].
    cbn [andb] in Hx.
    apply Nat.ltb_lt in Hi, Hj.
    exists (i * c + j). split; [nia|].
    rewrite <- Hx. f_equal. nia.
Qed.

Lemma nan_free_row_iff (a : ndarray spec_float) (n r c k : nat) :
  shape a = [n; r; c] -> k < n ->
  (nan_free (row a k) = true <-> ~ slice_has_nan a k).
Proof.
  intros Hsh Hk. rewrite nan_free_spec. unfold slice_has_nan. split.
  - intros H [i [j [x [Hx Hnan]]]].
    assert (Hin : In x (row a k)).
    { apply (In_row_get3 a n r c k x Hsh Hk). eauto. }
    apply H in Hin. congruence.
  - intros H x Hin.
    destruct (is_nan x) eqn:Hnan; [|reflexivity].
    exfalso. apply H.
    apply (In_row_get3 a n r c k x Hsh Hk) in Hin. destruct Hin as [i [j Hx]].
    eauto.
Qed.

(** C1. For every 3-d example array, [remove_nans] returns an index list
    that leaves out every index whose 2-d slice holds at least one NaN and
    that holds every index of the first axis whose slice holds none. *)
Theorem remove_nans_sound_complete (a : ndarray spec_float) (n r c : nat) :
  shape a = [n; r; c] ->
  exists idx,
    remove_nans a = Ok idx /\
    (forall k, slice_has_nan a k -> ~ In k idx) /\
    (forall k, k < n -> ~ slice_has_nan a k -> In k idx).
Proof.
  intros Hsh. eexists. split; [apply (remove_nans_filter a n r c [] Hsh)|].
  split.
  - intros k Hnan Hin. apply filter_In in Hin. destruct Hin as [Hk Hfree].
    apply in_seq in Hk.
    apply (nan_free_row_iff a n r c k Hsh) in Hfree; [contradiction | lia].
  - intros k Hk Hfree. apply filter_In. split.
    + apply in_seq. lia.
    + now apply (nan_free_row_iff a n r c k Hsh).
Qed.

Lemma remove_nans_sound_complete_witness :
  exists idx,
    remove_nans sample_data = Ok idx /\
    (forall k, slice_has_nan sample_data k -> ~ In k idx) /\
    (forall k, k < 3 -> ~ slice_has_nan sample_data k -> In k idx).
Proof.
  apply (remove_nans_sound_complete sample_data 3 1 2). reflexivity.
Defined.

(** C3. On an array whose first axis has length 0, [remove_nans] returns
    the empty index list and raises nothing. *)
Theorem remove_nans_empty (a : ndarray spec_float) :
  shape0 a = Ok 0 -> remove_nans a = Ok [].
Proof.
  intros H. unfold remove_nans. rewrite H. reflexivity.
Qed.

Lemma remove_nans_empty_witness :
  remove_nans (mk_ndarray [0; 200; 1] []) = Ok [].
Proof.
  apply remove_nans_empty. reflexivity.
Defined.

(** ** Selecting items with an index list *)

Lemma subseq_refl (A : Type) (l : list A) : subseq l l.
Proof. induction l; constructor; assumption. Qed.

Lemma subseq_filter (A : Type) (f : A -> bool) (l : list A) :
  subseq (filter f l) l.
Proof.
  induction l as [|x l IH]; simpl; [constructor|].
  destruct (f x); constructor; assumption.
Qed.

Lemma subseq_map (A B : Type) (f : A -> B) (l1 l2 : list A) :
  subseq l1 l2 -> subseq (map f l1) (map f l2).
Proof. induction 1; simpl; constructor; assumption. Qed.

Lemma seq_sorted (n s : nat) : StronglySorted lt (seq s n).
Proof.
  revert s. induction n as [|n IH]; intros s; simpl; constructor.
  - apply IH.
  - apply Forall_forall. intros k Hk. apply in_seq in Hk. lia.
Qed.

Lemma filter_sorted (f : nat -> bool) (l : list nat) :
  StronglySorted lt l -> StronglySorted lt (filter f l).
Proof.
  induction 1 as [|x l Hl IH Hx]; simpl; [constructor|].
  destruct (f x); [|assumption].
  constructor; [assumption|].
  apply Forall_forall. intros y Hy. apply filter_In in Hy.
  rewrite Forall_forall in Hx. now apply Hx.
Qed.

Lemma map_seq_nth_error (B C : Type) (g : nat -> C) (f : B -> C) (l : list B) :
  forall s,
  (forall i b, nth_error l i = Some b -> g (s + i) = f b) ->
  map g (seq s (length l)) = map f l.
Proof.
  induction l as [|b l IH]; intros s H; simpl; [reflexivity|].
  f_equal.
  - rewrite <- (H 0 b eq_refl). f_equal. lia.
  - apply IH. intros i b' Hi. rewrite <- (H (S i) b' Hi). f_equal. lia.
Qed.

Section Take.

Context {A : Type}.
Variables (b : ndarray A) (n : nat) (rest : list nat).
Hypothesis Hwf : wf b.
Hypothesis Hsh : shape b = n :: rest.

Lemma length_row (k : nat) : k < n -> length (row b k) = size_of rest.
Proof.
  intros Hk. unfold row. rewrite Hsh. cbn [tl].
  apply length_block. red in Hwf. rewrite Hwf, Hsh. cbn [size_of fold_right].
  fold (size_of rest). nia.
Qed.

Variable idx : list nat.
Hypothesis Hidx : Forall (fun k => k < n) idx.

Lemma take_ok :
  take b idx = Ok (mk_ndarray (length idx :: rest) (flat_map (row b) idx)).
Proof.
  unfold take. rewrite Hsh.
  replace (forallb (fun k => k <? n) idx) with true; [reflexivity|].
  symmetry. apply forallb_forall. intros k Hk. apply Nat.ltb_lt.
  rewrite Forall_forall in Hidx. now apply Hidx.
Qed.

Lemma row_take (i k : nat) :
  nth_error idx i = Some k ->
  row (mk_ndarray (length idx :: rest) (flat_map (row b) idx)) i = row b k.
Proof.
  intros Hi. unfold row at 1. cbn [shape data tl].
  apply block_flat_map with (2 := Hi).
  eapply Forall_impl; [|exact Hidx]. intros k'. apply length_row.
Qed.

Lemma items_take :
  items (mk_ndarray (length idx :: rest) (flat_map (row b) idx))
  = map (row b) idx.
Proof.
  unfold items. cbn [shape hd]. unfold range.
  apply map_seq_nth_error. intros i k Hi. now apply row_take.
Qed.

End Take.

(** ** Alignment of examples and labels *)

Lemma remove_nans_range (a : ndarray spec_float) (n r c : nat)
  (rest : list nat) :
  shape a = n :: r :: c :: rest ->
  exists idx, remove_nans a = Ok idx /\ Forall (fun k => k < n) idx /\
              StronglySorted lt idx /\ subseq idx (range n).
Proof.
  intros Hsh. eexists. split; [apply (remove_nans_filter a n r c rest Hsh)|].
  split; [|split].
  - apply Forall_forall. intros k Hk. apply filter_In in Hk.
    destruct Hk as [Hk _]. apply in_seq in Hk. lia.
  - apply filter_sorted, seq_sorted.
  - apply subseq_filter.
Qed.

Lemma split_aligned (d : ndarray spec_float) (l : ndarray Z) :
  split_ok d l ->
  exists idx d' l',
    remove_nans d = Ok idx /\ take d idx = Ok d' /\ take l idx = Ok l' /\
    pairing_preserved d l idx d' l'.
Proof.
  intros (Hwd & Hwl & n & r & c & rest & lrest & Hd & Hl).
  destruct (remove_nans_range d n r c rest Hd) as (idx & Hrm & Hidx & _).
  exists idx. eexists. eexists.
  split; [exact Hrm|].
  split; [apply (take_ok d n _ Hd idx Hidx)|].
  split; [apply (take_ok l n _ Hl idx Hidx)|].
  split; [reflexivity|]. split; [reflexivity|].
  intros i Hi.
  destruct (nth_error idx i) as [k|] eqn:Hk.
  - exists k. split; [reflexivity|]. split.
    + apply (row_take d n _ Hwd Hd idx Hidx i k Hk).
    + apply (row_take l n _ Hwl Hl idx Hidx i k Hk).
  - apply nth_error_None in Hk. lia.
Qed.

(** C2. When the examples and the labels of a split have the same length
    along the first axis, selecting both with the index list of
    [remove_nans] keeps every label with its example: position [i] of the
    filtered labels holds the label of the example at position [i] of the
    filtered examples.  This holds for the three splits the notebook
    filters. *)
Theorem filter_dataset_alignment (ds : dataset) :
  split_ok (train_data ds) (train_labels ds) ->
  split_ok (test_data ds) (test_labels ds) ->
  split_ok (val_data ds) (val_labels ds) ->
  exists ds' idx_train idx_test idx_val,
    filter_dataset ds = Ok ds' /\
    remove_nans (train_data ds) = Ok idx_train /\
    remove_nans (test_data ds) = Ok idx_test /\
    remove_nans (val_data ds) = Ok idx_val /\
    pairing_preserved (train_data ds) (train_labels ds) idx_train
      (train_data ds') (train_labels ds') /\
    pairing_preserved (test_data ds) (test_labels ds) idx_test
      (test_data ds') (test_labels ds') /\
    pairing_preserved (val_data ds) (val_labels ds) idx_val
      (val_data ds') (val_labels ds').
Proof.
  intros Htr Hte Hva.
  destruct (split_aligned _ _ Htr) as (i1 & d1 & l1 & R1 & D1 & L1 & P1).
  destruct (split_aligned _ _ Hte) as (i2 & d2 & l2 & R2 & D2 & L2 & P2).
  destruct (split_aligned _ _ Hva) as (i3 & d3 & l3 & R3 & D3 & L3 & P3).
  exists (mk_dataset d1 l1 d2 l2 d3 l3), i1, i2, i3.
  unfold filter_dataset.
  rewrite R1, R2, R3. cbn [bind].
  rewrite D1, L1, D2, L2, D3, L3. cbn [bind].
  split; [reflexivity|].
  cbn [train_data train_labels test_data test_labels val_data val_labels].
  do 3 (split; [reflexivity|]).
  do 2 (split; [assumption|]). assumption.
Qed.

Lemma filter_dataset_alignment_witness :
  exists ds' idx_train idx_test idx_val,
    filter_dataset sample_ds = Ok ds' /\
    remove_nans (train_data sample_ds) = Ok idx_train /\
    remove_nans (test_data sample_ds) = Ok idx_test /\
    remove_nans (val_data sample_ds) = Ok idx_val /\
    pairing_preserved (train_data sample_ds) (train_labels sample_ds)
      idx_train (train_data ds') (train_labels ds') /\
    pairing_preserved (test_data sample_ds) (test_labels sample_ds)
      idx_test (test_data ds') (test_labels ds') /\
    pairing_preserved (val_data sample_ds) (val_labels sample_ds)
      idx_val (val_data ds') (val_labels ds').
Proof.
  apply (filter_dataset_alignment sample_ds);
    (split; [reflexivity|]; split; [reflexivity|];
     exists 3, 1, 2, [], []; split; reflexivity).
Defined.

(** C8. For every 3-d example array with [n] items, the index list of
    [remove_nans] is strictly increasing and all its elements are below
    [n]; hence selecting the examples and the labels with it yields
    sub-sequences of the original items, in their original order. *)
Theorem remove_nans_increasing (a : ndarray spec_float) (l : ndarray Z)
  (n r c : nat) (lrest : list nat) :
  shape a = [n; r; c] -> shape l = n :: lrest -> wf a -> wf l ->
  exists idx a' l',
    remove_nans a = Ok idx /\
    StronglySorted lt idx /\
    Forall (fun k => 0 <= k < n) idx /\
    take a idx = Ok a' /\ take l idx = Ok l' /\
    subseq (items a') (items a) /\ subseq (items l') (items l).
Proof.
  intros Ha Hl Hwa Hwl.
  destruct (remove_nans_range a n r c [] Ha) as (idx & Hrm & Hidx & Hs & Hsub).
  exists idx. eexists. eexists.
  split; [exact Hrm|]. split; [exact Hs|].
  split. { eapply Forall_impl; [|exact Hidx]. simpl. intros; lia. }
  split; [apply (take_ok a n _ Ha idx Hidx)|].
  split; [apply (take_ok l n _ Hl idx Hidx)|].
  split.
  - rewrite (items_take a n _ Hwa Ha idx Hidx).
    unfold items. rewrite Ha. cbn [hd]. now apply subseq_map.
  - rewrite (items_take l n _ Hwl Hl idx Hidx).
    unfold items. rewrite Hl. cbn [hd]. now apply subseq_map.
Qed.

Lemma remove_nans_increasing_witness :
  exists idx a' l',
    remove_nans sample_data = Ok idx /\
    StronglySorted lt idx /\
    Forall (fun k => 0 <= k < 3) idx /\
    take sample_data idx = Ok a' /\ take sample_labels idx = Ok l' /\
    subseq (items a') (items sample_data) /\
    subseq (items l') (items sample_labels).
Proof.
  apply (remove_nans_increasing sample_data sample_labels 3 1 2 []);
    reflexivity.
Defined.

(** ** The model definition *)

Lemma call_shape (l : layer) (x : tensor) (sh sh' : list nat) :
  output_shape x = Ok sh ->
  layer_output l sh = Ok sh' ->
  call l x = Ok (Call l x) /\ output_shape (Call l x) = Ok sh'.
Proof.
  intros Hx Hl. unfold call. cbn [output_shape].
  rewrite Hx. cbn [bind]. rewrite Hl. split; reflexivity.
Qed.

Lemma pooling_fits (len channels : nat) :
  2 <= len ->
  layer_output (MaxPooling1D 2) [len; channels] =
  Ok [(len - 2) / 2 + 1; channels].
Proof.
  intros H. cbn [layer_output]. apply Nat.leb_le in H. rewrite H.
  reflexivity.
Qed.

Lemma pooled_length (len : nat) : 4 <= len -> 2 <= (len - 2) / 2 + 1.
Proof.
  intros H.
  assert (1 <= (len - 2) / 2).
  { apply Nat.div_le_lower_bound; lia. }
  lia.
Qed.

(** C7. On a window of at least four cadences the model built by the
    definition step is the chain input, convolution, max-pooling, dropout,
    convolution, max-pooling, dropout, flatten, dense, dropout, dense; the
    last layer has one unit and a sigmoid activation, and the output of the
    model has one value per example. *)
Theorem cnn_layer_sequence (ds : dataset) (n len : nat) (rest : list nat) :
  shape (train_data ds) = n :: len :: rest ->
  4 <= len ->
  exists cnn,
    define_cnn ds = Ok cnn /\
    inputs cnn = Input [len; 1] /\
    layers cnn =
      [InputLayer [len; 1];
       Convolution1D 7 16 relu same (Some [len; 1]);
       MaxPooling1D 2; Dropout F64.tenth;
       Convolution1D 3 64 relu same None;
       MaxPooling1D 2; Dropout F64.tenth;
       Flatten; Dense 32 relu; Dropout F64.tenth;
       Dense 1 sigmoid] /\
    map kind_of (layers cnn) =
      [KInput; KConvolution; KMaxPooling; KDropout;
       KConvolution; KMaxPooling; KDropout;
       KFlatten; KDense; KDropout; KDense] /\
    output_shape (outputs cnn) = Ok [1].
Proof.
  intros Hsh Hlen. unfold define_cnn, shape1. rewrite Hsh. cbn [bind].
  assert (H2 : 2 <= len) by lia.
  pose proof (pooled_length len Hlen) as H2'.
  destruct (call_shape
              (Convolution1D 7 filter1 relu same (Some [len; 1]))
              (Input [len; 1]) [len; 1] [len; 7] eq_refl eq_refl)
    as [E0 S0].
  rewrite E0. cbn [bind].
  destruct (call_shape (MaxPooling1D 2) _ _ _ S0 (pooling_fits _ _ H2))
    as [E1 S1].
  rewrite E1. cbn [bind].
  destruct (call_shape (Dropout dropout) _ _ _ S1 eq_refl) as [E2 S2].
  rewrite E2. cbn [bind].
  destruct (call_shape (Convolution1D 3 filter2 relu same None) _ _
              [(len - 2) / 2 + 1; 3] S2 eq_refl) as [E3 S3].
  rewrite E3. cbn [bind].
  destruct (call_shape (MaxPooling1D 2) _ _ _ S3 (pooling_fits _ _ H2'))
    as [E4 S4].
  rewrite E4. cbn [bind].
  destruct (call_shape (Dropout dropout) _ _ _ S4 eq_refl) as [E5 S5].
  rewrite E5. cbn [bind].
  destruct (call_shape Flatten _ _ _ S5 eq_refl) as [E6 S6].
  rewrite E6. cbn [bind].
  destruct (call_shape (Dense dense relu) _ _ [dense] S6 eq_refl)
    as [E7 S7].
  rewrite E7. cbn [bind].
  destruct (call_shape (Dropout dropout) _ _ _ S7 eq_refl) as [E8 S8].
  rewrite E8. cbn [bind].
  destruct (call_shape (Dense 1 sigmoid) _ _ [1] S8 eq_refl) as [E9 S9].
  rewrite E9. cbn [bind].
  eexists. split; [reflexivity|].
  split; [reflexivity|]. split; [reflexivity|]. split; [reflexivity|].
  exact S9.
Qed.

Lemma cnn_layer_sequence_witness :
  exists cnn,
    define_cnn window_ds = Ok cnn /\
    inputs cnn = Input [4; 1] /\
    layers cnn =
      [InputLayer [4; 1];
       Convolution1D 7 16 relu same (Some [4; 1]);
       MaxPooling1D 2; Dropout F64.tenth;
       Convolution1D 3 64 relu same None;
       MaxPooling1D 2; Dropout F64.tenth;
       Flatten; Dense 32 relu; Dropout F64.tenth;
       Dense 1 sigmoid] /\
    map kind_of (layers cnn) =
      [KInput; KConvolution; KMaxPooling; KDropout;
       KConvolution; KMaxPooling; KDropout;
       KFlatten; KDense; KDropout; KDense] /\
    output_shape (outputs cnn) = Ok [1].
Proof.
  apply (cnn_layer_sequence window_ds 2 4 [1]); [reflexivity | lia].
Defined.

(** ** Thresholding *)

Lemma binarize_nth (predictions : ndarray spec_float) (i : nat) :
  nth_error (data (binarize predictions)) i =
  option_map class_of (nth_error (data predictions) i).
Proof.
  unfold binarize, astype_int32, greater_half, map_elts. cbn [data].
  rewrite map_map. rewrite nth_error_map. reflexivity.
Qed.

Lemma compare_half_eq (p : spec_float) :
  SFcompare p F32.half = Some Eq -> p = F32.half.
Proof.
  unfold F32.half.
  destruct p as [s|s| |s m e]; cbv beta iota delta [SFcompare].
  - intros H; inversion H.
  - destruct s; intros H; inversion H.
  - intros H; inversion H.
  - destruct s; [intros H; inversion H|].
    destruct (Z.compare_spec e (-24)) as [He|He|He].
    + intros H.
      assert (H' : Pos.compare m 8388608 = Eq)
        by (unfold Pos.compare; congruence).
      apply Pos.compare_eq in H'. now subst.
    + intros H; inversion H.
    + intros H; inversion H.
Qed.

(** C9. The threshold is strict: a prediction equal to 0.5 becomes class
    0, at every position of every prediction array. *)
Theorem binarize_half_is_zero (predictions : ndarray spec_float) (i : nat)
  (p : spec_float) :
  nth_error (data predictions) i = Some p ->
  SFcompare p F32.half = Some Eq ->
  nth_error (data (binarize predictions)) i = Some 0%Z.
Proof.
  intros Hp Heq. rewrite binarize_nth, Hp. cbn [option_map].
  apply compare_half_eq in Heq. subst p. reflexivity.
Qed.

Lemma binarize_half_is_zero_witness :
  nth_error
    (data (binarize (mk_ndarray [2; 1] [F32.half; S754_finite false 15099494 (-24)])))
    0 = Some 0%Z.
Proof.
  apply (binarize_half_is_zero _ 0 F32.half); reflexivity.
Defined.

(** ** The confusion matrix and its normalization *)

Lemma normalize_2x2 (a b c d : spec_float) :
  normalize (mk_ndarray [2; 2] [a; b; c; d]) =
  Ok (mk_ndarray [2; 2]
        [F64.div a (F64.add a b); F64.div b (F64.add a b);
         F64.div c (F64.add c d); F64.div d (F64.add c d)]).
Proof. reflexivity. Qed.

Lemma sum_axis1_2x2 (a b c d : spec_float) :
  sum_axis1 (mk_ndarray [2; 2] [a; b; c; d]) =
  Ok (mk_ndarray [2] [F64.add a b; F64.add c d]).
Proof. reflexivity. Qed.

Lemma count_pairs_cons (t p y q : Z) (yt yp : list Z) :
  count_pairs (y :: yt) (q :: yp) t p =
  ((if Z.eqb y t && Z.eqb q p then 1 else 0) + count_pairs yt yp t p)%Z.
Proof.
  unfold count_pairs. cbn [combine filter fst snd].
  destruct (Z.eqb y t && Z.eqb q p); cbn [length]; lia.
Qed.

Lemma count_pairs_nil_l (yp : list Z) (t p : Z) : count_pairs [] yp t p = 0%Z.
Proof. reflexivity. Qed.

Lemma count_pairs_nil_r (yt : list Z) (t p : Z) : count_pairs yt [] t p = 0%Z.
Proof. destruct yt; reflexivity. Qed.

Lemma count_pairs_nonneg (yt yp : list Z) (t p : Z) :
  (0 <= count_pairs yt yp t p)%Z.
Proof. unfold count_pairs. lia. Qed.

(** The counting loop computes the four pair counts. *)
Lemma confusion_fold (yt yp : list Z) :
  forall c00 c01 c10 c11 : Z,
  fold_left (Sklearn.count_pair [0; 1]%Z) (combine yt yp) [c00; c01; c10; c11]
  = [(c00 + count_pairs yt yp 0 0)%Z; (c01 + count_pairs yt yp 0 1)%Z;
     (c10 + count_pairs yt yp 1 0)%Z; (c11 + count_pairs yt yp 1 1)%Z].
Proof.
  revert yp. induction yt as [|y yt IH]; intros yp c00 c01 c10 c11.
  - cbn [combine fold_left]. rewrite !count_pairs_nil_l, !Z.add_0_r.
    reflexivity.
  - destruct yp as [|q yp].
    + cbn [combine fold_left]. rewrite !count_pairs_nil_r, !Z.add_0_r.
      reflexivity.
    + cbn [combine fold_left]. rewrite !count_pairs_cons.
      unfold Sklearn.count_pair at 2. cbn [fst snd Sklearn.label_to_ind].
      destruct (Z.eqb_spec y 0) as [->|Hy0];
        [|destruct (Z.eqb_spec y 1) as [->|Hy1]];
        (destruct (Z.eqb_spec q 0) as [->|Hq0];
         [|destruct (Z.eqb_spec q 1) as [->|Hq1]]);
        cbn [Sklearn.incr length Nat.mul Nat.add andb Z.eqb];
        rewrite IH; rewrite ?Z.add_0_l, ?Z.add_assoc; reflexivity.
Qed.

(** [confusion_matrix(..., labels=[0, 1])] on [n] labels and a column of
    [n] predictions, [n] not zero, where a label at least is 0 or 1. *)
Lemma confusion_matrix_counts (y_true y_pred : ndarray Z) (n : nat) :
  shape y_true = [n] -> shape y_pred = [n; 1] -> 0 < n ->
  (In 0%Z (data y_true) \/ In 1%Z (data y_true)) ->
  Sklearn.confusion_matrix y_true y_pred [0; 1]%Z =
  Ok (mk_ndarray [2; 2]
        [count_pairs (data y_true) (data y_pred) 0 0;
         count_pairs (data y_true) (data y_pred) 0 1;
         count_pairs (data y_true) (data y_pred) 1 0;
         count_pairs (data y_true) (data y_pred) 1 1]).
Proof.
  intros Ht Hp Hn Hin.
  unfold Sklearn.confusion_matrix, Sklearn.num_samples, Sklearn.column_or_1d.
  rewrite Ht, Hp. cbn [bind]. rewrite Nat.eqb_refl. cbn [negb].
  destruct (Nat.eqb_spec n 0) as [|_]; [lia|]. cbn [bind length Nat.eqb].
  destruct (Nat.eqb_spec (length (data y_true)) 0) as [H0|H0].
  - apply length_zero_iff_nil in H0. rewrite H0 in Hin.
    destruct Hin as [[]|[]].
  - replace (existsb (fun y => existsb (Z.eqb y) [0; 1]%Z) (data y_true))
      with true.
    + cbn [negb repeat Nat.mul Nat.add]. rewrite confusion_fold. reflexivity.
    + symmetry. apply existsb_exists.
      destruct Hin as [Hin|Hin].
      * exists 0%Z. split; [assumption | reflexivity].
      * exists 1%Z. split; [assumption | reflexivity].
Qed.

Lemma labels_not_empty (input_labels : ndarray Z) (n : nat) :
  shape input_labels = [n] -> wf input_labels ->
  (In 0%Z (data input_labels) \/ In 1%Z (data input_labels)) -> 0 < n.
Proof.
  intros Hsl Hwl Hin. red in Hwl. rewrite Hsl in Hwl.
  cbn [size_of fold_right] in Hwl.
  destruct (data input_labels) as [|y ys]; [destruct Hin as [[]|[]]|].
  cbn [length] in Hwl. lia.
Qed.

Lemma binarize_data (predictions : ndarray spec_float) :
  binarize predictions =
  mk_ndarray (shape predictions) (map class_of (data predictions)).
Proof.
  unfold binarize, astype_int32, greater_half, map_elts. cbn [shape data].
  now rewrite map_map.
Qed.

Lemma confusion_counts_spec (cnn : predictor)
  (input_data predictions : ndarray spec_float) (input_labels : ndarray Z)
  (n : nat) :
  predict cnn input_data = Ok predictions ->
  shape predictions = [n; 1] -> shape input_labels = [n] ->
  wf predictions -> wf input_labels ->
  (In 0%Z (data input_labels) \/ In 1%Z (data input_labels)) ->
  confusion_counts cnn input_data input_labels =
  Ok (mk_ndarray [2; 2]
        (map (fun tp =>
                F64.of_Z (count_pairs (data input_labels)
                            (map class_of (data predictions))
                            (fst tp) (snd tp)))
             [(0, 0); (0, 1); (1, 0); (1, 1)]%Z)).
Proof.
  intros Hp Hsp Hsl Hwp Hwl Hin. unfold confusion_counts.
  rewrite Hp. cbn [bind]. rewrite binarize_data.
  rewrite (confusion_matrix_counts input_labels _ n Hsl
             (Hsp : shape (mk_ndarray (shape predictions) _) = [n; 1])
             (labels_not_empty input_labels n Hsl Hwl Hin) Hin).
  reflexivity.
Qed.

(** C4. Given a model, an input array and true labels among which a 0 or
    a 1 occurs, the helper computes the predictions of the model, turns
    them into the classes 0 and 1 by the threshold 0.5, counts the 2x2
    confusion matrix over the classes [0, 1], and divides every entry by
    the sum of its row. *)
Theorem plot_confusion_matrix_spec (cnn : predictor)
  (input_data predictions : ndarray spec_float) (input_labels : ndarray Z)
  (n : nat) :
  predict cnn input_data = Ok predictions ->
  shape predictions = [n; 1] -> shape input_labels = [n] ->
  wf predictions -> wf input_labels ->
  (In 0%Z (data input_labels) \/ In 1%Z (data input_labels)) ->
  plot_confusion_matrix cnn input_data input_labels =
  Ok (mk_ndarray [2; 2]
        (map (fun tp =>
                normalized_entry (data input_labels)
                  (map class_of (data predictions)) (fst tp) (snd tp))
             [(0, 0); (0, 1); (1, 0); (1, 1)]%Z)).
Proof.
  intros Hp Hsp Hsl Hwp Hwl Hin. unfold plot_confusion_matrix.
  rewrite (confusion_counts_spec cnn input_data predictions input_labels n)
    by assumption.
  cbn [bind map fst snd]. rewrite normalize_2x2. reflexivity.
Qed.

Lemma plot_confusion_matrix_spec_witness :
  plot_confusion_matrix sample_cnn sample_input
    (mk_ndarray [4] [0; 1; 1; 1]%Z) =
  Ok (mk_ndarray [2; 2]
        (map (fun tp =>
                normalized_entry [0; 1; 1; 1]%Z
                  (map class_of (data sample_predictions)) (fst tp) (snd tp))
             [(0, 0); (0, 1); (1, 0); (1, 1)]%Z)).
Proof.
  apply (plot_confusion_matrix_spec sample_cnn sample_input
           sample_predictions (mk_ndarray [4] [0; 1; 1; 1]%Z) 4);
    try reflexivity.
  left. simpl. auto.
Defined.

(** C5. With the true labels [0, 1, 0, 1] and predictions whose classes
    are exactly these labels, the normalized matrix is 1.0 on the diagonal
    and 0.0 off it. *)
Theorem perfect_predictions_identity (cnn : predictor)
  (input_data predictions : ndarray spec_float) :
  predict cnn input_data = Ok predictions ->
  binarize predictions = mk_ndarray [4; 1] [0; 1; 0; 1]%Z ->
  plot_confusion_matrix cnn input_data (mk_ndarray [4] [0; 1; 0; 1]%Z) =
  Ok (mk_ndarray [2; 2] [F64.one; F64.zero; F64.zero; F64.one]).
Proof.
  intros Hp Hb. unfold plot_confusion_matrix, confusion_counts.
  rewrite Hp. cbn [bind]. rewrite Hb. reflexivity.
Qed.

Lemma perfect_predictions_identity_witness :
  plot_confusion_matrix sample_cnn sample_input
    (mk_ndarray [4] [0; 1; 0; 1]%Z) =
  Ok (mk_ndarray [2; 2] [F64.one; F64.zero; F64.zero; F64.one]).
Proof.
  apply (perfect_predictions_identity sample_cnn sample_input
           sample_predictions); reflexivity.
Defined.

Lemma count_pairs_absent (yt yp : list Z) (t p : Z) :
  ~ In t yt -> count_pairs yt yp t p = 0%Z.
Proof.
  revert yp. induction yt as [|y yt IH]; intros yp Hin; [reflexivity|].
  destruct yp as [|q yp]; [reflexivity|].
  rewrite count_pairs_cons.
  destruct (Z.eqb_spec y t) as [->|Hne].
  - exfalso. apply Hin. now left.
  - cbn [andb]. rewrite IH; [reflexivity|].
    intros H. apply Hin. now right.
Qed.

(** C6. When class 1 has no true example among the labels, the sum of
    its row is 0.0 and the normalization divides the row by it: the
    helper raises nothing and the row of the result is NaN. *)
Theorem normalization_divides_by_zero (cnn : predictor)
  (input_data predictions : ndarray spec_float) (input_labels : ndarray Z)
  (n : nat) :
  predict cnn input_data = Ok predictions ->
  shape predictions = [n; 1] -> shape input_labels = [n] ->
  wf predictions -> wf input_labels ->
  In 0%Z (data input_labels) -> ~ In 1%Z (data input_labels) ->
  exists cm s cm_norm,
    confusion_counts cnn input_data input_labels = Ok cm /\
    sum_axis1 cm = Ok s /\
    nth_error (data s) 1 = Some F64.zero /\
    plot_confusion_matrix cnn input_data input_labels = Ok cm_norm /\
    row cm_norm 1 = [S754_nan; S754_nan].
Proof.
  intros Hp Hsp Hsl Hwp Hwl H0 H1.
  assert (Hc : confusion_counts cnn input_data input_labels = _)
    by (apply (confusion_counts_spec cnn input_data predictions
                 input_labels n); auto).
  cbn [map fst snd] in Hc.
  rewrite !(count_pairs_absent _ _ 1%Z) in Hc by assumption.
  eexists. eexists. eexists.
  split; [exact Hc|].
  split; [apply sum_axis1_2x2|].
  split; [reflexivity|].
  unfold plot_confusion_matrix. rewrite Hc. cbn [bind].
  rewrite normalize_2x2. split; reflexivity.
Qed.

Lemma normalization_divides_by_zero_witness :
  exists cm s cm_norm,
    confusion_counts sample_cnn sample_input (mk_ndarray [4] [0; 0; 0; 0]%Z)
    = Ok cm /\
    sum_axis1 cm = Ok s /\
    nth_error (data s) 1 = Some F64.zero /\
    plot_confusion_matrix sample_cnn sample_input
      (mk_ndarray [4] [0; 0; 0; 0]%Z) = Ok cm_norm /\
    row cm_norm 1 = [S754_nan; S754_nan].
Proof.
  apply (normalization_divides_by_zero sample_cnn sample_input
           sample_predictions (mk_ndarray [4] [0; 0; 0; 0]%Z) 4);
    try reflexivity.
  - simpl. auto.
  - simpl. intros [H|[H|[H|[H|H]]]]; try discriminate H; exact H.
Defined.

(** ** Further properties of the NaN filter *)

(** The filter needs three axes as soon as there is one item to look at:
    on a non-empty array of one or two axes, and on a 0-d array, it raises
    [IndexError]. *)
Theorem remove_nans_few_axes (a : ndarray spec_float) (n : nat) :
  shape a = [] \/ shape a = [S n] \/ (exists r, shape a = [S n; r]) ->
  remove_nans a = Raise IndexError.
Proof.
  intros [H|[H|[r H]]]; unfold remove_nans, shape0; rewrite H;
    cbn [bind]; [reflexivity| |];
    unfold range; cbn [seq for_each];
    unfold index_k_all_all; rewrite H; reflexivity.
Qed.

Lemma remove_nans_few_axes_witness :
  remove_nans (mk_ndarray [2; 2] [F64.one; F64.one; F64.zero; F64.zero])
  = Raise IndexError.
Proof.
  apply (remove_nans_few_axes _ 1). right. right. exists 2. reflexivity.
Defined.

Lemma filter_all (A : Type) (f : A -> bool) (l : list A) :
  (forall x, In x l -> f x = true) -> filter f l = l.
Proof.
  induction l as [|x l IH]; intros H; simpl; [reflexivity|].
  rewrite (H x (or_introl eq_refl)). f_equal. apply IH.
  intros y Hy. apply H. now right.
Qed.

Lemma block_succ (A : Type) (sz : nat) (buf : list A) (k : nat) :
  block sz buf (S k) = block sz (skipn sz buf) k.
Proof.
  unfold block. rewrite skipn_skipn. f_equal. f_equal. lia.
Qed.

(** A buffer of [n] blocks is the concatenation of its blocks. *)
Lemma flat_map_blocks (A : Type) (sz n : nat) :
  forall buf : list A, length buf = n * sz ->
  flat_map (block sz buf) (seq 0 n) = buf.
Proof.
  induction n as [|n IH]; intros buf Hlen.
  - apply length_zero_iff_nil in Hlen. now subst.
  - cbn [seq flat_map]. rewrite <- seq_shift, flat_map_concat_map, map_map.
    rewrite (map_ext _ (block sz (skipn sz buf)))
      by (intros k; apply block_succ).
    rewrite <- flat_map_concat_map, IH.
    + unfold block. cbn [Nat.mul skipn]. apply firstn_skipn.
    + rewrite length_skipn. lia.
Qed.

Lemma length_flat_map_const (A B : Type) (f : A -> list B) (sz : nat)
  (l : list A) :
  Forall (fun x => length (f x) = sz) l ->
  length (flat_map f l) = length l * sz.
Proof.
  induction 1 as [|x l Hx Hl IH]; [reflexivity|].
  cbn [flat_map length]. rewrite length_app, Hx, IH. lia.
Qed.

Section TakeShape.

Context {A : Type}.
Variables (b : ndarray A) (n : nat) (rest : list nat).
Hypothesis Hwf : wf b.
Hypothesis Hsh : shape b = n :: rest.

(** [b[range(n)]] is [b]. *)
Lemma take_range : take b (range n) = Ok b.
Proof.
  rewrite (take_ok b n rest Hsh (range n) (range_bound n)).
  f_equal. destruct b as [sh buf]. cbn [shape data] in *. subst sh.
  unfold range at 1. rewrite length_seq. f_equal.
  unfold row. cbn [shape data tl]. apply flat_map_blocks.
  exact Hwf.
Qed.

Variable idx : list nat.
Hypothesis Hidx : Forall (fun k => k < n) idx.

Lemma wf_take :
  wf (mk_ndarray (length idx :: rest) (flat_map (row b) idx)).
Proof.
  red. cbn [shape data size_of fold_right]. fold (size_of rest).
  apply length_flat_map_const.
  eapply Forall_impl; [|exact Hidx]. intros k. apply (length_row b n rest Hwf Hsh).
Qed.

End TakeShape.

Lemma In_row_data (A : Type) (a : ndarray A) (k : nat) (x : A) :
  In x (row a k) -> In x (data a).
Proof.
  unfold row. intros H. apply In_block in H. destruct H as [p [_ Hp]].
  eapply nth_error_In; eauto.
Qed.

(** After the filter, no item of the examples holds a NaN: filtering
    again keeps every index. *)
Lemma remove_nans_take (a : ndarray spec_float) (n r c : nat)
  (rest idx : list nat) :
  wf a -> shape a = n :: r :: c :: rest ->
  remove_nans a = Ok idx ->
  remove_nans (mk_ndarray (length idx :: r :: c :: rest) (flat_map (row a) idx))
  = Ok (range (length idx)).
Proof.
  intros Hwf Hsh Hrm.
  rewrite (remove_nans_filter a n r c rest Hsh) in Hrm.
  injection Hrm as Hidx.
  assert (Hlt : Forall (fun k => k < n) idx).
  { subst idx. apply Forall_forall. intros k Hk. apply filter_In in Hk.
    destruct Hk as [Hk _]. apply in_seq in Hk. lia. }
  rewrite (remove_nans_filter
             (mk_ndarray (length idx :: r :: c :: rest) (flat_map (row a) idx))
             (length idx) r c rest eq_refl).
  f_equal. apply filter_all. intros i Hi.
  apply in_seq in Hi.
  destruct (nth_error idx i) as [k|] eqn:Hk.
  - rewrite (row_take a n _ Hwf Hsh idx Hlt i k Hk).
    apply nth_error_In in Hk. rewrite <- Hidx in Hk.
    apply filter_In in Hk. tauto.
  - apply nth_error_None in Hk. lia.
Qed.

Lemma split_refiltered (d : ndarray spec_float) (l : ndarray Z) :
  split_ok d l ->
  exists idx d' l',
    remove_nans d = Ok idx /\ take d idx = Ok d' /\ take l idx = Ok l' /\
    split_ok d' l' /\ shrunk d l d' l' /\
    remove_nans d' = Ok (range (length idx)) /\
    take d' (range (length idx)) = Ok d' /\
    take l' (range (length idx)) = Ok l'.
Proof.
  intros (Hwd & Hwl & n & r & c & rest & lrest & Hd & Hl).
  destruct (remove_nans_range d n r c rest Hd) as (idx & Hrm & Hidx & _ & Hsub).
  pose proof (wf_take d n _ Hwd Hd idx Hidx) as Hwd'.
  pose proof (wf_take l n _ Hwl Hl idx Hidx) as Hwl'.
  exists idx. eexists. eexists.
  split; [exact Hrm|].
  split; [apply (take_ok d n _ Hd idx Hidx)|].
  split; [apply (take_ok l n _ Hl idx Hidx)|].
  split.
  { split; [exact Hwd'|]. split; [exact Hwl'|].
    exists (length idx), r, c, rest, lrest. split; reflexivity. }
  split.
  { split; [exact Hwd'|]. split; [exact Hwl'|].
    exists (length idx). rewrite Hd, Hl. cbn [hd tl shape].
    split; [|split; reflexivity].
    rewrite (remove_nans_filter d n r c rest Hd) in Hrm.
    injection Hrm as <-.
    etransitivity; [apply filter_length_le|].
    unfold range. now rewrite length_seq. }
  split; [apply (remove_nans_take d n r c rest idx Hwd Hd Hrm)|].
  split.
  - apply (take_range _ (length idx) (r :: c :: rest) Hwd' eq_refl).
  - apply (take_range _ (length idx) lrest Hwl' eq_refl).
Qed.

(** Filtering a second time changes nothing: the filtered dataset holds
    no example with a NaN, so the second pass keeps every index and
    selects every item. *)
Theorem filter_dataset_idempotent (ds : dataset) :
  split_ok (train_data ds) (train_labels ds) ->
  split_ok (test_data ds) (test_labels ds) ->
  split_ok (val_data ds) (val_labels ds) ->
  exists ds',
    filter_dataset ds = Ok ds' /\ filter_dataset ds' = Ok ds' /\
    (exists m, remove_nans (train_data ds') = Ok (range m) /\
               shape0 (train_data ds') = Ok m) /\
    (exists m, remove_nans (test_data ds') = Ok (range m) /\
               shape0 (test_data ds') = Ok m) /\
    (exists m, remove_nans (val_data ds') = Ok (range m) /\
               shape0 (val_data ds') = Ok m).
Proof.
  intros Htr Hte Hva.
  destruct (split_refiltered _ _ Htr)
    as (i1 & d1 & l1 & R1 & D1 & L1 & _ & S1 & R1' & D1' & L1').
  destruct (split_refiltered _ _ Hte)
    as (i2 & d2 & l2 & R2 & D2 & L2 & _ & S2 & R2' & D2' & L2').
  destruct (split_refiltered _ _ Hva)
    as (i3 & d3 & l3 & R3 & D3 & L3 & _ & S3 & R3' & D3' & L3').
  exists (mk_dataset d1 l1 d2 l2 d3 l3).
  split.
  { unfold filter_dataset. rewrite R1, R2, R3. cbn [bind].
    rewrite D1, L1, D2, L2, D3, L3. reflexivity. }
  split.
  { unfold filter_dataset.
    cbn [train_data train_labels test_data test_labels val_data val_labels].
    rewrite R1', R2', R3'. cbn [bind].
    rewrite D1', L1', D2', L2', D3', L3'. reflexivity. }
  cbn [train_data train_labels test_data test_labels val_data val_labels].
  assert (Hshape : forall (d d' : ndarray spec_float) idx,
             take d idx = Ok d' -> shape0 d' = Ok (length idx)).
  { intros d d' idx. unfold take.
    destruct (shape d); [discriminate|].
    destruct (forallb _ idx); [|discriminate].
    intros H. injection H as <-. reflexivity. }
  split; [|split]; eexists; (split; [eassumption|]); eapply Hshape; eassumption.
Qed.

Lemma filter_dataset_idempotent_witness :
  exists ds',
    filter_dataset sample_ds = Ok ds' /\ filter_dataset ds' = Ok ds' /\
    (exists m, remove_nans (train_data ds') = Ok (range m) /\
               shape0 (train_data ds') = Ok m) /\
    (exists m, remove_nans (test_data ds') = Ok (range m) /\
               shape0 (test_data ds') = Ok m) /\
    (exists m, remove_nans (val_data ds') = Ok (range m) /\
               shape0 (val_data ds') = Ok m).
Proof.
  apply (filter_dataset_idempotent sample_ds);
    (split; [reflexivity|]; split; [reflexivity|];
     exists 3, 1, 2, [], []; split; reflexivity).
Defined.

(** The filter keeps the arrays of a split in step: examples and labels
    come out with one common number of items, no larger than before, with
    their other axes unchanged and their buffers full. *)
Theorem filter_dataset_shapes (ds : dataset) :
  split_ok (train_data ds) (train_labels ds) ->
  split_ok (test_data ds) (test_labels ds) ->
  split_ok (val_data ds) (val_labels ds) ->
  exists ds',
    filter_dataset ds = Ok ds' /\
    shrunk (train_data ds) (train_labels ds)
           (train_data ds') (train_labels ds') /\
    shrunk (test_data ds) (test_labels ds)
           (test_data ds') (test_labels ds') /\
    shrunk (val_data ds) (val_labels ds)
           (val_data ds') (val_labels ds').
Proof.
  intros Htr Hte Hva.
  destruct (split_refiltered _ _ Htr)
    as (i1 & d1 & l1 & R1 & D1 & L1 & _ & S1 & _).
  destruct (split_refiltered _ _ Hte)
    as (i2 & d2 & l2 & R2 & D2 & L2 & _ & S2 & _).
  destruct (split_refiltered _ _ Hva)
    as (i3 & d3 & l3 & R3 & D3 & L3 & _ & S3 & _).
  exists (mk_dataset d1 l1 d2 l2 d3 l3).
  split.
  { unfold filter_dataset. rewrite R1, R2, R3. cbn [bind].
    rewrite D1, L1, D2, L2, D3, L3. reflexivity. }
  cbn [train_data train_labels test_data test_labels val_data val_labels].
  split; [exact S1|]. split; [exact S2 | exact S3].
Qed.

Lemma filter_dataset_shapes_witness :
  exists ds',
    filter_dataset sample_ds = Ok ds' /\
    shrunk (train_data sample_ds) (train_labels sample_ds)
           (train_data ds') (train_labels ds') /\
    shrunk (test_data sample_ds) (test_labels sample_ds)
           (test_data ds') (test_labels ds') /\
    shrunk (val_data sample_ds) (val_labels sample_ds)
           (val_data ds') (val_labels ds').
Proof.
  apply (filter_dataset_shapes sample_ds);
    (split; [reflexivity|]; split; [reflexivity|];
     exists 3, 1, 2, [], []; split; reflexivity).
Defined.

Lemma split_clean (d : ndarray spec_float) (l : ndarray Z) :
  split_ok d l -> no_nan d ->
  exists idx,
    remove_nans d = Ok idx /\ take d idx = Ok d /\ take l idx = Ok l.
Proof.
  intros (Hwd & Hwl & n & r & c & rest & lrest & Hd & Hl) Hclean.
  exists (range n).
  split.
  - rewrite (remove_nans_filter d n r c rest Hd). f_equal.
    apply filter_all. intros k _. apply nan_free_spec. intros x Hx.
    apply In_row_data in Hx. red in Hclean.
    rewrite Forall_forall in Hclean. now apply Hclean.
  - split.
    + apply (take_range d n _ Hwd Hd).
    + apply (take_range l n _ Hwl Hl).
Qed.

(** On a dataset without any NaN the filter is the identity: every
    index is kept and the six arrays come out unchanged. *)
Theorem filter_dataset_clean (ds : dataset) :
  split_ok (train_data ds) (train_labels ds) ->
  split_ok (test_data ds) (test_labels ds) ->
  split_ok (val_data ds) (val_labels ds) ->
  no_nan (train_data ds) -> no_nan (test_data ds) -> no_nan (val_data ds) ->
  filter_dataset ds = Ok ds.
Proof.
  intros Htr Hte Hva Ctr Cte Cva.
  destruct (split_clean _ _ Htr Ctr) as (i1 & R1 & D1 & L1).
  destruct (split_clean _ _ Hte Cte) as (i2 & R2 & D2 & L2).
  destruct (split_clean _ _ Hva Cva) as (i3 & R3 & D3 & L3).
  unfold filter_dataset. rewrite R1, R2, R3. cbn [bind].
  rewrite D1, L1, D2, L2, D3, L3. cbn [bind].
  destruct ds; reflexivity.
Qed.

Lemma filter_dataset_clean_witness : filter_dataset clean_ds = Ok clean_ds.
Proof.
  apply (filter_dataset_clean clean_ds);
    try (split; [reflexivity|]; split; [reflexivity|];
         exists 2, 1, 2, [], []; split; reflexivity);
    repeat constructor.
Defined.

(** [remove_nans] raises nothing but [IndexError]. *)
Lemma remove_nans_exn (a : ndarray spec_float) :
  (exists idx, remove_nans a = Ok idx) \/ remove_nans a = Raise IndexError.
Proof.
  unfold remove_nans, shape0.
  destruct (shape a) as [|n [|r [|c rest]]] eqn:Hsh; cbn [bind].
  - now right.
  - destruct n as [|n]; [left; now exists []|right].
    unfold range. cbn [seq for_each].
    unfold index_k_all_all. now rewrite Hsh.
  - destruct n as [|n]; [left; now exists []|right].
    unfold range. cbn [seq for_each].
    unfold index_k_all_all. now rewrite Hsh.
  - left. eexists.
    rewrite (remove_nans_loop a n r c rest Hsh) by apply range_bound.
    reflexivity.
Qed.

(** Labels that are fewer than the examples are noticed only through an
    index out of range: when a NaN-free training example sits at an index
    the label array does not have, the filter step raises [IndexError]. *)
Theorem filter_dataset_short_labels (ds : dataset) (n r c m k : nat)
  (rest lrest : list nat) :
  shape (train_data ds) = n :: r :: c :: rest ->
  shape (train_labels ds) = m :: lrest ->
  m <= k < n -> nan_free (row (train_data ds) k) = true ->
  filter_dataset ds = Raise IndexError.
Proof.
  intros Hd Hl Hk Hfree. unfold filter_dataset.
  rewrite (remove_nans_filter _ n r c rest Hd). cbn [bind].
  destruct (remove_nans_exn (test_data ds)) as [[i2 ->]| ->];
    [cbn [bind] | reflexivity].
  destruct (remove_nans_exn (val_data ds)) as [[i3 ->]| ->];
    [cbn [bind] | reflexivity].
  set (idx := filter _ (range n)).
  assert (Hin : In k idx).
  { apply filter_In. split; [apply in_seq; lia | exact Hfree]. }
  assert (Hlt : Forall (fun j => j < n) idx).
  { apply Forall_forall. intros j Hj. apply filter_In in Hj.
    destruct Hj as [Hj _]. apply in_seq in Hj. lia. }
  rewrite (take_ok _ n _ Hd idx Hlt). cbn [bind].
  unfold take at 1. rewrite Hl.
  replace (forallb (fun j => j <? m) idx) with false; [reflexivity|].
  symmetry. apply not_true_is_false. intros Hall.
  rewrite forallb_forall in Hall. specialize (Hall k Hin).
  apply Nat.ltb_lt in Hall. lia.
Qed.

Lemma filter_dataset_short_labels_witness :
  filter_dataset
    (mk_dataset clean_data (mk_ndarray [1] [1%Z])
                clean_data clean_labels clean_data clean_labels)
  = Raise IndexError.
Proof.
  apply (filter_dataset_short_labels _ 2 1 2 1 1 [] []);
    try reflexivity.
  simpl. lia.
Defined.

(** The model definition does not depend on which examples the filter
    drops: on the filtered dataset it gives what it gives on the
    unfiltered one, the same model or the same exception. *)
Theorem define_cnn_after_filter (ds : dataset) :
  split_ok (train_data ds) (train_labels ds) ->
  split_ok (test_data ds) (test_labels ds) ->
  split_ok (val_data ds) (val_labels ds) ->
  exists ds',
    filter_dataset ds = Ok ds' /\
    define_cnn ds' = define_cnn ds.
Proof.
  intros Htr Hte Hva.
  destruct (split_refiltered _ _ Htr)
    as (i1 & d1 & l1 & R1 & D1 & L1 & _ & S1 & _).
  destruct (split_refiltered _ _ Hte) as (i2 & d2 & l2 & R2 & D2 & L2 & _).
  destruct (split_refiltered _ _ Hva) as (i3 & d3 & l3 & R3 & D3 & L3 & _).
  destruct S1 as (_ & _ & m & _ & Hd' & _).
  destruct Htr as (_ & _ & n & r & c & rest & lrest & Hd & _).
  rewrite Hd in Hd'. cbn [tl] in Hd'.
  exists (mk_dataset d1 l1 d2 l2 d3 l3).
  split.
  { unfold filter_dataset. rewrite R1, R2, R3. cbn [bind].
    rewrite D1, L1, D2, L2, D3, L3. reflexivity. }
  unfold define_cnn, shape1. cbn [train_data]. rewrite Hd, Hd'.
  reflexivity.
Qed.

Lemma define_cnn_after_filter_witness :
  exists ds',
    filter_dataset window_ds = Ok ds' /\
    define_cnn ds' = define_cnn window_ds.
Proof.
  apply (define_cnn_after_filter window_ds);
    (split; [reflexivity|]; split; [reflexivity|];
     exists 2, 4, 1, [], []; split; reflexivity).
Defined.

(** On a window of fewer than four cadences the model definition stops
    with a [ValueError]: the first pooling has nothing to pool on a window
    shorter than two, the second on what the first leaves of a window of
    two or three. *)
Theorem define_cnn_short_window (ds : dataset) (n len : nat)
  (rest : list nat) :
  shape (train_data ds) = n :: len :: rest ->
  len < 4 ->
  define_cnn ds = Raise ValueError.
Proof.
  intros Hsh Hlen. unfold define_cnn, shape1. rewrite Hsh. cbn [bind].
  destruct len as [|[|[|[|len]]]]; try reflexivity. lia.
Qed.

Lemma define_cnn_short_window_witness :
  define_cnn sample_ds = Raise ValueError.
Proof.
  apply (define_cnn_short_window sample_ds 3 1 [2]); [reflexivity | lia].
Defined.

(** ** Further properties of the thresholding and the counting *)

Lemma SFcompare_antisym (x y : spec_float) :
  SFcompare y x = option_map CompOpp (SFcompare x y).
Proof.
  destruct x as [sx|sx| |sx mx ex]; destruct y as [sy|sy| |sy my ey];
    try destruct sx; try destruct sy; try reflexivity;
    cbn [SFcompare option_map];
    rewrite (Z.compare_antisym ex ey);
    destruct (Z.compare ex ey); cbn [CompOpp]; try reflexivity;
    f_equal; rewrite ?CompOpp_involutive;
    change (Pos.compare_cont Eq my mx) with (Pos.compare my mx);
    change (Pos.compare_cont Eq mx my) with (Pos.compare mx my);
    rewrite (Pos.compare_antisym mx my); now rewrite ?CompOpp_involutive.
Qed.

Lemma class_of_binary (p : spec_float) : class_of p = 0%Z \/ class_of p = 1%Z.
Proof. unfold class_of. destruct (greater p F32.half); auto. Qed.

Section Values.

Import QArith Qpower.
Local Open Scope Q_scope.

Lemma value_scaled (s : bool) (m : positive) (e e0 : Z) :
  (e0 <= e)%Z ->
  value s m e == inject_Z (signed s m * 2 ^ (e - e0)) * (2 # 1) ^ e0.
Proof.
  intros He. unfold value.
  replace e with ((e - e0) + e0)%Z at 1 by lia.
  rewrite Qpower_plus by discriminate.
  rewrite inject_Z_mult, (Zpower_Qpower 2 (e - e0)) by lia.
  change (inject_Z 2) with (2 # 1).
  apply Qmult_assoc.
Qed.

(** The comparison of two finite floats is that of their values. *)
Lemma compare_values_gt (sx sy : bool) (mx my : positive) (ex ey : Z) :
  compare_values (S754_finite sx mx ex) (S754_finite sy my ey) = Some Gt <->
  value sy my ey < value sx mx ex.
Proof.
  cbn [compare_values]. cbv zeta.
  set (e0 := Z.min ex ey).
  rewrite (value_scaled sx mx ex e0), (value_scaled sy my ey e0)
    by (unfold e0; lia).
  rewrite Qmult_lt_r by (apply Qpower_0_lt; reflexivity).
  rewrite <- Zlt_Qlt, <- Z.compare_gt_iff.
  split; [intros H; inversion H; reflexivity | intros H; now f_equal].
Qed.

Lemma half_value : value false 8388608 (-24) == 1 # 2.
Proof. vm_compute. reflexivity. Qed.

Lemma greater_finite (x : spec_float) (my : positive) (ey : Z) :
  greater x (S754_finite false my ey) = true <->
  match x with
  | S754_finite s m e => value false my ey < value s m e
  | S754_infinity false => True
  | _ => False
  end.
Proof.
  unfold greater.
  destruct x as [s|s| |s m e].
  - cbn [compare_values SFcompare]. split; [intros H; inversion H|tauto].
  - destruct s; cbn [compare_values SFcompare];
      split; try tauto; intros H; inversion H.
  - cbn [compare_values SFcompare]. split; [intros H; inversion H|tauto].
  - rewrite <- compare_values_gt.
    destruct (compare_values (S754_finite s m e) (S754_finite false my ey))
      as [[| |]|]; split; intros H; try reflexivity; inversion H.
Qed.

Lemma class_of_value (p : spec_float) : class_of p = 1%Z <-> exceeds_half p.
Proof.
  unfold class_of, exceeds_half.
  pose proof (greater_finite p 8388608 (-24)) as H. fold F32.half in H.
  destruct (greater p F32.half).
  - split; [intros _|reflexivity].
    assert (Ht : true = true) by reflexivity. apply H in Ht.
    destruct p as [s|s| |s m e]; try exact Ht.
    rewrite <- half_value. exact Ht.
  - split; [intros E; inversion E|].
    intros Hx.
    assert (Hf : false = true); [|inversion Hf].
    apply H. destruct p as [s|s| |s m e]; try exact Hx.
    rewrite half_value. exact Hx.
Qed.

End Values.

(** Thresholding keeps the shape of the predictions and tells whether the
    value of a prediction exceeds one half: a finite prediction becomes
    class 1 when the rational number it stands for is greater than 1/2,
    whatever the format it is written in, plus infinity becomes class 1,
    and every other prediction, a NaN among them, becomes class 0. *)
Theorem binarize_classes (predictions : ndarray spec_float) (i : nat)
  (p : spec_float) :
  nth_error (data predictions) i = Some p ->
  shape (binarize predictions) = shape predictions /\
  length (data (binarize predictions)) = length (data predictions) /\
  (exceeds_half p ->
   nth_error (data (binarize predictions)) i = Some 1%Z) /\
  (~ exceeds_half p ->
   nth_error (data (binarize predictions)) i = Some 0%Z).
Proof.
  intros Hp. rewrite binarize_data. cbn [shape data]. rewrite length_map.
  split; [reflexivity|]. split; [reflexivity|].
  rewrite nth_error_map, Hp. cbn [option_map].
  split; intros Hx; f_equal.
  - now apply class_of_value.
  - destruct (class_of_binary p) as [E | E]; [exact E|].
    apply class_of_value in E. contradiction.
Qed.

Lemma binarize_classes_witness :
  shape (binarize (mk_ndarray [2; 1]
                     [S754_finite false 6755399441055744 (-53); S754_nan]))
  = [2; 1] /\
  length (data (binarize (mk_ndarray [2; 1]
                     [S754_finite false 6755399441055744 (-53); S754_nan])))
  = 2 /\
  (exceeds_half (S754_finite false 6755399441055744 (-53)) ->
   nth_error
     (data (binarize (mk_ndarray [2; 1]
                     [S754_finite false 6755399441055744 (-53); S754_nan])))
     0 = Some 1%Z) /\
  (~ exceeds_half (S754_finite false 6755399441055744 (-53)) ->
   nth_error
     (data (binarize (mk_ndarray [2; 1]
                     [S754_finite false 6755399441055744 (-53); S754_nan])))
     0 = Some 0%Z).
Proof.
  apply (binarize_classes
           (mk_ndarray [2; 1]
              [S754_finite false 6755399441055744 (-53); S754_nan])
           0 (S754_finite false 6755399441055744 (-53))).
  reflexivity.
Defined.

Lemma count_pairs_binary (yt yp : list Z) (t : Z) :
  length yt = length yp ->
  Forall (fun q => q = 0%Z \/ q = 1%Z) yp ->
  (count_pairs yt yp t 0 + count_pairs yt yp t 1)%Z =
  Z.of_nat (count_occ Z.eq_dec yt t).
Proof.
  revert yp. induction yt as [|y yt IH]; intros yp Hlen Hbin.
  - reflexivity.
  - destruct yp as [|q yp]; [discriminate|].
    inversion Hbin as [|? ? Hq Hbin']; subst.
    rewrite !count_pairs_cons. cbn [count_occ].
    specialize (IH yp ltac:(simpl in Hlen; lia) Hbin').
    destruct (Z.eq_dec y t) as [->|Hne].
    + rewrite Z.eqb_refl. cbn [andb].
      destruct Hq as [->| ->]; cbn [Z.eqb Pos.eqb]; lia.
    + destruct (Z.eqb_spec y t); [contradiction|]. cbn [andb]. lia.
Qed.

(** On labels among which a 0 or a 1 occurs, every sample whose true
    label is 0 or 1 is counted once, in the row of its label: the two
    counts of a row add up to the number of samples of that class,
    whatever the predictions are. *)
Theorem confusion_rows_count_labels (predictions : ndarray spec_float)
  (input_labels : ndarray Z) (n : nat) :
  shape predictions = [n; 1] -> shape input_labels = [n] ->
  wf predictions -> wf input_labels ->
  (In 0%Z (data input_labels) \/ In 1%Z (data input_labels)) ->
  exists c00 c01 c10 c11,
    Sklearn.confusion_matrix input_labels (binarize predictions) [0; 1]%Z =
    Ok (mk_ndarray [2; 2] [c00; c01; c10; c11]) /\
    (0 <= c00 /\ 0 <= c01 /\ 0 <= c10 /\ 0 <= c11)%Z /\
    (c00 + c01)%Z = Z.of_nat (count_occ Z.eq_dec (data input_labels) 0%Z) /\
    (c10 + c11)%Z = Z.of_nat (count_occ Z.eq_dec (data input_labels) 1%Z).
Proof.
  intros Hsp Hsl Hwp Hwl Hin.
  pose proof (labels_not_empty input_labels n Hsl Hwl Hin) as Hn.
  red in Hwp, Hwl. rewrite Hsp in Hwp. rewrite Hsl in Hwl.
  cbn [size_of fold_right] in Hwp, Hwl.
  assert (Hlen : length (data input_labels) =
                 length (map class_of (data predictions)))
    by (rewrite length_map; lia).
  assert (Hbin : Forall (fun q => q = 0%Z \/ q = 1%Z)
                   (map class_of (data predictions))).
  { apply Forall_forall. intros q Hq. apply in_map_iff in Hq.
    destruct Hq as [p [<- _]]. apply class_of_binary. }
  do 4 eexists. split.
  - rewrite binarize_data.
    apply (confusion_matrix_counts input_labels _ n Hsl
             (Hsp : shape (mk_ndarray (shape predictions) _) = [n; 1])
             Hn Hin).
  - cbn [data].
    split; [repeat split; apply count_pairs_nonneg|].
    split; apply count_pairs_binary; assumption.
Qed.

Lemma confusion_rows_count_labels_witness :
  exists c00 c01 c10 c11,
    Sklearn.confusion_matrix (mk_ndarray [4] [0; 1; 1; 1]%Z)
      (binarize sample_predictions) [0; 1]%Z =
    Ok (mk_ndarray [2; 2] [c00; c01; c10; c11]) /\
    (0 <= c00 /\ 0 <= c01 /\ 0 <= c10 /\ 0 <= c11)%Z /\
    (c00 + c01)%Z = Z.of_nat (count_occ Z.eq_dec [0; 1; 1; 1]%Z 0%Z) /\
    (c10 + c11)%Z = Z.of_nat (count_occ Z.eq_dec [0; 1; 1; 1]%Z 1%Z).
Proof.
  apply (confusion_rows_count_labels sample_predictions
           (mk_ndarray [4] [0; 1; 1; 1]%Z) 4); try reflexivity.
  left. simpl. auto.
Defined.

(** ** The drawing of the confusion matrix *)

Lemma for_each_collect (A C : Type) (g : A -> C) (P : A -> Prop)
  (body : A -> list C -> result (list C)) :
  (forall x log, P x -> body x log = Ok (log ++ [g x])) ->
  forall xs log, Forall P xs -> for_each xs body log = Ok (log ++ map g xs).
Proof.
  intros Hbody xs. induction xs as [|x xs IH]; intros log Hxs.
  - cbn [for_each map]. now rewrite app_nil_r.
  - inversion Hxs as [|? ? Hx Hxs']; subst.
    cbn [for_each map]. rewrite Hbody by assumption. cbn [bind].
    rewrite IH by assumption. now rewrite <- app_assoc.
Qed.

Lemma for_each_collect_lists (A C : Type) (g : A -> list C) (P : A -> Prop)
  (body : A -> list C -> result (list C)) :
  (forall x log, P x -> body x log = Ok (log ++ g x)) ->
  forall xs log, Forall P xs ->
  for_each xs body log = Ok (log ++ flat_map g xs).
Proof.
  intros Hbody xs. induction xs as [|x xs IH]; intros log Hxs.
  - cbn [for_each flat_map]. now rewrite app_nil_r.
  - inversion Hxs as [|? ? Hx Hxs']; subst.
    cbn [for_each flat_map]. rewrite Hbody by assumption. cbn [bind].
    rewrite IH by assumption. now rewrite <- app_assoc.
Qed.

Lemma get2_nth (m : ndarray spec_float) (r c i j : nat) :
  shape m = [r; c] -> wf m -> i < r -> j < c ->
  get2 m i j = Ok (nth (i * c + j) (data m) S754_nan).
Proof.
  intros Hsh Hwf Hi Hj. unfold get2. rewrite Hsh.
  apply Nat.ltb_lt in Hi as Hi', Hj as Hj'. rewrite Hi', Hj'. cbn [andb].
  red in Hwf. rewrite Hsh in Hwf. cbn [size_of fold_right] in Hwf.
  assert (Hlt : i * c + j < length (data m)) by nia.
  destruct (nth_error (data m) (i * c + j)) as [x|] eqn:Hx.
  - now rewrite (nth_error_nth _ _ S754_nan Hx).
  - apply nth_error_None in Hx. lia.
Qed.

Lemma seq_offset (s c : nat) : seq s c = map (fun j => s + j) (seq 0 c).
Proof.
  induction s as [|s IH].
  - cbn [Nat.add]. now rewrite map_id.
  - rewrite <- seq_shift, IH, map_map. reflexivity.
Qed.

(** Rows after rows of [c] positions are the positions [0 .. r*c-1]. *)
Lemma flat_map_rows (C : Type) (g : nat -> C) (c r : nat) :
  flat_map (fun i => map (fun j => g (i * c + j)) (seq 0 c)) (seq 0 r)
  = map g (seq 0 (r * c)).
Proof.
  induction r as [|r IH]; [reflexivity|].
  rewrite seq_S, flat_map_app, IH. cbn [flat_map Nat.add].
  rewrite app_nil_r.
  replace (S r * c) with (r * c + c) by lia.
  rewrite seq_app, map_app. f_equal. cbn [Nat.add].
  rewrite (seq_offset (r * c) c), map_map. reflexivity.
Qed.

Lemma map_seq_combine (A C : Type) (f : nat -> A -> C) (d : A) (l : list A) :
  forall s,
  map (fun p => f p (nth (p - s) l d)) (seq s (length l))
  = map (fun pv => f (fst pv) (snd pv)) (combine (seq s (length l)) l).
Proof.
  induction l as [|x l IH]; intros s; [reflexivity|].
  cbn [length seq map combine fst snd]. rewrite Nat.sub_diag. f_equal.
  rewrite <- IH. apply map_ext_in. intros p Hp. apply in_seq in Hp.
  replace (p - s) with (S (p - S s)) by lia. reflexivity.
Qed.

Lemma annotate_spec (m : ndarray spec_float) (r c : nat)
  (fmt : String.string) (thresh : spec_float) (log : list command) :
  shape m = [r; c] -> wf m ->
  annotate m fmt thresh log =
  Ok (log ++ map (fun pv =>
                    text (fst pv mod c) (fst pv / c) (snd pv) fmt
                      (if SFltb (snd pv) thresh then "white" else "black")%string)
               (combine (range (length (data m))) (data m))).
Proof.
  intros Hsh Hwf. unfold annotate, shape0, shape1. rewrite Hsh. cbn [bind].
  set (cell := fun p v =>
         text (p mod c) (p / c) v fmt
           (if SFltb v thresh then "white" else "black")%string).
  rewrite (for_each_collect_lists nat command
             (fun i => map (fun j => cell (i * c + j)
                                      (nth (i * c + j) (data m) S754_nan))
                         (seq 0 c))
             (fun i => i < r)).
  - f_equal. f_equal.
    rewrite (flat_map_rows command
               (fun p => cell p (nth p (data m) S754_nan))).
    assert (Hlen : length (data m) = r * c).
    { red in Hwf. rewrite Hsh in Hwf. cbn [size_of fold_right] in Hwf. lia. }
    unfold range. rewrite <- Hlen.
    etransitivity;
      [|exact (map_seq_combine spec_float command cell S754_nan (data m) 0)].
    apply map_ext. intros p. now rewrite Nat.sub_0_r.
  - intros i lg Hi.
    apply (for_each_collect nat command
             (fun j => cell (i * c + j) (nth (i * c + j) (data m) S754_nan))
             (fun j => j < c)).
    + intros j lg' Hj. rewrite (get2_nth m r c i j Hsh Hwf Hi Hj).
      cbn [bind]. unfold cell.
      assert (Hc : c <> 0) by lia.
      rewrite Nat.add_comm, Nat.Div0.mod_add, Nat.div_add by assumption.
      rewrite Nat.mod_small, Nat.div_small by assumption.
      reflexivity.
    + apply range_bound.
  - apply range_bound.
Qed.

Lemma is_nan_eq (x : spec_float) : is_nan x = true -> x = S754_nan.
Proof. destruct x; try discriminate. reflexivity. Qed.

Lemma maximum_nan_l (x y : spec_float) :
  is_nan x = true -> is_nan (maximum x y) = true.
Proof. intros H. unfold maximum. now rewrite H. Qed.

Lemma maximum_nan_r (x y : spec_float) :
  is_nan y = true -> is_nan (maximum x y) = true.
Proof.
  intros H. unfold maximum. destruct (is_nan x) eqn:Hx; [assumption|].
  now rewrite H.
Qed.

Lemma fold_maximum_nan (xs : list spec_float) :
  forall x, is_nan x = true \/ In S754_nan xs ->
  is_nan (fold_left maximum xs x) = true.
Proof.
  induction xs as [|y xs IH]; intros x H; cbn [fold_left].
  - destruct H as [H|[]]. exact H.
  - apply IH. destruct H as [H|[->|H]].
    + left. now apply maximum_nan_l.
    + left. now apply maximum_nan_r.
    + now right.
Qed.

(** The maximum of an array that holds a NaN is NaN. *)
Lemma np_max_nan (m : ndarray spec_float) :
  In S754_nan (data m) -> np_max m = Ok S754_nan.
Proof.
  intros H. unfold np_max. destruct (data m) as [|x xs]; [destruct H|].
  f_equal. apply is_nan_eq. apply fold_maximum_nan.
  destruct H as [->|H]; [now left | now right].
Qed.

Lemma ltb_nan_r (v : spec_float) : SFltb v S754_nan = false.
Proof. destruct v; reflexivity. Qed.

Lemma draw_spec (m : ndarray spec_float) (r c : nat) (mx : spec_float) :
  shape m = [r; c] -> wf m -> np_max m = Ok mx ->
  draw_confusion_matrix m =
  Ok ([figure; add_subplot 111; matshow m "binary_r"%string;
       title "Confusion matrix"%string;
       set_xticks [0; 1]; set_xticklabels ["Flare"; "No Flare"]%string;
       set_yticks [0; 1]; set_yticklabels ["Flare"; "No Flare"]%string;
       xlabel "Predicted"%string; ylabel "True"%string]
      ++ map (fun pv => annotation c (F64.div mx two) (fst pv) (snd pv))
           (combine (range (length (data m))) (data m))
      ++ [show]).
Proof.
  intros Hsh Hwf Hmx. unfold draw_confusion_matrix. rewrite Hmx. cbn [bind].
  rewrite (annotate_spec m r c _ _ _ Hsh Hwf). cbn [bind].
  now rewrite <- app_assoc.
Qed.

Lemma filter_text_annotations (c : nat) (thresh : spec_float)
  (l : list (nat * spec_float)) :
  filter is_text
    (map (fun pv => annotation c thresh (fst pv) (snd pv)) l)
  = map (fun pv => annotation c thresh (fst pv) (snd pv)) l.
Proof.
  apply filter_all. intros x Hx. apply in_map_iff in Hx.
  destruct Hx as [pv [<- _]]. reflexivity.
Qed.

(** The drawing writes one annotation for every cell of the matrix, in
    row-major order: the value of the cell, at [x] its column and [y] its
    row, in white when the value is below half the maximum of the matrix
    and in black otherwise. *)
Theorem draw_annotates_every_cell (m : ndarray spec_float) (r c : nat) :
  shape m = [r; c] -> wf m -> 0 < r * c ->
  exists mx log,
    np_max m = Ok mx /\
    draw_confusion_matrix m = Ok log /\
    filter is_text log =
    map (fun pv => annotation c (F64.div mx two) (fst pv) (snd pv))
      (combine (range (r * c)) (data m)).
Proof.
  intros Hsh Hwf Hpos.
  assert (Hlen : length (data m) = r * c).
  { red in Hwf. rewrite Hsh in Hwf. cbn [size_of fold_right] in Hwf. lia. }
  assert (Hmx : exists mx, np_max m = Ok mx).
  { unfold np_max. destruct (data m); [simpl in Hlen; lia | eauto]. }
  destruct Hmx as [mx Hmx]. exists mx. eexists.
  split; [exact Hmx|].
  split; [apply (draw_spec m r c mx Hsh Hwf Hmx)|].
  rewrite filter_app. cbn [filter is_text app].
  rewrite filter_app, filter_text_annotations. cbn [filter is_text].
  now rewrite app_nil_r, Hlen.
Qed.

Lemma draw_annotates_every_cell_witness :
  exists mx log,
    np_max (mk_ndarray [2; 2] [F64.one; F64.zero; F64.half; F64.half])
    = Ok mx /\
    draw_confusion_matrix
      (mk_ndarray [2; 2] [F64.one; F64.zero; F64.half; F64.half]) = Ok log /\
    filter is_text log =
    map (fun pv => annotation 2 (F64.div mx two) (fst pv) (snd pv))
      (combine (range (2 * 2)) [F64.one; F64.zero; F64.half; F64.half]).
Proof.
  apply (draw_annotates_every_cell
           (mk_ndarray [2; 2] [F64.one; F64.zero; F64.half; F64.half]) 2 2);
    [reflexivity | reflexivity | simpl; lia].
Defined.

Lemma texts_black (c : nat) (pre post : list command)
  (l : list (nat * spec_float)) :
  Forall (fun k => is_text k = false) pre ->
  Forall (fun k => is_text k = false) post ->
  forall x y v fmt col,
  In (text x y v fmt col)
     (pre ++ map (fun pv => annotation c (F64.div S754_nan two)
                              (fst pv) (snd pv)) l ++ post) ->
  col = "black"%string.
Proof.
  intros Hpre Hpost x y v fmt col Hin.
  apply in_app_or in Hin. destruct Hin as [Hin|Hin].
  - rewrite Forall_forall in Hpre. apply Hpre in Hin. discriminate.
  - apply in_app_or in Hin. destruct Hin as [Hin|Hin].
    + apply in_map_iff in Hin. destruct Hin as [pv [Heq _]].
      unfold annotation in Heq. cbn [F64.div SFdiv] in Heq.
      rewrite ltb_nan_r in Heq. now inversion Heq.
    + rewrite Forall_forall in Hpost. apply Hpost in Hin. discriminate.
Qed.

(** When the matrix holds a NaN, its maximum and the threshold are NaN,
    no value compares below the threshold, and every annotation is
    black. *)
Theorem draw_nan_all_black (m : ndarray spec_float) (r c : nat) :
  shape m = [r; c] -> wf m -> In S754_nan (data m) ->
  exists log,
    draw_confusion_matrix m = Ok log /\
    forall x y v fmt col, In (text x y v fmt col) log -> col = "black"%string.
Proof.
  intros Hsh Hwf Hnan. eexists.
  split; [apply (draw_spec m r c S754_nan Hsh Hwf (np_max_nan m Hnan))|].
  apply texts_black; repeat constructor.
Qed.

Lemma draw_nan_all_black_witness :
  exists log,
    draw_confusion_matrix
      (mk_ndarray [2; 2] [F64.half; F64.half; S754_nan; S754_nan]) = Ok log /\
    forall x y v fmt col, In (text x y v fmt col) log -> col = "black"%string.
Proof.
  apply (draw_nan_all_black
           (mk_ndarray [2; 2] [F64.half; F64.half; S754_nan; S754_nan]) 2 2);
    [reflexivity | reflexivity | simpl; auto].
Defined.

Lemma normalized_matrix (cnn : predictor)
  (input_data predictions : ndarray spec_float) (input_labels : ndarray Z)
  (n : nat) :
  predict cnn input_data = Ok predictions ->
  shape predictions = [n; 1] -> shape input_labels = [n] ->
  wf predictions -> wf input_labels ->
  (In 0%Z (data input_labels) \/ In 1%Z (data input_labels)) ->
  plot_confusion_matrix cnn input_data input_labels =
  Ok (mk_ndarray [2; 2]
        [normalized_entry (data input_labels)
           (map class_of (data predictions)) 0 0;
         normalized_entry (data input_labels)
           (map class_of (data predictions)) 0 1;
         normalized_entry (data input_labels)
           (map class_of (data predictions)) 1 0;
         normalized_entry (data input_labels)
           (map class_of (data predictions)) 1 1]).
Proof.
  intros Hp Hsp Hsl Hwp Hwl Hin. unfold plot_confusion_matrix.
  rewrite (confusion_counts_spec cnn input_data predictions input_labels n)
    by assumption.
  cbn [bind map fst snd]. now rewrite normalize_2x2.
Qed.

(** On labels among which a 0 or a 1 occurs, the helper writes the
    normalized count of true label [t] and predicted label [p] at
    [x = p], [y = t], and on both axes it names the tick at 0 ['Flare']
    and the tick at 1 ['No Flare']: the row and the column of label 0
    carry the name ['Flare']. *)
Theorem figure_ticks_and_cells (cnn : predictor)
  (input_data predictions : ndarray spec_float) (input_labels : ndarray Z)
  (n : nat) :
  predict cnn input_data = Ok predictions ->
  shape predictions = [n; 1] -> shape input_labels = [n] ->
  wf predictions -> wf input_labels ->
  (In 0%Z (data input_labels) \/ In 1%Z (data input_labels)) ->
  exists log col00 col01 col10 col11,
    plot_confusion_matrix_figure cnn input_data input_labels = Ok log /\
    filter is_text log =
      [text 0 0 (normalized_entry (data input_labels)
                   (map class_of (data predictions)) 0 0) ".2f"%string col00;
       text 1 0 (normalized_entry (data input_labels)
                   (map class_of (data predictions)) 0 1) ".2f"%string col01;
       text 0 1 (normalized_entry (data input_labels)
                   (map class_of (data predictions)) 1 0) ".2f"%string col10;
       text 1 1 (normalized_entry (data input_labels)
                   (map class_of (data predictions)) 1 1) ".2f"%string col11] /\
    In (set_xticks [0; 1]) log /\
    In (set_xticklabels ["Flare"; "No Flare"]%string) log /\
    In (set_yticks [0; 1]) log /\
    In (set_yticklabels ["Flare"; "No Flare"]%string) log.
Proof.
  intros Hp Hsp Hsl Hwp Hwl Hin.
  unfold plot_confusion_matrix_figure.
  rewrite (normalized_matrix cnn input_data predictions input_labels n)
    by assumption.
  cbn [bind].
  set (m := mk_ndarray [2; 2] _).
  assert (Hmx : exists mx, np_max m = Ok mx) by (eexists; reflexivity).
  destruct Hmx as [mx Hmx].
  rewrite (draw_spec m 2 2 mx eq_refl eq_refl Hmx).
  eexists. do 4 eexists.
  split; [reflexivity|].
  split; [reflexivity|].
  cbn [app In]. repeat split; auto 10.
Qed.

Lemma figure_ticks_and_cells_witness :
  exists log col00 col01 col10 col11,
    plot_confusion_matrix_figure sample_cnn sample_input
      (mk_ndarray [4] [0; 1; 1; 1]%Z) = Ok log /\
    filter is_text log =
      [text 0 0 (normalized_entry [0; 1; 1; 1]%Z
                   (map class_of (data sample_predictions)) 0 0)
         ".2f"%string col00;
       text 1 0 (normalized_entry [0; 1; 1; 1]%Z
                   (map class_of (data sample_predictions)) 0 1)
         ".2f"%string col01;
       text 0 1 (normalized_entry [0; 1; 1; 1]%Z
                   (map class_of (data sample_predictions)) 1 0)
         ".2f"%string col10;
       text 1 1 (normalized_entry [0; 1; 1; 1]%Z
                   (map class_of (data sample_predictions)) 1 1)
         ".2f"%string col11] /\
    In (set_xticks [0; 1]) log /\
    In (set_xticklabels ["Flare"; "No Flare"]%string) log /\
    In (set_yticks [0; 1]) log /\
    In (set_yticklabels ["Flare"; "No Flare"]%string) log.
Proof.
  apply (figure_ticks_and_cells sample_cnn sample_input sample_predictions
           (mk_ndarray [4] [0; 1; 1; 1]%Z) 4); try reflexivity.
  left. simpl. auto.
Defined.

(** When class 1 has no true example, the helper still draws: the matrix
    holds NaN, so every annotation of the figure, also in the row of
    class 0, is black. *)
Theorem figure_all_black_without_class (cnn : predictor)
  (input_data predictions : ndarray spec_float) (input_labels : ndarray Z)
  (n : nat) :
  predict cnn input_data = Ok predictions ->
  shape predictions = [n; 1] -> shape input_labels = [n] ->
  wf predictions -> wf input_labels ->
  In 0%Z (data input_labels) -> ~ In 1%Z (data input_labels) ->
  exists log,
    plot_confusion_matrix_figure cnn input_data input_labels = Ok log /\
    length (filter is_text log) = 4 /\
    forall x y v fmt col, In (text x y v fmt col) log -> col = "black"%string.
Proof.
  intros Hp Hsp Hsl Hwp Hwl H0 H1.
  unfold plot_confusion_matrix_figure.
  rewrite (normalized_matrix cnn input_data predictions input_labels n)
    by auto.
  cbn [bind]. unfold normalized_entry at 3 4.
  rewrite !(count_pairs_absent _ _ 1%Z) by assumption.
  change (F64.div (F64.of_Z 0) (F64.add (F64.of_Z 0) (F64.of_Z 0)))
    with S754_nan.
  set (m := mk_ndarray [2; 2] _).
  assert (Hnan : In S754_nan (data m)) by (cbn; auto).
  rewrite (draw_spec m 2 2 S754_nan eq_refl eq_refl (np_max_nan m Hnan)).
  eexists. split; [reflexivity|]. split; [reflexivity|].
  apply texts_black; repeat constructor.
Qed.

Lemma figure_all_black_without_class_witness :
  exists log,
    plot_confusion_matrix_figure sample_cnn sample_input
      (mk_ndarray [4] [0; 0; 0; 0]%Z) = Ok log /\
    length (filter is_text log) = 4 /\
    forall x y v fmt col, In (text x y v fmt col) log -> col = "black"%string.
Proof.
  apply (figure_all_black_without_class sample_cnn sample_input
           sample_predictions (mk_ndarray [4] [0; 0; 0; 0]%Z) 4);
    try reflexivity.
  - simpl. auto.
  - simpl. intros [H|[H|[H|[H|H]]]]; try discriminate H; exact H.
Defined.

(** ** The sample plot *)

Lemma comprehension_map (A B : Type) (f : A -> result B) (g : A -> B)
  (P : A -> Prop) (xs : list A) :
  (forall x, P x -> f x = Ok (g x)) -> Forall P xs ->
  comprehension f xs = Ok (map g xs).
Proof.
  intros Hf Hxs. unfold comprehension.
  rewrite (for_each_collect A B g P); [reflexivity| |assumption].
  intros x acc Hx. now rewrite Hf.
Qed.

Lemma ofor_each_collect (A C : Type) (g : A -> list C) (P : A -> Prop)
  (body : A -> list C -> outcome (list C)) :
  (forall x log, P x -> body x log = Done (log ++ g x)) ->
  forall xs log, Forall P xs ->
  ofor_each xs body log = Done (log ++ flat_map g xs).
Proof.
  intros Hbody xs. induction xs as [|x xs IH]; intros log Hxs.
  - cbn [ofor_each flat_map]. now rewrite app_nil_r.
  - inversion Hxs as [|? ? Hx Hxs']; subst.
    cbn [ofor_each flat_map]. rewrite Hbody by assumption. cbn [obind].
    rewrite IH by assumption. now rewrite <- app_assoc.
Qed.

Lemma ofor_each_key_error (A S : Type) (P Q : A -> Prop)
  (body : A -> S -> outcome S) :
  (forall x s, P x -> exists s', body x s = Done s') ->
  (forall x s, Q x -> body x s = KeyError) ->
  forall xs s, Forall (fun x => P x \/ Q x) xs -> Exists Q xs ->
  ofor_each xs body s = KeyError.
Proof.
  intros HP HQ xs. induction xs as [|x xs IH]; intros s Hall Hex.
  - inversion Hex.
  - inversion Hall as [|? ? Hx Hall']; subst. cbn [ofor_each].
    inversion Hex as [? ? Hq|? ? Hex']; subst.
    + now rewrite (HQ x s Hq).
    + destruct Hx as [Hx|Hx].
      * destruct (HP x s Hx) as [s' ->]. cbn [obind]. now apply IH.
      * now rewrite (HQ x s Hx).
Qed.

Section SamplePlot.

Variable draw : nat -> nat -> list nat.
Variable ds : dataset.
Variables (n : nat) (rest : list nat).
Hypothesis Hdraw : draws_in_range draw.
Hypothesis Hlabels : shape (train_labels ds) = [n].
Hypothesis Hdata : shape (train_data ds) = n :: rest.
Hypothesis Hwf : wf (train_labels ds).
Hypothesis Hn : 0 < n.

Lemma item_label (j : nat) :
  j < n ->
  item (train_labels ds) j =
  Ok (mk_ndarray [] [nth j (data (train_labels ds)) 0%Z]).
Proof.
  intros Hj. unfold item. rewrite Hlabels.
  apply Nat.ltb_lt in Hj as Hj'. rewrite Hj'. f_equal. f_equal.
  unfold row, block. rewrite Hlabels. cbn [tl size_of fold_right].
  rewrite Nat.mul_1_r.
  red in Hwf. rewrite Hlabels in Hwf. cbn [size_of fold_right] in Hwf.
  assert (Hlen : j < length (data (train_labels ds))) by lia.
  clear Hwf Hj'. revert j Hlen Hj.
  induction (data (train_labels ds)) as [|x xs IH]; intros j Hlen Hj.
  - simpl in Hlen. lia.
  - destruct j as [|j]; [reflexivity|].
    cbn [skipn nth]. apply IH; simpl in Hlen; lia.
Qed.

Lemma item_example (j : nat) :
  j < n ->
  item (train_data ds) j = Ok (mk_ndarray rest (row (train_data ds) j)).
Proof.
  intros Hj. unfold item. rewrite Hdata.
  apply Nat.ltb_lt in Hj. now rewrite Hj.
Qed.

Lemma sample_prelude :
  exists ids,
    ids = draw n 16 /\ length ids = 16 /\ Forall (fun j => j < n) ids /\
    random_choice draw n 16 = Ok ids /\
    comprehension (item (train_data ds)) ids =
      Ok (map (fun j => mk_ndarray rest (row (train_data ds) j)) ids) /\
    comprehension (item (train_labels ds)) ids =
      Ok (map (fun j => mk_ndarray [] [nth j (data (train_labels ds)) 0%Z])
            ids).
Proof.
  destruct (Hdraw n 16 Hn) as [Hlen Hlt].
  exists (draw n 16). split; [reflexivity|]. split; [exact Hlen|].
  split; [exact Hlt|]. split.
  - unfold random_choice. destruct n; [lia | reflexivity].
  - split.
    + apply (comprehension_map _ _ _ _ (fun j => j < n));
        [apply item_example | exact Hlt].
    + apply (comprehension_map _ _ _ _ (fun j => j < n));
        [apply item_label | exact Hlt].
Qed.

End SamplePlot.

Lemma list_index_map (A B : Type) (g : A -> B) (d : A) (xs : list A)
  (i : nat) :
  i < length xs -> list_index (map g xs) i = Ok (g (nth i xs d)).
Proof.
  intros Hi. unfold list_index.
  rewrite nth_error_map, (nth_error_nth' xs d Hi). reflexivity.
Qed.

Lemma plt_subplot_ok (i : nat) :
  i < 16 -> plt_subplot 4 4 (i + 1) = Ok (subplot 4 4 (i + 1)).
Proof.
  intros Hi. unfold plt_subplot.
  replace (1 <=? i + 1) with true by (symmetry; apply Nat.leb_le; lia).
  replace (i + 1 <=? 4 * 4) with true
    by (symmetry; apply Nat.leb_le; simpl; lia).
  reflexivity.
Qed.

(** One turn of the plotting loop, by the label of the example drawn. *)
Lemma panel_turn (ds : dataset) (ids : list nat) (i : nat)
  (log : list command) :
  i < 16 -> length ids = 16 ->
  (lc <~ lift (plt_subplot 4 4 (i + 1)) ;;
   x <~ lift (list_index
                (map (fun j => mk_ndarray (tl (shape (train_data ds)))
                                 (row (train_data ds) j)) ids) i) ;;
   lab <~ lift (list_index
                  (map (fun j => mk_ndarray []
                                   [nth j (data (train_labels ds)) 0%Z]) ids)
                  i) ;;
   color <~ subscript colors lab ;;
   curve <~ lift (plt_plot x color) ;;
   lab' <~ lift (list_index
                   (map (fun j => mk_ndarray []
                                    [nth j (data (train_labels ds)) 0%Z]) ids)
                   i) ;;
   name <~ subscript titles lab' ;;
   Done (log ++ [lc; curve; title name; xlabel "Cadences"%string]))
  = let lab := nth (nth i ids 0) (data (train_labels ds)) 0%Z in
    if Z.eqb lab 1 || Z.eqb lab 0
    then if length (tl (shape (train_data ds))) <=? 2
         then Done (log ++ panel_of ds i (nth i ids 0))
         else Failed ValueError
    else KeyError.
Proof.
  intros Hi Hlen.
  rewrite (plt_subplot_ok i Hi). cbn [lift obind].
  rewrite !(list_index_map _ _ _ 0) by lia. cbn [lift obind].
  unfold subscript, panel_of, plt_plot.
  cbn [shape data dict_get colors titles].
  destruct (Z.eqb (nth (nth i ids 0) (data (train_labels ds)) 0%Z) 1).
  { cbn [orb obind].
    destruct (length (tl (shape (train_data ds))) <=? 2); reflexivity. }
  destruct (Z.eqb (nth (nth i ids 0) (data (train_labels ds)) 0%Z) 0);
    [|reflexivity].
  cbn [orb obind].
  destruct (length (tl (shape (train_data ds))) <=? 2); reflexivity.
Qed.

(** With a non-empty training set of binary labels, whose examples are
    curves or tables, the sample plot raises nothing and draws 16 panels;
    panel [i] shows the example at the [i]-th drawn index in the colour
    and under the title of the label at that same index: red and
    ['Flare'] for 1, black and ['Non-flare'] for 0. *)
Theorem plot_examples_panels (draw : nat -> nat -> list nat) (ds : dataset)
  (n : nat) (rest : list nat) :
  draws_in_range draw ->
  shape (train_labels ds) = [n] -> shape (train_data ds) = n :: rest ->
  length rest <= 2 ->
  wf (train_labels ds) -> 0 < n ->
  Forall (fun l => l = 0%Z \/ l = 1%Z) (data (train_labels ds)) ->
  plot_examples draw ds =
  Done ([figure]
        ++ flat_map (fun i => panel_of ds i (nth i (draw n 16) 0)) (range 16)
        ++ [tight_layout; show]).
Proof.
  intros Hdraw Hlabels Hdata Hrest Hwf Hn Hbin.
  apply Nat.leb_le in Hrest.
  destruct (sample_prelude draw ds n rest Hdraw Hlabels Hdata Hwf Hn)
    as (ids & Hids & Hlen & Hlt & Hrc & Hcd & Hcl).
  unfold plot_examples, len. rewrite Hlabels. cbn [lift obind].
  rewrite <- Hids, Hrc. cbn [lift obind]. rewrite Hcd, Hcl. cbn [lift obind].
  rewrite Hlen.
  rewrite (ofor_each_collect nat command
             (fun i => panel_of ds i (nth i ids 0)) (fun i => i < 16)).
  - cbn [obind]. now rewrite <- app_assoc.
  - intros i log Hi.
    pose proof (panel_turn ds ids i log Hi Hlen) as Hturn.
    rewrite Hdata in Hturn. cbn [tl] in Hturn. rewrite Hrest in Hturn.
    rewrite Hturn. cbv zeta.
    assert (Hl : nth (nth i ids 0) (data (train_labels ds)) 0%Z = 0%Z \/
                 nth (nth i ids 0) (data (train_labels ds)) 0%Z = 1%Z).
    { rewrite Forall_forall in Hbin. apply Hbin. apply nth_In.
      red in Hwf. rewrite Hlabels in Hwf. cbn [size_of fold_right] in Hwf.
      rewrite Forall_forall in Hlt.
      assert (nth i ids 0 < n) by (apply Hlt, nth_In; lia). lia. }
    destruct Hl as [-> | ->]; reflexivity.
  - apply range_bound.
Qed.

Lemma plot_examples_panels_witness :
  plot_examples (fun _ size => repeat 0 size) sample_ds =
  Done ([figure]
        ++ flat_map (fun i => panel_of sample_ds i (nth i (repeat 0 16) 0))
             (range 16)
        ++ [tight_layout; show]).
Proof.
  apply (plot_examples_panels (fun _ size => repeat 0 size) sample_ds 3 [1; 2]);
    try reflexivity.
  - intros a size Ha. split; [apply repeat_length|].
    apply Forall_forall. intros j Hj. apply repeat_spec in Hj. lia.
  - lia.
  - repeat (apply Forall_cons; [auto|]). apply Forall_nil.
Defined.

(** When no training example is left, the sample plot stops at the
    random draw with [ValueError]: 16 indices cannot be drawn from an
    empty range. *)
Theorem plot_examples_empty (draw : nat -> nat -> list nat) (ds : dataset)
  (rest : list nat) :
  shape (train_labels ds) = 0 :: rest ->
  plot_examples draw ds = Failed ValueError.
Proof.
  intros H. unfold plot_examples, len. rewrite H. reflexivity.
Qed.

Lemma plot_examples_empty_witness :
  plot_examples (fun _ size => repeat 0 size)
    (mk_dataset (mk_ndarray [0; 1; 2] []) (mk_ndarray [0] [])
                clean_data clean_labels clean_data clean_labels)
  = Failed ValueError.
Proof.
  apply (plot_examples_empty _ _ []). reflexivity.
Defined.

(** On examples that are curves or tables, a label other than 0 and 1 at
    one of the drawn indices ends the sample plot with [KeyError]: the
    dictionaries of colours and titles have no other key. *)
Theorem plot_examples_key_error (draw : nat -> nat -> list nat)
  (ds : dataset) (n : nat) (rest : list nat) (i : nat) :
  draws_in_range draw ->
  shape (train_labels ds) = [n] -> shape (train_data ds) = n :: rest ->
  length rest <= 2 ->
  wf (train_labels ds) -> 0 < n -> i < 16 ->
  nth (nth i (draw n 16) 0) (data (train_labels ds)) 0%Z <> 0%Z ->
  nth (nth i (draw n 16) 0) (data (train_labels ds)) 0%Z <> 1%Z ->
  plot_examples draw ds = KeyError.
Proof.
  intros Hdraw Hlabels Hdata Hrest Hwf Hn Hi H0 H1.
  apply Nat.leb_le in Hrest.
  destruct (sample_prelude draw ds n rest Hdraw Hlabels Hdata Hwf Hn)
    as (ids & Hids & Hlen & Hlt & Hrc & Hcd & Hcl).
  unfold plot_examples, len. rewrite Hlabels. cbn [lift obind].
  rewrite <- Hids in *. rewrite Hrc. cbn [lift obind].
  rewrite Hcd, Hcl. cbn [lift obind]. rewrite Hlen.
  set (lab := fun k => nth (nth k ids 0) (data (train_labels ds)) 0%Z).
  rewrite (ofor_each_key_error nat (list command)
             (fun k => k < 16 /\ (Z.eqb (lab k) 1 || Z.eqb (lab k) 0) = true)
             (fun k => k < 16 /\ (Z.eqb (lab k) 1 || Z.eqb (lab k) 0) = false));
    [reflexivity| | | |].
  - intros k log [Hk Hlab].
    pose proof (panel_turn ds ids k log Hk Hlen) as Hturn.
    rewrite Hdata in Hturn. cbn [tl] in Hturn. rewrite Hrest in Hturn.
    rewrite Hturn. cbv zeta.
    fold (lab k). rewrite Hlab. eauto.
  - intros k log [Hk Hlab].
    pose proof (panel_turn ds ids k log Hk Hlen) as Hturn.
    rewrite Hdata in Hturn. cbn [tl] in Hturn. rewrite Hrest in Hturn.
    rewrite Hturn. cbv zeta.
    fold (lab k). now rewrite Hlab.
  - apply Forall_forall. intros k Hk. apply in_seq in Hk.
    destruct (Z.eqb (lab k) 1 || Z.eqb (lab k) 0) eqn:E;
      [left | right]; (split; [lia | reflexivity]).
  - apply Exists_exists. exists i. split; [apply in_seq; lia|].
    split; [assumption|]. unfold lab.
    apply Z.eqb_neq in H0, H1. now rewrite H0, H1.
Qed.

Lemma plot_examples_key_error_witness :
  plot_examples (fun _ size => repeat 0 size)
    (mk_dataset clean_data (mk_ndarray [2] [2; 0]%Z)
                clean_data clean_labels clean_data clean_labels)
  = KeyError.
Proof.
  apply (plot_examples_key_error (fun _ size => repeat 0 size) _ 2 [1; 2] 0);
    try reflexivity; try (simpl; lia); try discriminate.
  intros a size Ha. split; [apply repeat_length|].
  apply Forall_forall. intros j Hj. apply repeat_spec in Hj. lia.
Defined.

(** Examples of more than two axes stop the sample plot at its first
    panel with [ValueError], when the label drawn first is 0 or 1: the
    colour is found, and the drawing call refuses the array. *)
Theorem plot_examples_many_axes (draw : nat -> nat -> list nat)
  (ds : dataset) (n : nat) (rest : list nat) :
  draws_in_range draw ->
  shape (train_labels ds) = [n] -> shape (train_data ds) = n :: rest ->
  2 < length rest ->
  wf (train_labels ds) -> 0 < n ->
  (nth (nth 0 (draw n 16) 0) (data (train_labels ds)) 0%Z = 0%Z \/
   nth (nth 0 (draw n 16) 0) (data (train_labels ds)) 0%Z = 1%Z) ->
  plot_examples draw ds = Failed ValueError.
Proof.
  intros Hdraw Hlabels Hdata Hrest Hwf Hn Hlab.
  apply Nat.leb_gt in Hrest.
  destruct (sample_prelude draw ds n rest Hdraw Hlabels Hdata Hwf Hn)
    as (ids & Hids & Hlen & Hlt & Hrc & Hcd & Hcl).
  unfold plot_examples, len. rewrite Hlabels. cbn [lift obind].
  rewrite <- Hids in *. rewrite Hrc. cbn [lift obind].
  rewrite Hcd, Hcl. cbn [lift obind]. rewrite Hlen.
  unfold range. cbn [seq ofor_each].
  pose proof (panel_turn ds ids 0 [figure] ltac:(lia) Hlen) as Hturn.
  rewrite Hdata in Hturn. cbn [tl] in Hturn. rewrite Hrest in Hturn.
  rewrite Hturn. cbv zeta.
  destruct Hlab as [-> | ->]; reflexivity.
Qed.

Lemma plot_examples_many_axes_witness :
  plot_examples (fun _ size => repeat 0 size)
    (mk_dataset (mk_ndarray [1; 1; 1; 1] [F64.one]) (mk_ndarray [1] [1%Z])
                clean_data clean_labels clean_data clean_labels)
  = Failed ValueError.
Proof.
  apply (plot_examples_many_axes (fun _ size => repeat 0 size) _ 1 [1; 1; 1]);
    try reflexivity; try (simpl; lia).
  intros a size Ha. split; [apply repeat_length|].
  apply Forall_forall. intros j Hj. apply repeat_spec in Hj. lia.
Defined.

(** ** Rounding in binary64 *)

Section Rounding.
Local Open Scope Z_scope.

Lemma digits2_bounds (p : positive) :
  2 ^ (Zpos (digits2_pos p) - 1) <= Zpos p < 2 ^ Zpos (digits2_pos p).
Proof.
  induction p as [p IH|p IH|]; cbn [digits2_pos].
  - rewrite Pos2Z.inj_succ.
    replace (Z.succ (Zpos (digits2_pos p)) - 1) with
      (Z.succ (Zpos (digits2_pos p) - 1)) by lia.
    rewrite !Z.pow_succ_r by lia. lia.
  - rewrite Pos2Z.inj_succ.
    replace (Z.succ (Zpos (digits2_pos p)) - 1) with
      (Z.succ (Zpos (digits2_pos p) - 1)) by lia.
    rewrite !Z.pow_succ_r by lia. lia.
  - cbn. lia.
Qed.

Lemma digits2_unique (p : positive) (d : Z) :
  2 ^ (d - 1) <= Zpos p < 2 ^ d -> Zpos (digits2_pos p) = d.
Proof.
  intros [Hlo Hhi]. pose proof (digits2_bounds p) as [Hlo' Hhi'].
  assert (Hd : 0 < d).
  { destruct (Z.ltb_spec 0 d) as [|Hd]; [assumption|].
    destruct (Z.eq_dec d 0) as [->|]; [simpl in Hhi; lia|].
    rewrite Z.pow_neg_r in Hhi by lia. lia. }
  destruct (Z.lt_trichotomy (Zpos (digits2_pos p)) d) as [H|[H|H]];
    [|assumption|].
  - assert (2 ^ Zpos (digits2_pos p) <= 2 ^ (d - 1))
      by (apply Z.pow_le_mono_r; lia). lia.
  - assert (2 ^ d <= 2 ^ (Zpos (digits2_pos p) - 1))
      by (apply Z.pow_le_mono_r; lia). lia.
Qed.

(** Iterating [shr_1]. *)
Lemma iter_pos_nat (A : Type) (f : A -> A) (p : positive) (x : A) :
  iter_pos f p x = Nat.iter (Pos.to_nat p) f x.
Proof.
  revert x. induction p as [p IH|p IH|]; intros x; cbn [iter_pos].
  - rewrite !IH, Pos2Nat.inj_xI.
    rewrite <- Nat.iter_succ_r. rewrite <- Nat.iter_add. f_equal. lia.
  - rewrite !IH, Pos2Nat.inj_xO. rewrite <- Nat.iter_add. f_equal. lia.
  - reflexivity.
Qed.

Lemma shr_1_spec (m : Z) (r s : bool) :
  0 <= m ->
  shr_1 (Build_shr_record m r s) =
  Build_shr_record (m / 2) (Z.odd m) (r || s).
Proof.
  intros Hm. destruct m as [|p|p]; [reflexivity| |lia].
  destruct p as [p|p|]; cbn [shr_1].
  - f_equal. rewrite Pos2Z.inj_xI.
    apply (Z.div_unique _ _ _ 1); lia.
  - f_equal. rewrite Pos2Z.inj_xO.
    apply (Z.div_unique _ _ _ 0); lia.
  - reflexivity.
Qed.

Lemma shr_iter_spec (n : nat) (m : Z) (r s : bool) :
  0 <= m ->
  Nat.iter (S n) shr_1 (Build_shr_record m r s) =
  Build_shr_record (m / 2 ^ Z.of_nat (S n))
    (Z.testbit m (Z.of_nat n))
    (negb (m mod 2 ^ Z.of_nat n =? 0) || r || s).
Proof.
  intros Hm. induction n as [|n IH].
  - change (Nat.iter 1 shr_1 ?x) with (shr_1 x).
    rewrite (shr_1_spec m r s Hm).
    change (Z.of_nat 0) with 0. change (Z.of_nat 1) with 1.
    rewrite Z.pow_1_r, Z.pow_0_r, Z.mod_1_r, Z.bit0_odd. reflexivity.
  - change (Nat.iter (S (S n)) shr_1 ?x) with (shr_1 (Nat.iter (S n) shr_1 x)).
    rewrite IH.
    rewrite shr_1_spec by (apply Z.div_pos; [lia | apply Z.pow_pos_nonneg; lia]).
    assert (Hp : 0 < 2 ^ Z.of_nat n) by (apply Z.pow_pos_nonneg; lia).
    f_equal.
    + rewrite Z.div_div by lia.
      rewrite (Nat2Z.inj_succ (S n)), Z.pow_succ_r by lia.
      f_equal. lia.
    + rewrite (Z.testbit_odd m (Z.of_nat (S n))), Z.shiftr_div_pow2 by lia.
      reflexivity.
    + rewrite (Nat2Z.inj_succ n), Z.pow_succ_r by lia.
      rewrite (Z.mul_comm 2), Z.rem_mul_r by lia.
      rewrite Z.testbit_odd, Z.shiftr_div_pow2 by lia.
      rewrite (Zmod_odd (m / 2 ^ Z.of_nat n)).
      assert (H1 : 0 <= m mod 2 ^ Z.of_nat n < 2 ^ Z.of_nat n)
        by (apply Z.mod_pos_bound; lia).
      destruct (Z.odd (m / 2 ^ Z.of_nat n)); cbn [orb].
      * destruct (Z.eqb_spec (m mod 2 ^ Z.of_nat n + 2 ^ Z.of_nat n * 1) 0);
          [lia | reflexivity].
      * now rewrite Z.mul_0_r, Z.add_0_r.
Qed.

Lemma rne_of_spec (rc : shr_record) :
  round_nearest_even (shr_m rc) (loc_of_shr_record rc) = rne_of rc.
Proof.
  destruct rc as [m r s]. unfold rne_of. cbn [shr_m shr_r shr_s].
  rewrite <- Z.negb_even.
  destruct r, s; cbn [loc_of_shr_record round_nearest_even andb orb negb];
    try reflexivity.
  destruct (Z.even m); reflexivity.
Qed.

Lemma shr_fexp_normal (m e : Z) (l : location) (k : Z) :
  0 < m -> Zdigits2 m = 53 + k -> 0 <= k -> -1074 <= e + k ->
  shr_fexp 53 1024 m e l = (shr_k m l k, e + k).
Proof.
  intros Hm Hd Hk He. unfold shr_fexp, fexp, emin. rewrite Hd.
  replace (Z.max (53 + k + e - 53) (3 - 1024 - 53) - e) with k by lia.
  unfold shr, shr_k. destruct k as [|p|p]; [|clear Hk|lia].
  - cbn [Z.eqb]. now rewrite Z.add_0_r.
  - cbn [Z.eqb]. f_equal. rewrite iter_pos_nat.
    destruct (Pos2Nat.is_succ p) as [n Hn]. rewrite Hn.
    assert (Hrec : forall rc, rc = Build_shr_record (shr_m rc) (shr_r rc) (shr_s rc))
      by (intros []; reflexivity).
    rewrite (Hrec (shr_record_of_loc m l)) at 1.
    assert (Hmm : shr_m (shr_record_of_loc m l) = m)
      by (destruct l as [|[]]; reflexivity).
    rewrite Hmm, shr_iter_spec by lia.
    assert (Hp : Z.pos p = Z.of_nat (S n)) by lia.
    rewrite Hp.
    replace (Z.of_nat (S n) - 1) with (Z.of_nat n) by lia.
    destruct l as [|[]]; reflexivity.
Qed.

Lemma shr_k_bounds (m : Z) (l : location) (k : Z) :
  0 < m -> Zdigits2 m = 53 + k -> 0 <= k ->
  4503599627370496 <= shr_m (shr_k m l k) < 9007199254740992.
Proof.
  intros Hm Hd Hk. destruct m as [|p|p]; try lia.
  cbn [Zdigits2] in Hd. pose proof (digits2_bounds p) as Hb.
  rewrite Hd in Hb. unfold shr_k.
  destruct (Z.eqb_spec k 0) as [->|Hk0].
  - replace (shr_m (shr_record_of_loc (Z.pos p) l)) with (Z.pos p)
      by (destruct l as [|[]]; reflexivity).
    change (2 ^ (53 + 0 - 1)) with 4503599627370496 in Hb.
    change (2 ^ (53 + 0)) with 9007199254740992 in Hb. lia.
  - cbn [shr_m].
    replace (53 + k - 1) with (52 + k) in Hb by lia.
    rewrite !Z.pow_add_r in Hb by lia.
    change (2 ^ 52) with 4503599627370496 in Hb.
    change (2 ^ 53) with 9007199254740992 in Hb.
    assert (Hp : 0 < 2 ^ k) by (apply Z.pow_pos_nonneg; lia).
    split.
    + apply Z.div_le_lower_bound; lia.
    + apply Z.div_lt_upper_bound; lia.
Qed.

Lemma binary_round_aux_normal (m e : Z) (l : location) (k : Z) :
  0 < m -> Zdigits2 m = 53 + k -> 0 <= k ->
  -1074 <= e + k -> e + k + 1 <= 971 ->
  binary_round_aux 53 1024 false m e l = normal_result m e l k.
Proof.
  intros Hm Hd Hk Hlo Hhi. unfold binary_round_aux.
  rewrite (shr_fexp_normal m e l k Hm Hd Hk Hlo).
  rewrite rne_of_spec. unfold normal_result.
  pose proof (shr_k_bounds m l k Hm Hd Hk) as Hb.
  set (rc := shr_k m l k) in *.
  assert (Hm2 : shr_m rc <= rne_of rc <= shr_m rc + 1).
  { unfold rne_of. destruct (shr_r rc && _); lia. }
  destruct (Z.eqb_spec (rne_of rc) 9007199254740992) as [E|E].
  - rewrite E.
    rewrite (shr_fexp_normal 9007199254740992 (e + k) loc_Exact 1);
      [|lia|reflexivity|lia|lia].
    cbn [shr_k Z.eqb shr_m].
    change (9007199254740992 / 2 ^ 1) with 4503599627370496.
    replace (e + k + 1 <=? 1024 - 53) with true
      by (symmetry; apply Z.leb_le; lia).
    reflexivity.
  - assert (Hpos : rne_of rc = Z.pos (Z.to_pos (rne_of rc)))
      by (rewrite Z2Pos.id; lia).
    rewrite (shr_fexp_normal (rne_of rc) (e + k) loc_Exact 0);
      [|lia| |lia|lia].
    + cbn [shr_k Z.eqb shr_record_of_loc shr_m]. rewrite Z.add_0_r.
      rewrite Hpos at 1.
      replace (e + k <=? 1024 - 53) with true
        by (symmetry; apply Z.leb_le; lia).
      reflexivity.
    + rewrite Hpos. cbn [Zdigits2]. apply digits2_unique.
      rewrite <- Hpos.
      change (2 ^ (53 + 0 - 1)) with 4503599627370496.
      change (2 ^ (53 + 0)) with 9007199254740992. lia.
Qed.

Lemma iter_xO (p q : positive) :
  Z.pos (Pos.iter xO p q) = Z.pos p * 2 ^ Z.pos q.
Proof.
  induction q as [|q IH] using Pos.peano_ind.
  - cbn [Pos.iter]. rewrite Z.pow_1_r. lia.
  - rewrite Pos.iter_succ, Pos2Z.inj_xO, IH, Pos2Z.inj_succ.
    rewrite Z.pow_succ_r by lia. lia.
Qed.

Lemma shl_align_fst (m : positive) (e e' : Z) :
  e' <= e -> Z.pos (fst (shl_align m e e')) = Z.pos m * 2 ^ (e - e').
Proof.
  intros He. unfold shl_align.
  destruct (e' - e) as [|d|d] eqn:Hd; try lia.
  - replace (e - e') with 0 by lia. cbn [fst]. lia.
  - cbn [fst]. rewrite iter_xO. f_equal. f_equal. lia.
Qed.

Lemma Zdigits2_mul_pow2 (a j : Z) :
  0 < a -> 0 <= j -> Zdigits2 (a * 2 ^ j) = Zdigits2 a + j.
Proof.
  intros Ha Hj. destruct a as [|p|p]; try lia.
  assert (Hp : 0 < 2 ^ j) by (apply Z.pow_pos_nonneg; lia).
  assert (Hpos : Z.pos p * 2 ^ j = Z.pos (Z.to_pos (Z.pos p * 2 ^ j)))
    by (rewrite Z2Pos.id; lia).
  rewrite Hpos. cbn [Zdigits2]. apply digits2_unique. rewrite <- Hpos.
  pose proof (digits2_bounds p) as Hb.
  replace (Z.pos (digits2_pos p) + j - 1)
    with (Z.pos (digits2_pos p) - 1 + j) by lia.
  rewrite !Z.pow_add_r by lia. nia.
Qed.

(** Rounding a mantissa of [53 + k] bits. *)
Lemma binary_normalize_normal (m e k : Z) :
  0 < m -> Zdigits2 m = 53 + k -> 0 <= k ->
  -1074 <= e + k -> e + k + 1 <= 971 ->
  binary_normalize 53 1024 m e false = normal_result m e loc_Exact k.
Proof.
  intros Hm Hd Hk Hlo Hhi. destruct m as [|p|p]; try lia.
  unfold binary_normalize, binary_round.
  cbn [Zdigits2] in Hd. rewrite Hd.
  unfold shl_align, fexp, emin.
  replace (Z.max (53 + k + e - 53) (3 - 1024 - 53) - e) with k by lia.
  destruct k as [|q|q]; try lia;
    now apply binary_round_aux_normal.
Qed.

(** A mantissa that is a 53-bit number times a power of two rounds to
    that number. *)
Lemma normal_result_exact (n e k : Z) :
  4503599627370496 <= n < 9007199254740992 -> 0 <= k ->
  normal_result (n * 2 ^ k) e loc_Exact k = S754_finite false (Z.to_pos n) (e + k).
Proof.
  intros Hn Hk. unfold normal_result.
  assert (Hr : rne_of (shr_k (n * 2 ^ k) loc_Exact k) = n).
  { unfold shr_k. destruct (Z.eqb_spec k 0) as [->|Hk0].
    - unfold rne_of. cbn [shr_record_of_loc shr_r shr_m andb].
      rewrite Z.pow_0_r. lia.
    - unfold rne_of. cbn [shr_record_of_loc shr_r shr_s shr_m].
      rewrite Z.mul_pow2_bits_low by lia. cbn [andb].
      apply Z.div_mul. apply Z.pow_nonzero; lia. }
  rewrite Hr. destruct (Z.eqb_spec n 9007199254740992); [lia | reflexivity].
Qed.

Lemma mant_bounds (a : Z) :
  0 < a < 9007199254740992 ->
  1 <= Zdigits2 a <= 53 /\ 4503599627370496 <= mant a < 9007199254740992.
Proof.
  intros Ha. destruct a as [|p|p]; try lia. unfold mant. cbn [Zdigits2].
  pose proof (digits2_bounds p) as Hb.
  assert (Hd : Z.pos (digits2_pos p) <= 53).
  { destruct (Z.le_gt_cases (Z.pos (digits2_pos p)) 53) as [|H]; [assumption|].
    assert (2 ^ 53 <= 2 ^ (Z.pos (digits2_pos p) - 1))
      by (apply Z.pow_le_mono_r; lia).
    change (2 ^ 53) with 9007199254740992 in *. lia. }
  split; [lia|].
  set (d := Z.pos (digits2_pos p)) in *.
  assert (H52 : 2 ^ (d - 1) * 2 ^ (53 - d) = 4503599627370496).
  { rewrite <- Z.pow_add_r by lia. replace (d - 1 + (53 - d)) with 52 by lia.
    reflexivity. }
  assert (H53 : 2 ^ d * 2 ^ (53 - d) = 9007199254740992).
  { rewrite <- Z.pow_add_r by lia. replace (d + (53 - d)) with 53 by lia.
    reflexivity. }
  assert (Hp : 0 < 2 ^ (53 - d)) by (apply Z.pow_pos_nonneg; lia).
  nia.
Qed.

(** Integers below [2^53] convert without rounding. *)
Lemma of_Z_pos (a : Z) :
  0 < a < 9007199254740992 ->
  F64.of_Z a = S754_finite false (Z.to_pos (mant a)) (Zdigits2 a - 53).
Proof.
  intros Ha. destruct (mant_bounds a Ha) as [Hd Hm].
  unfold F64.of_Z, F64.prec, F64.emax.
  destruct a as [|p|p]; try lia.
  unfold binary_normalize, binary_round.
  assert (Hal : shl_align p 0 (fexp 53 1024 (Z.pos (digits2_pos p) + 0))
                = (Z.to_pos (mant (Z.pos p)), Zdigits2 (Z.pos p) - 53)).
  { unfold shl_align, fexp, emin. cbn [Zdigits2] in *.
    replace (Z.max (Z.pos (digits2_pos p) + 0 - 53) (3 - 1024 - 53) - 0)
      with (Z.pos (digits2_pos p) - 53) by lia.
    unfold mant. cbn [Zdigits2].
    destruct (Z.pos (digits2_pos p) - 53) as [|q|q] eqn:Hq; try lia.
    - replace (53 - Z.pos (digits2_pos p)) with 0 by lia.
      rewrite Z.pow_0_r, Z.mul_1_r. cbn [Z.to_pos]. reflexivity.
    - f_equal; [|lia].
      replace (53 - Z.pos (digits2_pos p)) with (Z.pos q) by lia.
      rewrite <- iter_xO. reflexivity. }
  rewrite Hal.
  assert (Hpos : mant (Z.pos p) = Z.pos (Z.to_pos (mant (Z.pos p))))
    by (rewrite Z2Pos.id; lia).
  rewrite <- Hpos.
  rewrite (binary_round_aux_normal (mant (Z.pos p)) _ loc_Exact 0);
    try lia.
  - replace (mant (Z.pos p)) with (mant (Z.pos p) * 2 ^ 0) at 1
      by (rewrite Z.pow_0_r; lia).
    rewrite normal_result_exact by lia. f_equal. lia.
  - unfold mant. rewrite Zdigits2_mul_pow2 by lia. lia.
Qed.

Lemma Zdigits2_mono (a b : Z) :
  0 < a <= b -> Zdigits2 a <= Zdigits2 b.
Proof.
  intros Hab. destruct a as [|p|p]; try lia. destruct b as [|q|q]; try lia.
  cbn [Zdigits2].
  pose proof (digits2_bounds p) as Hp. pose proof (digits2_bounds q) as Hq.
  destruct (Z.le_gt_cases (Z.pos (digits2_pos p)) (Z.pos (digits2_pos q)))
    as [|H]; [assumption|].
  assert (2 ^ Z.pos (digits2_pos q) <= 2 ^ (Z.pos (digits2_pos p) - 1))
    by (apply Z.pow_le_mono_r; lia).
  lia.
Qed.

Lemma mant_exact (a : Z) :
  0 < a < 9007199254740992 ->
  forall j, 53 - Zdigits2 a <= j -> a * 2 ^ j = mant a * 2 ^ (j - (53 - Zdigits2 a)).
Proof.
  intros Ha j Hj. destruct (mant_bounds a Ha) as [Hd _]. unfold mant.
  rewrite <- Z.mul_assoc, <- Z.pow_add_r by lia. do 2 f_equal. lia.
Qed.

(** Adding two converted integers is exact when the sum stays below
    [2^53]. *)
Lemma add_of_Z (a b : Z) :
  0 < a -> 0 < b -> a + b < 9007199254740992 ->
  F64.add (F64.of_Z a) (F64.of_Z b) = F64.of_Z (a + b).
Proof.
  intros Ha Hb Hs.
  rewrite !of_Z_pos by lia.
  destruct (mant_bounds a ltac:(lia)) as [Hda Hma].
  destruct (mant_bounds b ltac:(lia)) as [Hdb Hmb].
  destruct (mant_bounds (a + b) ltac:(lia)) as [Hds Hms].
  pose proof (Zdigits2_mono a (a + b) ltac:(lia)) as Has.
  pose proof (Zdigits2_mono b (a + b) ltac:(lia)) as Hbs.
  unfold F64.add, F64.prec, F64.emax, SFadd. cbn [cond_Zopp].
  set (ea := Zdigits2 a - 53). set (eb := Zdigits2 b - 53).
  set (ez := Z.min ea eb).
  rewrite !shl_align_fst by (unfold ez; lia).
  rewrite !Z2Pos.id by lia.
  set (k := Zdigits2 (a + b) - 53 - ez).
  assert (Hk : 0 <= k) by (unfold k, ez, ea, eb; lia).
  assert (HM : mant a * 2 ^ (ea - ez) + mant b * 2 ^ (eb - ez)
               = mant (a + b) * 2 ^ k).
  { assert (H1 : mant a * 2 ^ (ea - ez) = a * 2 ^ (- ez)).
    { rewrite (mant_exact a ltac:(lia) (- ez)) by (unfold ez, ea, eb; lia).
      f_equal. f_equal. unfold ea. lia. }
    assert (H2 : mant b * 2 ^ (eb - ez) = b * 2 ^ (- ez)).
    { rewrite (mant_exact b ltac:(lia) (- ez)) by (unfold ez, ea, eb; lia).
      f_equal. f_equal. unfold eb. lia. }
    rewrite H1, H2, <- Z.mul_add_distr_r.
    rewrite (mant_exact (a + b) ltac:(lia) (- ez)) by (unfold ez, ea, eb; lia).
    f_equal. f_equal. unfold k. lia. }
  rewrite HM.
  assert (Hdig : Zdigits2 (mant (a + b) * 2 ^ k) = 53 + k).
  { rewrite Zdigits2_mul_pow2 by lia. unfold mant.
    rewrite Zdigits2_mul_pow2 by lia. lia. }
  assert (Hp : 0 < 2 ^ k) by (apply Z.pow_pos_nonneg; lia).
  rewrite (binary_normalize_normal _ ez k);
    try lia; try nia; try (unfold k, ez, ea, eb; lia).
  rewrite normal_result_exact by lia. f_equal. unfold k. lia.
Qed.

Lemma add_comm_pos (mx my : positive) (ex ey : Z) :
  F64.add (S754_finite false mx ex) (S754_finite false my ey) =
  F64.add (S754_finite false my ey) (S754_finite false mx ex).
Proof.
  unfold F64.add, SFadd. cbn [cond_Zopp].
  rewrite (Z.min_comm ey ex). f_equal. apply Z.add_comm.
Qed.

Lemma new_location_record (q ms r : Z) :
  0 < ms -> 0 <= r < ms ->
  shr_record_of_loc q (new_location ms r) =
  Build_shr_record q (ms <=? 2 * r) (negb (r =? 0) && negb (2 * r =? ms)).
Proof.
  intros Hms Hr. unfold new_location.
  destruct (Z.even ms) eqn:Hev;
    unfold new_location_even, new_location_odd;
    (destruct (Z.eqb_spec r 0) as [->|Hr0];
     [replace (ms <=? 2 * 0) with false by (symmetry; apply Z.leb_gt; lia);
      reflexivity|]);
    cbn [negb andb].
  - destruct (Z.compare_spec (2 * r) ms) as [E|E|E];
      cbn [shr_record_of_loc].
    + rewrite E, Z.leb_refl, Z.eqb_refl. reflexivity.
    + replace (ms <=? 2 * r) with false by (symmetry; apply Z.leb_gt; lia).
      replace (2 * r =? ms) with false by (symmetry; apply Z.eqb_neq; lia).
      reflexivity.
    + replace (ms <=? 2 * r) with true by (symmetry; apply Z.leb_le; lia).
      replace (2 * r =? ms) with false by (symmetry; apply Z.eqb_neq; lia).
      reflexivity.
  - assert (Hne : 2 * r <> ms).
    { intros <-. rewrite Z.even_mul in Hev. discriminate. }
    replace (2 * r =? ms) with false by (symmetry; apply Z.eqb_neq; lia).
    destruct (Z.compare_spec (2 * r + 1) ms) as [E|E|E];
      cbn [shr_record_of_loc negb].
    + replace (ms <=? 2 * r) with false by (symmetry; apply Z.leb_gt; lia).
      reflexivity.
    + replace (ms <=? 2 * r) with false by (symmetry; apply Z.leb_gt; lia).
      reflexivity.
    + replace (ms <=? 2 * r) with true by (symmetry; apply Z.leb_le; lia).
      reflexivity.
Qed.

Lemma div_core_normal (ma ms : positive) (ea es : Z) :
  Z.pos (digits2_pos ma) = 53 -> Z.pos (digits2_pos ms) = 53 ->
  -1021 <= ea - es ->
  SFdiv_core_binary 53 1024 (Z.pos ma) ea (Z.pos ms) es =
  (Z.pos ma * 2 ^ 53 / Z.pos ms, ea - es - 53,
   new_location (Z.pos ms) ((Z.pos ma * 2 ^ 53) mod Z.pos ms)).
Proof.
  intros Hda Hds He. unfold SFdiv_core_binary. cbn [Zdigits2].
  rewrite Hda, Hds. unfold fexp, emin.
  replace (Z.min (Z.max (53 + ea - (53 + es) - 53) (3 - 1024 - 53)) (ea - es))
    with (ea - es - 53) by lia.
  replace (ea - es - (ea - es - 53)) with 53 by lia.
  rewrite Z.shiftl_mul_pow2 by lia.
  unfold Z.div, Z.modulo.
  destruct (Z.div_eucl (Z.pos ma * 2 ^ 53) (Z.pos ms)) as [q r].
  reflexivity.
Qed.

(** Rounding the quotient [V / ms], given as [q] and the remainder
    [r]: the mantissa [mx] at the exponent shifted by [j] is within half
    a unit of the quotient. *)
Lemma quotient_round (V ms q r e : Z) :
  0 < ms -> 0 <= r < ms -> V = q * ms + r ->
  4503599627370496 <= q < 18014398509481984 ->
  exists mx j,
    normal_result q e (new_location ms r)
      (if q <? 9007199254740992 then 0 else 1)
    = S754_finite false (Z.to_pos mx) (e + j) /\
    4503599627370496 <= mx < 9007199254740992 /\
    0 <= j <= 2 /\
    - (2 ^ j * ms) <= 2 * (mx * 2 ^ j * ms - V) <= 2 ^ j * ms.
Proof.
  intros Hms Hr HV Hq. unfold normal_result, shr_k.
  rewrite (new_location_record q ms r Hms Hr).
  destruct (Z.ltb_spec q 9007199254740992) as [Hlt|Hge].
  - cbn [Z.eqb]. unfold rne_of. cbn [shr_m shr_r shr_s].
    destruct (Z.leb_spec ms (2 * r)) as [Hh|Hh]; cbn [andb].
    + destruct (Z.eqb_spec r 0) as [->|Hr0]; [lia|]. cbn [negb andb].
      destruct (Z.eqb_spec (2 * r) ms) as [Ht|Ht]; cbn [negb orb].
      * destruct (Z.odd q).
        -- destruct (Z.eqb_spec (q + 1) 9007199254740992) as [E|E].
           ++ exists 4503599627370496, 1. rewrite Z.add_0_r.
              change (2 ^ 1) with 2.
              repeat split; try lia; try reflexivity; nia.
           ++ exists (q + 1), 0. rewrite Z.add_0_r.
              change (2 ^ 0) with 1.
              repeat split; try lia; try reflexivity.
        -- destruct (Z.eqb_spec q 9007199254740992) as [E|E]; [lia|].
           exists q, 0. rewrite Z.add_0_r. change (2 ^ 0) with 1.
           repeat split; try lia; try reflexivity.
      * destruct (Z.eqb_spec (q + 1) 9007199254740992) as [E|E].
        -- exists 4503599627370496, 1. rewrite Z.add_0_r.
           change (2 ^ 1) with 2.
           repeat split; try lia; try reflexivity; nia.
        -- exists (q + 1), 0. rewrite Z.add_0_r. change (2 ^ 0) with 1.
           repeat split; try lia; try reflexivity.
    + destruct (Z.eqb_spec q 9007199254740992) as [E|E]; [lia|].
      exists q, 0. rewrite Z.add_0_r. change (2 ^ 0) with 1.
      repeat split; try lia; try reflexivity.
  - cbn [Z.eqb]. unfold rne_of. cbn [shr_m shr_r shr_s].
    change (2 ^ (1 - 1)) with 1. change (2 ^ 1) with 2.
    rewrite Z.mod_1_r. cbn [Z.eqb negb orb]. rewrite Z.bit0_odd.
    pose proof (Zmod_odd q) as Hodd. pose proof (Z.div_mod q 2 ltac:(lia)) as Hdm.
    assert (Hh : 4503599627370496 <= q / 2 < 9007199254740992)
      by (split; [apply Z.div_le_lower_bound | apply Z.div_lt_upper_bound]; lia).
    destruct (Z.odd q); cbn [andb].
    + destruct ((ms <=? 2 * r) || negb (r =? 0) && negb (2 * r =? ms)
                || Z.odd (q / 2)) eqn:Hs.
      * destruct (Z.eqb_spec (q / 2 + 1) 9007199254740992) as [E|E].
        -- exists 4503599627370496, 2. change (2 ^ 2) with 4.
           repeat split; try lia; try (f_equal; lia); nia.
        -- exists (q / 2 + 1), 1. change (2 ^ 1) with 2.
           repeat split; try lia; try reflexivity; nia.
      * destruct (Z.eqb_spec (q / 2) 9007199254740992) as [E|E]; [lia|].
        exists (q / 2), 1. change (2 ^ 1) with 2.
        assert (Hr0 : r = 0).
        { apply orb_false_iff in Hs. destruct Hs as [Hs _].
          apply orb_false_iff in Hs. destruct Hs as [Hs1 Hs2].
          apply Z.leb_gt in Hs1.
          destruct (Z.eqb_spec r 0) as [|Hr0]; [assumption|].
          cbn [negb andb] in Hs2. apply negb_false_iff in Hs2.
          apply Z.eqb_eq in Hs2. lia. }
        repeat split; try lia; try reflexivity; nia.
    + destruct (Z.eqb_spec (q / 2) 9007199254740992) as [E|E]; [lia|].
      exists (q / 2), 1. change (2 ^ 1) with 2.
      repeat split; try lia; try reflexivity; nia.
Qed.

Lemma Zdigits2_mant (a : Z) :
  0 < a < 9007199254740992 -> Zdigits2 (mant a) = 53.
Proof.
  intros Ha. destruct (mant_bounds a Ha) as [Hd _]. unfold mant.
  rewrite Zdigits2_mul_pow2 by lia. lia.
Qed.

(** The quotient of two converted integers, [a <= s]: a 53-bit mantissa
    [mx] at exponent [-E], within half a unit of [a / s]. *)
Lemma div_of_Z (a s : Z) :
  0 < a <= s -> s < 9007199254740992 ->
  exists mx E,
    F64.div (F64.of_Z a) (F64.of_Z s) = S754_finite false (Z.to_pos mx) (- E) /\
    4503599627370496 <= mx < 9007199254740992 /\
    51 <= E <= 106 /\
    - s <= 2 * (mx * s - a * 2 ^ E) <= s.
Proof.
  intros Ha Hs.
  rewrite !of_Z_pos by lia.
  destruct (mant_bounds a ltac:(lia)) as [Hda Hma].
  destruct (mant_bounds s ltac:(lia)) as [Hds Hms].
  pose proof (Zdigits2_mono a s ltac:(lia)) as Hmono.
  pose proof (Zdigits2_mant a ltac:(lia)) as Hdma.
  pose proof (Zdigits2_mant s ltac:(lia)) as Hdms.
  assert (Hpa : mant a = Z.pos (Z.to_pos (mant a))) by (rewrite Z2Pos.id; lia).
  assert (Hps : mant s = Z.pos (Z.to_pos (mant s))) by (rewrite Z2Pos.id; lia).
  unfold F64.div, F64.prec, F64.emax, SFdiv. cbn [xorb].
  rewrite div_core_normal;
    [| rewrite Hpa in Hdma; exact Hdma | rewrite Hps in Hdms; exact Hdms | lia].
  rewrite <- Hpa, <- Hps.
  set (V := mant a * 2 ^ 53).
  set (q := V / mant s). set (r := V mod mant s).
  set (e := Zdigits2 a - 53 - (Zdigits2 s - 53) - 53).
  assert (HV : V = q * mant s + r).
  { unfold q, r. rewrite Z.mul_comm. apply Z.div_mod. lia. }
  assert (Hr : 0 <= r < mant s) by (apply Z.mod_pos_bound; lia).
  assert (HVb : 4503599627370496 * 9007199254740992 <= V
                < 9007199254740992 * 9007199254740992).
  { unfold V. change (2 ^ 53) with 9007199254740992. lia. }
  assert (Hq : 4503599627370496 <= q < 18014398509481984) by nia.
  set (k := if q <? 9007199254740992 then 0 else 1).
  assert (Hk : 0 <= k <= 1)
    by (unfold k; destruct (q <? 9007199254740992); lia).
  assert (Hdq : Zdigits2 q = 53 + k).
  { assert (Hpq : q = Z.pos (Z.to_pos q)) by (rewrite Z2Pos.id; lia).
    rewrite Hpq. cbn [Zdigits2]. apply digits2_unique. rewrite <- Hpq.
    unfold k. destruct (Z.ltb_spec q 9007199254740992).
    - change (2 ^ (53 + 0 - 1)) with 4503599627370496.
      change (2 ^ (53 + 0)) with 9007199254740992. lia.
    - change (2 ^ (53 + 1 - 1)) with 9007199254740992.
      change (2 ^ (53 + 1)) with 18014398509481984. lia. }
  rewrite (binary_round_aux_normal q e _ k) by (unfold e; lia).
  destruct (quotient_round V (mant s) q r e ltac:(lia) Hr HV Hq)
    as (mx & j & Hres & Hmx & Hj & Herr).
  fold k in Hres. rewrite Hres.
  exists mx, (- (e + j)).
  split; [f_equal; lia|]. split; [exact Hmx|].
  split; [unfold e; lia|].
  set (E := - (e + j)).
  assert (Hscale : a * 2 ^ E * (2 ^ j * 2 ^ (53 - Zdigits2 s)) = V).
  { unfold V, mant. rewrite <- !Z.mul_assoc. f_equal.
    rewrite <- !Z.pow_add_r by (unfold E, e; lia).
    f_equal. unfold E, e. lia. }
  assert (HT : 0 < 2 ^ j * 2 ^ (53 - Zdigits2 s))
    by (apply Z.mul_pos_pos; apply Z.pow_pos_nonneg; lia).
  assert (Hms' : 2 ^ j * mant s = s * (2 ^ j * 2 ^ (53 - Zdigits2 s)))
    by (unfold mant; ring).
  set (T := 2 ^ j * 2 ^ (53 - Zdigits2 s)) in *.
  assert (Hlin : 2 * (mx * 2 ^ j * mant s - V)
                 = T * (2 * (mx * s - a * 2 ^ E))).
  { rewrite <- Hscale.
    replace (mx * 2 ^ j * mant s) with (mx * (2 ^ j * mant s)) by ring.
    rewrite Hms'. ring. }
  rewrite Hlin, Hms' in Herr.
  split; nia.
Qed.

Lemma div_eq (a b q : Z) :
  0 < b -> q * b <= a < (q + 1) * b -> a / b = q.
Proof.
  intros Hb H. symmetry. apply (Z.div_unique a b q (a - q * b)); lia.
Qed.

(** A sum that lies within a quarter of a unit of 1 rounds to 1.0. *)
Lemma round_to_one (M G : Z) :
  0 <= G <= 53 ->
  (G = 0 /\ M = 9007199254740992) \/
  (1 <= G /\
   9007199254740992 * 2 ^ G - 2 ^ (G - 1) <= M
   <= 9007199254740992 * 2 ^ G + 2 ^ (G - 1)) ->
  binary_normalize 53 1024 M (- (53 + G)) false = F64.one.
Proof.
  intros HG HM.
  assert (HP : 0 < 2 ^ G) by (apply Z.pow_pos_nonneg; lia).
  assert (Hcase : (9007199254740992 * 2 ^ G <= M
                   < 9007199254740992 * 2 ^ G + 2 ^ G) \/
                  (1 <= G /\
                   9007199254740992 * 2 ^ G - 2 ^ (G - 1) <= M
                   < 9007199254740992 * 2 ^ G)).
  { destruct HM as [[-> ->]|[H1 HM]].
    - left. change (2 ^ 0) with 1. lia.
    - assert (HH : 2 ^ G = 2 * 2 ^ (G - 1)).
      { rewrite <- Z.pow_succ_r by lia. f_equal. lia. }
      destruct (Z.le_gt_cases (9007199254740992 * 2 ^ G) M); [left|right]; lia. }
  clear HM. destruct Hcase as [HM|[H1 HM]].
  - (* at or above 1 *)
    assert (H2P : 2 ^ (G + 1) = 2 * 2 ^ G)
      by (rewrite Z.pow_add_r by lia; change (2 ^ 1) with 2; lia).
    rewrite (binary_normalize_normal M _ (G + 1)); try lia.
    + unfold normal_result, shr_k.
      destruct (Z.eqb_spec (G + 1) 0) as [|_]; [lia|].
      unfold rne_of. cbn [shr_m shr_r shr_s shr_record_of_loc].
      replace (G + 1 - 1) with G by lia.
      rewrite Z.testbit_odd, Z.shiftr_div_pow2 by lia.
      rewrite (div_eq M (2 ^ G) 9007199254740992) by lia.
      cbn [Z.odd andb].
      rewrite (div_eq M (2 ^ (G + 1)) 4503599627370496) by lia.
      cbn [Z.eqb Pos.eqb Z.to_pos]. unfold F64.one. f_equal. lia.
    + assert (Hpos : M = Z.pos (Z.to_pos M)) by (rewrite Z2Pos.id; lia).
      rewrite Hpos. cbn [Zdigits2]. apply digits2_unique. rewrite <- Hpos.
      replace (53 + (G + 1) - 1) with (53 + G) by lia.
      replace (53 + (G + 1)) with (54 + G) by lia.
      rewrite !Z.pow_add_r by lia.
      change (2 ^ 53) with 9007199254740992.
      change (2 ^ 54) with 18014398509481984. lia.
  - (* just below 1 *)
    assert (HH : 2 ^ G = 2 * 2 ^ (G - 1)).
    { rewrite <- Z.pow_succ_r by lia. f_equal. lia. }
    assert (HPh : 0 < 2 ^ (G - 1)) by (apply Z.pow_pos_nonneg; lia).
    rewrite (binary_normalize_normal M _ G); try lia.
    + unfold normal_result, shr_k.
      destruct (Z.eqb_spec G 0) as [|_]; [lia|].
      unfold rne_of. cbn [shr_m shr_r shr_s shr_record_of_loc].
      rewrite Z.testbit_odd, Z.shiftr_div_pow2 by lia.
      rewrite (div_eq M (2 ^ (G - 1)) 18014398509481983) by lia.
      rewrite (div_eq M (2 ^ G) 9007199254740991) by lia.
      cbn [Z.odd andb orb].
      rewrite orb_true_r.
      change (9007199254740991 + 1) with 9007199254740992.
      cbn [Z.eqb Pos.eqb]. unfold F64.one. f_equal. lia.
    + assert (Hpos : M = Z.pos (Z.to_pos M)) by (rewrite Z2Pos.id; lia).
      rewrite Hpos. cbn [Zdigits2]. apply digits2_unique. rewrite <- Hpos.
      replace (53 + G - 1) with (52 + G) by lia.
      rewrite !Z.pow_add_r by lia.
      change (2 ^ 53) with 9007199254740992.
      change (2 ^ 52) with 4503599627370496. lia.
Qed.

Lemma half_unit (m c s : Z) :
  0 < s -> - s <= 2 * ((m - c) * s) <= s -> m = c.
Proof.
  intros Hs H. destruct (Z.lt_trichotomy m c) as [Hlt|[Heq|Hgt]];
    [exfalso|assumption|exfalso].
  - assert ((m - c) * s <= - s) by nia. lia.
  - assert (s <= (m - c) * s) by nia. lia.
Qed.

Lemma within_half (D H s : Z) :
  0 < s -> - ((1 + 2 * H) * s) <= 2 * (D * s) <= (1 + 2 * H) * s ->
  - H <= D <= H.
Proof.
  intros Hs HD. split.
  - destruct (Z.le_gt_cases (- H) D) as [|Hc]; [assumption|exfalso].
    assert (D * s <= (- H - 1) * s) by (apply Z.mul_le_mono_nonneg_r; lia).
    lia.
  - destruct (Z.le_gt_cases D H) as [|Hc]; [assumption|exfalso].
    assert ((H + 1) * s <= D * s) by (apply Z.mul_le_mono_nonneg_r; lia).
    lia.
Qed.

(** The two quotients of a row add up to 1.0; here for [a <= b]. *)
Lemma quotients_sum_le (a b : Z) :
  0 < a <= b -> a + b < 9007199254740992 ->
  F64.add (F64.div (F64.of_Z a) (F64.of_Z (a + b)))
          (F64.div (F64.of_Z b) (F64.of_Z (a + b))) = F64.one.
Proof.
  intros Ha Hs. set (s := a + b) in *.
  destruct (div_of_Z a s ltac:(lia) Hs) as (mx & Ex & -> & Hmx & HEx & Hx).
  destruct (div_of_Z b s ltac:(lia) Hs) as (my & Ey & -> & Hmy & HEy & Hy).
  (* the larger quotient lies in [1/2, 1) *)
  assert (Ey53 : Ey = 53).
  { destruct (Z.lt_trichotomy Ey 53) as [H|[H|H]]; [exfalso|assumption|exfalso].
    - assert (Hp : 2 ^ Ey <= 4503599627370496)
        by (change 4503599627370496 with (2 ^ 52); apply Z.pow_le_mono_r; lia).
      assert (0 < 2 ^ Ey) by (apply Z.pow_pos_nonneg; lia).
      assert (b * 2 ^ Ey <= b * 4503599627370496)
        by (apply Z.mul_le_mono_nonneg_l; lia).
      nia.
    - assert (Hp : 18014398509481984 <= 2 ^ Ey)
        by (change 18014398509481984 with (2 ^ 54); apply Z.pow_le_mono_r; lia).
      assert (b * 18014398509481984 <= b * 2 ^ Ey)
        by (apply Z.mul_le_mono_nonneg_l; lia).
      nia. }
  subst Ey. change (2 ^ 53) with 9007199254740992 in Hy.
  assert (Ex53 : 53 <= Ex).
  { destruct (Z.le_gt_cases 53 Ex) as [|H]; [assumption|exfalso].
    assert (Hp : 2 ^ Ex <= 4503599627370496)
      by (change 4503599627370496 with (2 ^ 52); apply Z.pow_le_mono_r; lia).
    assert (0 < 2 ^ Ex) by (apply Z.pow_pos_nonneg; lia).
    assert (a * 2 ^ Ex <= a * 4503599627370496)
      by (apply Z.mul_le_mono_nonneg_l; lia).
    nia. }
  set (G := Ex - 53).
  assert (HG : 0 <= G <= 53) by (unfold G; lia).
  assert (HPx : 2 ^ Ex = 9007199254740992 * 2 ^ G).
  { replace Ex with (53 + G) by (unfold G; lia).
    rewrite Z.pow_add_r by lia. reflexivity. }
  rewrite HPx in Hx.
  assert (HP : 0 < 2 ^ G) by (apply Z.pow_pos_nonneg; lia).
  unfold F64.add, F64.prec, F64.emax, SFadd. cbn [cond_Zopp].
  match goal with
  | |- binary_normalize _ _ _ ?e _ = _ =>
      assert (Hmin : e = - Ex) by (apply Z.min_l; lia); rewrite !Hmin
  end.
  rewrite !shl_align_fst by lia.
  rewrite !Z2Pos.id by lia.
  replace (- Ex) with (- (53 + G)) by (unfold G; lia).
  replace (- (53 + G) - - (53 + G)) with 0 by lia.
  replace (Z.opp 53 - - (53 + G)) with G by lia.
  rewrite Z.pow_0_r, Z.mul_1_r.
  apply round_to_one; [exact HG|].
  destruct (Z.eq_dec G 0) as [HG0|HG0].
  - left. split; [exact HG0|]. rewrite HG0 in *.
    change (2 ^ 0) with 1 in *. rewrite Z.mul_1_r in *.
    assert (Hs0 : 0 < s) by (unfold s; lia).
    assert (H1 : 4503599627370496 * s <= mx * s)
      by (apply Z.mul_le_mono_nonneg_r; lia).
    assert (Hab : a = b) by (unfold s in *; lia).
    assert (Hs2 : s = 2 * a) by (unfold s; lia).
    assert (Hmx' : mx = 4503599627370496).
    { apply (half_unit mx 4503599627370496 s Hs0).
      replace ((mx - 4503599627370496) * s)
        with (mx * s - a * 9007199254740992) by (rewrite Hs2; ring).
      exact Hx. }
    assert (Hmy' : my = 4503599627370496).
    { apply (half_unit my 4503599627370496 s Hs0).
      replace ((my - 4503599627370496) * s)
        with (my * s - b * 9007199254740992) by (rewrite Hs2, <- Hab; ring).
      exact Hy. }
    lia.
  - right. split; [lia|].
    assert (HH : 2 ^ G = 2 * 2 ^ (G - 1)).
    { rewrite <- Z.pow_succ_r by lia. f_equal. lia. }
    assert (HPh : 0 < 2 ^ (G - 1)) by (apply Z.pow_pos_nonneg; lia).
    set (P := 2 ^ G) in *. set (H := 2 ^ (G - 1)) in *.
    assert (Hsum : 2 * ((mx + my * P - 9007199254740992 * P) * s)
                   = 2 * (mx * s - a * (9007199254740992 * P))
                     + P * (2 * (my * s - b * 9007199254740992)))
      by (unfold s; ring).
    assert (Hy1 : P * (2 * (my * s - b * 9007199254740992)) <= P * s)
      by (apply Z.mul_le_mono_nonneg_l; lia).
    assert (Hy2 : P * (- s) <= P * (2 * (my * s - b * 9007199254740992)))
      by (apply Z.mul_le_mono_nonneg_l; lia).
    assert (Hs0 : 0 < s) by (unfold s; lia).
    assert (HD : - H <= mx + my * P - 9007199254740992 * P <= H).
    { apply (within_half _ H s Hs0). rewrite Hsum. lia. }
    lia.
Qed.

(** A converted integer divided by itself is 1.0. *)
Lemma div_self (s : Z) :
  0 < s < 9007199254740992 ->
  F64.div (F64.of_Z s) (F64.of_Z s) = F64.one.
Proof.
  intros Hs.
  destruct (div_of_Z s s ltac:(lia) ltac:(lia)) as (mx & E & -> & Hmx & HE & Hx).
  assert (Hm : mx = 2 ^ E).
  { apply (half_unit mx (2 ^ E) s ltac:(lia)).
    replace ((mx - 2 ^ E) * s) with (mx * s - s * 2 ^ E) by ring.
    exact Hx. }
  assert (HE52 : E = 52).
  { destruct (Z.lt_trichotomy E 52) as [H|[H|H]]; [exfalso|assumption|exfalso].
    - assert (2 ^ E <= 2 ^ 51) by (apply Z.pow_le_mono_r; lia).
      change (2 ^ 51) with 2251799813685248 in *. lia.
    - assert (2 ^ 53 <= 2 ^ E) by (apply Z.pow_le_mono_r; lia).
      change (2 ^ 53) with 9007199254740992 in *. lia. }
  subst E. subst mx. reflexivity.
Qed.

(** The two entries of a normalized row add up to exactly 1.0, whatever
    the two counts are, as long as their sum is positive and below
    [2^53]. *)
Lemma row_sums_to_one (a b : Z) :
  0 <= a -> 0 <= b -> 0 < a + b < 9007199254740992 ->
  F64.add
    (F64.div (F64.of_Z a) (F64.add (F64.of_Z a) (F64.of_Z b)))
    (F64.div (F64.of_Z b) (F64.add (F64.of_Z a) (F64.of_Z b)))
  = F64.one.
Proof.
  intros Ha Hb Hs.
  destruct (Z.eq_dec a 0) as [->|Ha0]; [|destruct (Z.eq_dec b 0) as [->|Hb0]].
  - change (F64.of_Z 0) with (S754_zero false).
    assert (Hadd : F64.add (S754_zero false) (F64.of_Z b) = F64.of_Z b)
      by (rewrite of_Z_pos by lia; reflexivity).
    rewrite Hadd, div_self by lia.
    rewrite of_Z_pos by lia. reflexivity.
  - change (F64.of_Z 0) with (S754_zero false).
    assert (Hadd : F64.add (F64.of_Z a) (S754_zero false) = F64.of_Z a)
      by (rewrite of_Z_pos by lia; reflexivity).
    rewrite Hadd, div_self by lia.
    rewrite of_Z_pos by lia. reflexivity.
  - rewrite add_of_Z by lia.
    destruct (Z.le_ge_cases a b) as [Hab|Hab].
    + apply quotients_sum_le; lia.
    + destruct (div_of_Z a (a + b) ltac:(lia) ltac:(lia))
        as (mx & Ex & Hdx & _).
      destruct (div_of_Z b (a + b) ltac:(lia) ltac:(lia))
        as (my & Ey & Hdy & _).
      rewrite Hdx, Hdy, add_comm_pos, <- Hdx, <- Hdy.
      rewrite (Z.add_comm a b). apply quotients_sum_le; lia.
Qed.

End Rounding.

(** ** The rows of the normalized matrix *)

Lemma count_pairs_le_length (yt yp : list Z) (t p : Z) :
  (count_pairs yt yp t p <= Z.of_nat (length yt))%Z.
Proof.
  unfold count_pairs. apply Nat2Z.inj_le.
  etransitivity; [apply filter_length_le|].
  rewrite length_combine. apply Nat.le_min_l.
Qed.

Lemma count_occ_pos (yt : list Z) (t : Z) :
  In t yt -> (0 < Z.of_nat (count_occ Z.eq_dec yt t))%Z.
Proof.
  intros H. apply (count_occ_In Z.eq_dec) in H. lia.
Qed.

Lemma count_occ_le_length (yt : list Z) (t : Z) :
  (Z.of_nat (count_occ Z.eq_dec yt t) <= Z.of_nat (length yt))%Z.
Proof. apply Nat2Z.inj_le. apply count_occ_bound. Qed.

(** For every input in which both classes have a true example, and with
    fewer than [2^53] samples, each row of the normalized matrix adds up
    to exactly 1.0 in binary64 arithmetic. *)
Theorem normalized_rows_sum_to_one (cnn : predictor)
  (input_data predictions : ndarray spec_float) (input_labels : ndarray Z)
  (n : nat) :
  predict cnn input_data = Ok predictions ->
  shape predictions = [n; 1] -> shape input_labels = [n] ->
  wf predictions -> wf input_labels ->
  In 0%Z (data input_labels) -> In 1%Z (data input_labels) ->
  (Z.of_nat n < 2 ^ 53)%Z ->
  exists cm_norm,
    plot_confusion_matrix cnn input_data input_labels = Ok cm_norm /\
    shape cm_norm = [2; 2] /\
    F64.sum (row cm_norm 0) = F64.one /\
    F64.sum (row cm_norm 1) = F64.one.
Proof.
  intros Hp Hsp Hsl Hwp Hwl H0 H1 Hn.
  rewrite (normalized_matrix cnn input_data predictions input_labels n)
    by auto.
  eexists. split; [reflexivity|]. split; [reflexivity|].
  assert (Hlen : length (data input_labels) = n).
  { red in Hwl. rewrite Hsl in Hwl. cbn [size_of fold_right] in Hwl. lia. }
  assert (Hlenp : length (data input_labels) =
                  length (map class_of (data predictions))).
  { rewrite length_map. red in Hwp. rewrite Hsp in Hwp.
    cbn [size_of fold_right] in Hwp. lia. }
  assert (Hbin : Forall (fun q => q = 0%Z \/ q = 1%Z)
                   (map class_of (data predictions))).
  { apply Forall_forall. intros q Hq. apply in_map_iff in Hq.
    destruct Hq as [p [<- _]]. apply class_of_binary. }
  change (2 ^ 53)%Z with 9007199254740992%Z in Hn.
  assert (Hrow : forall t, In t (data input_labels) ->
            F64.add
              (normalized_entry (data input_labels)
                 (map class_of (data predictions)) t 0)
              (normalized_entry (data input_labels)
                 (map class_of (data predictions)) t 1) = F64.one).
  { intros t Ht. unfold normalized_entry.
    pose proof (count_pairs_binary _ _ t Hlenp Hbin) as Hsum.
    pose proof (count_occ_pos _ _ Ht).
    pose proof (count_occ_le_length (data input_labels) t).
    apply row_sums_to_one; try apply count_pairs_nonneg. lia. }
  split; [exact (Hrow 0%Z H0) | exact (Hrow 1%Z H1)].
Qed.

Lemma normalized_rows_sum_to_one_witness :
  exists cm_norm,
    plot_confusion_matrix sample_cnn sample_input
      (mk_ndarray [4] [0; 1; 1; 1]%Z) = Ok cm_norm /\
    shape cm_norm = [2; 2] /\
    F64.sum (row cm_norm 0) = F64.one /\
    F64.sum (row cm_norm 1) = F64.one.
Proof.
  apply (normalized_rows_sum_to_one sample_cnn sample_input
           sample_predictions (mk_ndarray [4] [0; 1; 1; 1]%Z) 4);
    try reflexivity.
  - simpl. auto.
  - simpl. auto.
Defined.

(** ** Row sums beyond [2^53] samples *)









Lemma count_pairs_same (yt : list Z) (t p : Z) :
  count_pairs yt yt t p =
  if Z.eqb t p then Z.of_nat (count_occ Z.eq_dec yt t) else 0%Z.
Proof.
  induction yt as [|y yt IH].
  - destruct (Z.eqb t p); reflexivity.
  - rewrite count_pairs_cons, IH. cbn [count_occ].
    destruct (Z.eqb_spec t p) as [->|Htp].
    + destruct (Z.eq_dec y p) as [->|Hne].
      * rewrite Z.eqb_refl. cbn [andb]. lia.
      * destruct (Z.eqb_spec y p); [contradiction|]. cbn [andb]. lia.
    + destruct (Z.eqb_spec y t) as [->|]; [|reflexivity].
      destruct (Z.eqb_spec t p); [contradiction|]. reflexivity.
Qed.

Lemma perfect_row (c : Z) :
  (0 < c < 9007199254740992)%Z ->
  F64.div (F64.of_Z c) (F64.add (F64.of_Z c) (F64.of_Z 0)) = F64.one /\
  F64.div (F64.of_Z 0) (F64.add (F64.of_Z c) (F64.of_Z 0)) = F64.zero /\
  F64.div (F64.of_Z c) (F64.add (F64.of_Z 0) (F64.of_Z c)) = F64.one /\
  F64.div (F64.of_Z 0) (F64.add (F64.of_Z 0) (F64.of_Z c)) = F64.zero.
Proof.
  intros Hc.
  change (F64.of_Z 0) with (S754_zero false).
  assert (Hr : F64.add (F64.of_Z c) (S754_zero false) = F64.of_Z c)
    by (rewrite of_Z_pos by lia; reflexivity).
  assert (Hl : F64.add (S754_zero false) (F64.of_Z c) = F64.of_Z c)
    by (rewrite of_Z_pos by lia; reflexivity).
  rewrite Hr, Hl, div_self by lia.
  rewrite of_Z_pos by lia. repeat split; reflexivity.
Qed.

(** Perfect predictions give the identity matrix for every number of
    samples below [2^53], not only for four: when the classes of the
    predictions are the labels and both classes occur, the normalized
    matrix is 1.0 on the diagonal and 0.0 off it. *)
Theorem perfect_predictions_identity_general (cnn : predictor)
  (input_data predictions : ndarray spec_float) (input_labels : ndarray Z)
  (n : nat) :
  predict cnn input_data = Ok predictions ->
  shape predictions = [n; 1] -> shape input_labels = [n] ->
  wf predictions -> wf input_labels ->
  map class_of (data predictions) = data input_labels ->
  In 0%Z (data input_labels) -> In 1%Z (data input_labels) ->
  (Z.of_nat n < 2 ^ 53)%Z ->
  plot_confusion_matrix cnn input_data input_labels =
  Ok (mk_ndarray [2; 2] [F64.one; F64.zero; F64.zero; F64.one]).
Proof.
  intros Hp Hsp Hsl Hwp Hwl Hperfect H0 H1 Hn.
  rewrite (normalized_matrix cnn input_data predictions input_labels n)
    by auto.
  rewrite Hperfect. unfold normalized_entry. rewrite !count_pairs_same.
  cbn [Z.eqb Pos.eqb].
  assert (Hlen : length (data input_labels) = n).
  { red in Hwl. rewrite Hsl in Hwl. cbn [size_of fold_right] in Hwl. lia. }
  change (2 ^ 53)%Z with 9007199254740992%Z in Hn.
  pose proof (count_occ_pos _ _ H0) as P0.
  pose proof (count_occ_pos _ _ H1) as P1.
  pose proof (count_occ_le_length (data input_labels) 0%Z) as L0.
  pose proof (count_occ_le_length (data input_labels) 1%Z) as L1.
  destruct (perfect_row (Z.of_nat (count_occ Z.eq_dec (data input_labels) 0%Z))
              ltac:(lia)) as (E00 & E01 & _ & _).
  destruct (perfect_row (Z.of_nat (count_occ Z.eq_dec (data input_labels) 1%Z))
              ltac:(lia)) as (_ & _ & E11 & E10).
  rewrite E00, E01, E10, E11. reflexivity.
Qed.

Lemma perfect_predictions_identity_general_witness :
  plot_confusion_matrix sample_cnn sample_input
    (mk_ndarray [4] [0; 1; 0; 1]%Z) =
  Ok (mk_ndarray [2; 2] [F64.one; F64.zero; F64.zero; F64.one]).
Proof.
  apply (perfect_predictions_identity_general sample_cnn sample_input
           sample_predictions (mk_ndarray [4] [0; 1; 0; 1]%Z) 4);
    try reflexivity.
  - simpl. auto.
  - simpl. auto.
Defined.
